(** * Combat resolution and character progression of the text RPG

    A shallow embedding of [character.py], [combat.py] and the item classes
    of [items.py], followed by the properties of the combat engine and of
    the progression model.  The item and enemy databases, [inventory.py]
    and the character part of [save_system.py] are embedded after them;
    their properties are in the last part.

    Conventions of the embedding.

    - A Python method that mutates [self] and returns a value becomes a
      function from the object to the pair of the returned value and the
      object afterwards.  The methods of [Combat] also read the process-wide
      [random] module; they thread a [Random.state] next to the session.
    - Python [int] is [Z].
    - Python [float] is IEEE 754 binary64.  The products with [0.5] and
      [1.5] and the powers of [1.5] are carried out over [Q]: those
      constants are dyadic, so binary64 returns the exact rational as long
      as the numerator stays below [2^53].  That covers every hp, damage and
      stat the game can reach, and the level-up threshold up to level 31
      (up to level 76 the rounded product still has the same integer part).
      The products with [0.01], [0.005], [0.1] and [0.05] are not exact, and
      their rounding is visible through [int()]; they are carried out with
      the kernel's binary64 numbers ([PrimFloat]), which round exactly like
      CPython's.
    - The dictionaries [base_stats], [equipment_bonuses] and [equipped] get
      their keys in [Character.__init__] and no method adds or removes one:
      they are records, and a key given as a string is resolved by
      comparison.  The [stats] payload of an item and the loot table of an
      enemy are dictionaries that are iterated: they are association lists in
      insertion order. *)

From Stdlib Require Import ZArith QArith Qpower Qround Floats Bool List String Ascii.
From Stdlib Require Import DecimalString Lia.
Import ListNotations.

Set Warnings "-inexact-float".

Local Open Scope string_scope.
Local Open Scope Z_scope.

(* ================================================================= *)
(** ** Python numbers *)

Module Py.

(** [str(n)] and the [{n}] of an f-string, for an [int]. *)
Definition str (n : Z) : string := NilZero.string_of_int (Z.to_int n).

(** [int(x)] on an exactly represented value: truncation toward zero. *)
Definition int_of_Q (q : Q) : Z := Z.quot (Qnum q) (Z.pos (Qden q)).

(** The implicit conversion of an [int] operand next to a [float]:
    round to nearest, ties to even.  (An [int] beyond the binary64 range
    raises [OverflowError] in CPython and is an infinity here.) *)
Definition float_of_int (z : Z) : float :=
  SF2Prim (binary_normalize prec emax z 0 false).

(** [int(x)] on a binary64 value: truncation toward zero.  (CPython raises
    on an infinity or a NaN, which no finite game quantity produces; the
    result is 0 here.) *)
Definition int_of_float (x : float) : Z :=
  match Prim2SF x with
  | S754_finite s m e =>
      let magnitude :=
        if 0 <=? e then Z.shiftl (Z.pos m) e else Z.shiftr (Z.pos m) (- e) in
      if s then - magnitude else magnitude
  | _ => 0
  end.

(** [min(a, b)] and [max(a, b)] on floats: the first argument is kept
    unless the second compares strictly below (above) it. *)
Definition min_float (a b : float) : float := if (b <? a)%float then b else a.
Definition max_float (a b : float) : float := if (a <? b)%float then b else a.

(** [a / b] on two ints. *)
Definition truediv (a b : Z) : float :=
  (float_of_int a / float_of_int b)%float.

End Py.

(* ================================================================= *)
(** ** items.py: the item classes *)

Module Items.

Inductive ItemType :=
  CONSUMABLE | WEAPON | ARMOR | ACCESSORY | MATERIAL | QUEST.

Inductive ItemRarity := COMMON | UNCOMMON | RARE | EPIC | LEGENDARY.

(** The attributes each subclass of [Item] adds.  For [Armor] the [stats]
    are those left by its constructor, which has already added
    [defense_bonus] to the ['defense'] entry. *)
Inductive Payload :=
| ConsumablePayload (effect_type : string) (effect_amount : Z)
| WeaponPayload (damage : Z) (stats : list (string * Z)) (level_requirement : Z)
| ArmorPayload (defense_bonus : Z) (stats : list (string * Z)) (level_requirement : Z)
| AccessoryPayload (stats : list (string * Z)) (level_requirement : Z)
| MaterialPayload
| QuestPayload.

Record Item := {
  item_id : string;
  name : string;
  description : string;
  value : Z;
  rarity : ItemRarity;
  payload : Payload
}.

(** Every subclass passes its own [ItemType] to [Item.__init__]. *)
Definition item_type (i : Item) : ItemType :=
  match payload i with
  | ConsumablePayload _ _ => CONSUMABLE
  | WeaponPayload _ _ _ => WEAPON
  | ArmorPayload _ _ _ => ARMOR
  | AccessoryPayload _ _ => ACCESSORY
  | MaterialPayload => MATERIAL
  | QuestPayload => QUEST
  end.

(** [item.stats] when [hasattr(item, 'stats')]. *)
Definition stats (i : Item) : option (list (string * Z)) :=
  match payload i with
  | WeaponPayload _ st _ | ArmorPayload _ st _ | AccessoryPayload st _ => Some st
  | _ => None
  end.

(** [item.damage] when [hasattr(item, 'damage')]. *)
Definition damage (i : Item) : option Z :=
  match payload i with
  | WeaponPayload d _ _ => Some d
  | _ => None
  end.


End Items.

(* ================================================================= *)
(** ** character.py *)

Module Character.

Import Items.

Record BaseStats := {
  max_hp : Z;
  hp : Z;
  strength : Z;
  defense : Z;
  agility : Z;
  intelligence : Z;
  luck : Z
}.

Record EquipmentBonuses := {
  bonus_max_hp : Z;
  bonus_strength : Z;
  bonus_defense : Z;
  bonus_agility : Z;
  bonus_intelligence : Z;
  bonus_luck : Z
}.

Record Equipped := {
  weapon : option Item;
  armor : option Item;
  accessory : option Item
}.

Record t := {
  name : string;
  level : Z;
  xp : Z;
  xp_to_next_level : Z;
  base_stats : BaseStats;
  equipment_bonuses : EquipmentBonuses;
  equipped : Equipped;
  is_alive : bool;
  gold : Z;
  stat_points : Z
}.

(** The keys of the three dictionaries. *)
Inductive StatKey :=
  KMaxHp | KHp | KStrength | KDefense | KAgility | KIntelligence | KLuck.

Definition stat_key (stat_name : string) : option StatKey :=
  if (stat_name =? "max_hp")%string then Some KMaxHp
  else if (stat_name =? "hp")%string then Some KHp
  else if (stat_name =? "strength")%string then Some KStrength
  else if (stat_name =? "defense")%string then Some KDefense
  else if (stat_name =? "agility")%string then Some KAgility
  else if (stat_name =? "intelligence")%string then Some KIntelligence
  else if (stat_name =? "luck")%string then Some KLuck
  else None.


Inductive SlotKey := KWeapon | KArmor | KAccessory.

Definition slot_key (slot : string) : option SlotKey :=
  if (slot =? "weapon")%string then Some KWeapon
  else if (slot =? "armor")%string then Some KArmor
  else if (slot =? "accessory")%string then Some KAccessory
  else None.

(** [base_stats[k]] *)
Definition base_get (b : BaseStats) (k : StatKey) : Z :=
  match k with
  | KMaxHp => max_hp b | KHp => hp b | KStrength => strength b
  | KDefense => defense b | KAgility => agility b
  | KIntelligence => intelligence b | KLuck => luck b
  end.

(** [base_stats[k] = v] *)
Definition base_set (b : BaseStats) (k : StatKey) (v : Z) : BaseStats :=
  match k with
  | KMaxHp => {| max_hp := v; hp := hp b; strength := strength b; defense := defense b;
                 agility := agility b; intelligence := intelligence b; luck := luck b |}
  | KHp => {| max_hp := max_hp b; hp := v; strength := strength b; defense := defense b;
              agility := agility b; intelligence := intelligence b; luck := luck b |}
  | KStrength => {| max_hp := max_hp b; hp := hp b; strength := v; defense := defense b;
                    agility := agility b; intelligence := intelligence b; luck := luck b |}
  | KDefense => {| max_hp := max_hp b; hp := hp b; strength := strength b; defense := v;
                   agility := agility b; intelligence := intelligence b; luck := luck b |}
  | KAgility => {| max_hp := max_hp b; hp := hp b; strength := strength b; defense := defense b;
                   agility := v; intelligence := intelligence b; luck := luck b |}
  | KIntelligence => {| max_hp := max_hp b; hp := hp b; strength := strength b; defense := defense b;
                        agility := agility b; intelligence := v; luck := luck b |}
  | KLuck => {| max_hp := max_hp b; hp := hp b; strength := strength b; defense := defense b;
                agility := agility b; intelligence := intelligence b; luck := v |}
  end.

(** [equipment_bonuses.get(k)]: there is no ['hp'] entry. *)
Definition bonus_get (e : EquipmentBonuses) (k : StatKey) : option Z :=
  match k with
  | KMaxHp => Some (bonus_max_hp e) | KHp => None
  | KStrength => Some (bonus_strength e) | KDefense => Some (bonus_defense e)
  | KAgility => Some (bonus_agility e)
  | KIntelligence => Some (bonus_intelligence e) | KLuck => Some (bonus_luck e)
  end.

(** [equipment_bonuses[k] = v] for a key that is present. *)
Definition bonus_set (e : EquipmentBonuses) (k : StatKey) (v : Z) : EquipmentBonuses :=
  match k with
  | KMaxHp => {| bonus_max_hp := v; bonus_strength := bonus_strength e;
                 bonus_defense := bonus_defense e; bonus_agility := bonus_agility e;
                 bonus_intelligence := bonus_intelligence e; bonus_luck := bonus_luck e |}
  | KHp => e
  | KStrength => {| bonus_max_hp := bonus_max_hp e; bonus_strength := v;
                    bonus_defense := bonus_defense e; bonus_agility := bonus_agility e;
                    bonus_intelligence := bonus_intelligence e; bonus_luck := bonus_luck e |}
  | KDefense => {| bonus_max_hp := bonus_max_hp e; bonus_strength := bonus_strength e;
                   bonus_defense := v; bonus_agility := bonus_agility e;
                   bonus_intelligence := bonus_intelligence e; bonus_luck := bonus_luck e |}
  | KAgility => {| bonus_max_hp := bonus_max_hp e; bonus_strength := bonus_strength e;
                   bonus_defense := bonus_defense e; bonus_agility := v;
                   bonus_intelligence := bonus_intelligence e; bonus_luck := bonus_luck e |}
  | KIntelligence => {| bonus_max_hp := bonus_max_hp e; bonus_strength := bonus_strength e;
                        bonus_defense := bonus_defense e; bonus_agility := bonus_agility e;
                        bonus_intelligence := v; bonus_luck := bonus_luck e |}
  | KLuck => {| bonus_max_hp := bonus_max_hp e; bonus_strength := bonus_strength e;
                bonus_defense := bonus_defense e; bonus_agility := bonus_agility e;
                bonus_intelligence := bonus_intelligence e; bonus_luck := v |}
  end.

(** [equipped[slot]] *)
Definition equipped_get (q : Equipped) (k : SlotKey) : option Item :=
  match k with KWeapon => weapon q | KArmor => armor q | KAccessory => accessory q end.

(** [equipped[slot] = x] *)
Definition equipped_set (q : Equipped) (k : SlotKey) (x : option Item) : Equipped :=
  match k with
  | KWeapon => {| weapon := x; armor := armor q; accessory := accessory q |}
  | KArmor => {| weapon := weapon q; armor := x; accessory := accessory q |}
  | KAccessory => {| weapon := weapon q; armor := armor q; accessory := x |}
  end.

(** Attribute and item assignments on [self]. *)
Definition with_base (c : t) (b : BaseStats) : t :=
  {| name := name c; level := level c; xp := xp c;
     xp_to_next_level := xp_to_next_level c; base_stats := b;
     equipment_bonuses := equipment_bonuses c; equipped := equipped c;
     is_alive := is_alive c; gold := gold c; stat_points := stat_points c |}.

Definition with_bonuses (c : t) (e : EquipmentBonuses) : t :=
  {| name := name c; level := level c; xp := xp c;
     xp_to_next_level := xp_to_next_level c; base_stats := base_stats c;
     equipment_bonuses := e; equipped := equipped c;
     is_alive := is_alive c; gold := gold c; stat_points := stat_points c |}.

Definition with_equipped (c : t) (q : Equipped) : t :=
  {| name := name c; level := level c; xp := xp c;
     xp_to_next_level := xp_to_next_level c; base_stats := base_stats c;
     equipment_bonuses := equipment_bonuses c; equipped := q;
     is_alive := is_alive c; gold := gold c; stat_points := stat_points c |}.

Definition with_is_alive (c : t) (a : bool) : t :=
  {| name := name c; level := level c; xp := xp c;
     xp_to_next_level := xp_to_next_level c; base_stats := base_stats c;
     equipment_bonuses := equipment_bonuses c; equipped := equipped c;
     is_alive := a; gold := gold c; stat_points := stat_points c |}.

Definition with_gold (c : t) (g : Z) : t :=
  {| name := name c; level := level c; xp := xp c;
     xp_to_next_level := xp_to_next_level c; base_stats := base_stats c;
     equipment_bonuses := equipment_bonuses c; equipped := equipped c;
     is_alive := is_alive c; gold := g; stat_points := stat_points c |}.

Definition with_stat_points (c : t) (p : Z) : t :=
  {| name := name c; level := level c; xp := xp c;
     xp_to_next_level := xp_to_next_level c; base_stats := base_stats c;
     equipment_bonuses := equipment_bonuses c; equipped := equipped c;
     is_alive := is_alive c; gold := gold c; stat_points := p |}.

Definition with_xp (c : t) (x : Z) : t :=
  {| name := name c; level := level c; xp := x;
     xp_to_next_level := xp_to_next_level c; base_stats := base_stats c;
     equipment_bonuses := equipment_bonuses c; equipped := equipped c;
     is_alive := is_alive c; gold := gold c; stat_points := stat_points c |}.

Definition set_base (c : t) (k : StatKey) (v : Z) : t :=
  with_base c (base_set (base_stats c) k v).

Definition set_bonus (c : t) (k : StatKey) (v : Z) : t :=
  with_bonuses c (bonus_set (equipment_bonuses c) k v).

(** [Character.__init__] *)
Definition init (name : string) : t :=
  {| name := name; level := 1; xp := 0; xp_to_next_level := 100;
     base_stats := {| max_hp := 100; hp := 100; strength := 10; defense := 10;
                      agility := 10; intelligence := 10; luck := 10 |};
     equipment_bonuses := {| bonus_max_hp := 0; bonus_strength := 0; bonus_defense := 0;
                             bonus_agility := 0; bonus_intelligence := 0; bonus_luck := 0 |};
     equipped := {| weapon := None; armor := None; accessory := None |};
     is_alive := true; gold := 50; stat_points := 5 |}.

(** [get_stat]: both lookups default to 0. *)
Definition get_stat (c : t) (stat_name : string) : Z :=
  match stat_key stat_name with
  | Some k =>
      base_get (base_stats c) k
      + match bonus_get (equipment_bonuses c) k with Some v => v | None => 0 end
  | None => 0
  end.

Definition get_max_hp (c : t) : Z := get_stat c "max_hp".

Definition get_current_hp (c : t) : Z := hp (base_stats c).

(** [heal] *)
Definition heal (amount : Z) (c : t) : Z * t :=
  let old_hp := hp (base_stats c) in
  let max_hp := get_max_hp c in
  let c' := set_base c KHp (Z.min max_hp (hp (base_stats c) + amount)) in
  let actual_healed := hp (base_stats c') - old_hp in
  (actual_healed, c').

(** [take_damage] *)
Definition take_damage (damage : Z) (c : t) : Z * t :=
  let defense := get_stat c "defense" in
  let damage_reduction := (inject_Z defense * (1 # 2))%Q in
  let actual_damage := Z.max 1 (Py.int_of_Q (inject_Z damage - damage_reduction)%Q) in
  let c1 := set_base c KHp (hp (base_stats c) - actual_damage) in
  let c2 := if hp (base_stats c1) <=? 0
            then with_is_alive (set_base c1 KHp 0) false
            else c1 in
  (actual_damage, c2).

(** [is_dead] *)
Definition is_dead (c : t) : bool :=
  negb (is_alive c) || (hp (base_stats c) <=? 0).

(** [revive] *)
Definition revive (hp_percentage : float) (c : t) : t :=
  if negb (is_alive c) then
    let c1 := with_is_alive c true in
    let max_hp := get_max_hp c1 in
    set_base c1 KHp (Py.int_of_float (Py.float_of_int max_hp * hp_percentage)%float)
  else c.

(** [level_up] *)
Definition level_up (c : t) : bool * t :=
  if xp c <? xp_to_next_level c then (false, c)
  else
    let level' := level c + 1 in
    let xp' := xp c - xp_to_next_level c in
    let xp_to_next_level' :=
      Py.int_of_Q (inject_Z 100 * Qpower (3 # 2) (level' - 1))%Q in
    let points_gained := 3 + level' / 5 in
    let c1 :=
      {| name := name c; level := level'; xp := xp';
         xp_to_next_level := xp_to_next_level'; base_stats := base_stats c;
         equipment_bonuses := equipment_bonuses c; equipped := equipped c;
         is_alive := is_alive c; gold := gold c;
         stat_points := stat_points c + points_gained |} in
    let c2 := set_base c1 KMaxHp (max_hp (base_stats c1) + 10) in
    let c3 := set_base c2 KHp (get_max_hp c2) in
    (true, c3).

(** [add_xp] *)
Definition add_xp (amount : Z) (c : t) : bool * t :=
  let intel_bonus :=
    (1.0 + Py.float_of_int (get_stat c "intelligence") * 0.01)%float in
  let actual_xp := Py.int_of_float (Py.float_of_int amount * intel_bonus)%float in
  let c1 := with_xp c (xp c + actual_xp) in
  if xp_to_next_level c1 <=? xp c1 then level_up c1 else (false, c1).

(** [allocate_stat] *)
Definition allocate_stat (stat_name : string) (points : Z) (c : t) : bool * t :=
  match stat_key stat_name with
  | None => (false, c)
  | Some KHp => (false, c)
  | Some k =>
      if stat_points c <? points then (false, c)
      else
        let c1 :=
          match k with
          | KMaxHp =>
              let c' := set_base c KMaxHp (max_hp (base_stats c) + points * 5) in
              set_base c' KHp (hp (base_stats c') + points * 5)
          | _ => set_base c k (base_get (base_stats c) k + points)
          end in
        (true, with_stat_points c1 (stat_points c1 - points))
  end.

(** The body of the loop of [unequip_item], for one entry of [item.stats]. *)
Definition remove_bonus (c : t) (entry : string * Z) : t :=
  let '(stat, value) := entry in
  match stat_key stat with
  | Some k =>
      match bonus_get (equipment_bonuses c) k with
      | Some old =>
          let c1 := set_bonus c k (old - value) in
          match k with
          | KMaxHp => set_base c1 KHp (Z.min (hp (base_stats c1)) (get_max_hp c1))
          | _ => c1
          end
      | None => c
      end
  | None => c
  end.

(** [unequip_item] *)
Definition unequip_item (slot : string) (c : t) : option Item * t :=
  match slot_key slot with
  | None => (None, c)
  | Some k =>
      match equipped_get (equipped c) k with
      | None => (None, c)
      | Some item =>
          let c1 :=
            match Items.stats item with
            | Some st => fold_left remove_bonus st c
            | None => c
            end in
          (Some item, with_equipped c1 (equipped_set (equipped c1) k None))
      end
  end.

(** The body of the loop of [equip_item], for one entry of [item.stats]. *)
Definition add_bonus (c : t) (entry : string * Z) : t :=
  let '(stat, value) := entry in
  match stat_key stat with
  | Some k =>
      match bonus_get (equipment_bonuses c) k with
      | Some old =>
          let c1 := set_bonus c k (old + value) in
          match k with
          | KMaxHp => set_base c1 KHp (hp (base_stats c1) + value)
          | _ => c1
          end
      | None => c
      end
  | None => c
  end.

(** [equip_item] *)
Definition equip_item (item : Item) (slot : string) (c : t) : option Item * t :=
  match slot_key slot with
  | None => (None, c)
  | Some k =>
      let old_item := equipped_get (equipped c) k in
      let c1 := match old_item with
                | Some _ => snd (unequip_item slot c)
                | None => c
                end in
      let c2 := with_equipped c1 (equipped_set (equipped c1) k (Some item)) in
      let c3 := match Items.stats item with
                | Some st => fold_left add_bonus st c2
                | None => c2
                end in
      (old_item, c3)
  end.

(** [get_attack_damage] *)
Definition get_attack_damage (c : t) : Z :=
  let base_damage := get_stat c "strength" * 2 in
  match weapon (equipped c) with
  | Some w =>
      match Items.damage w with
      | Some d => base_damage + d
      | None => base_damage
      end
  | None => base_damage
  end.

(** [get_dodge_chance] *)
Definition get_dodge_chance (c : t) : float :=
  let agility := get_stat c "agility" in
  Py.min_float 0.5 (Py.float_of_int agility * 0.01)%float.

(** [get_crit_chance] *)
Definition get_crit_chance (c : t) : float :=
  let luck := get_stat c "luck" in
  Py.min_float 0.5 (Py.float_of_int luck * 0.005)%float.

Definition add_gold (amount : Z) (c : t) : t := with_gold c (gold c + amount).

Definition remove_gold (amount : Z) (c : t) : bool * t :=
  if amount <=? gold c then (true, with_gold c (gold c - amount)) else (false, c).

End Character.

(* ================================================================= *)
(** ** The [random] module *)

Module Random.

(** The generator is a source of raw draws read from left to right; the
    statements below hold for every source.  [cursor] counts the draws
    made so far. *)
Record state := { tape : nat -> N; cursor : nat }.

Definition draw (g : state) : N * state :=
  (tape g (cursor g), {| tape := tape g; cursor := S (cursor g) |}).

(** [random.random()]: a multiple of [2^-53] in [0, 1). *)
Definition random (g : state) : float * state :=
  let '(n, g') := draw g in
  (SF2Prim (binary_normalize prec emax (Z.of_N n mod 2 ^ 53) (-53) false), g').

(** [random.randint(a, b)]: an integer of [a..b], both ends included. *)
Definition randint (a b : Z) (g : state) : Z * state :=
  let '(n, g') := draw g in
  (a + Z.of_N n mod (b - a + 1), g').

Definition of_list (draws : list N) : state :=
  {| tape := fun i => nth i draws 0%N; cursor := 0 |}.

End Random.

(* ================================================================= *)
(** ** items.py: [Consumable.use] *)

Module Consumable.

Definition use (effect_type : string) (effect_amount : Z)
    (character : Character.t) : string * Character.t :=
  if (effect_type =? "heal")%string then
    let '(healed, c') := Character.heal effect_amount character in
    (String.concat "" ["Healed "; Py.str healed; " HP!"], c')
  else if (effect_type =? "max_hp_boost")%string then
    let c1 := Character.set_base character Character.KMaxHp
                (Character.max_hp (Character.base_stats character) + effect_amount) in
    let c2 := Character.set_base c1 Character.KHp
                (Character.hp (Character.base_stats c1) + effect_amount) in
    (String.concat "" ["Maximum HP increased by "; Py.str effect_amount; "!"], c2)
  else if (effect_type =? "revive")%string then
    if Character.is_dead character then
      (String.concat "" ["Revived with "; Py.str effect_amount; "% HP!"],
       Character.revive (Py.truediv effect_amount 100) character)
    else ("Character is not dead!", character)
  else ("Used item.", character).

End Consumable.

(* ================================================================= *)
(** ** combat.py: [Enemy] *)

Module Enemy.

Inductive EnemyType := BEAST | HUMANOID | UNDEAD | DRAGON | DEMON.

Record t := {
  enemy_id : string;
  name : string;
  level : Z;
  max_hp : Z;
  hp : Z;
  strength : Z;
  defense : Z;
  agility : Z;
  xp_reward : Z;
  gold_reward : Z;
  enemy_type : EnemyType;
  loot_table : list (string * float)
}.

(** [Enemy.__init__] *)
Definition init (enemy_id name : string) (level hp strength defense agility : Z)
    (xp_reward gold_reward : Z) (enemy_type : EnemyType)
    (loot_table : list (string * float)) : t :=
  {| enemy_id := enemy_id; name := name; level := level; max_hp := hp; hp := hp;
     strength := strength; defense := defense; agility := agility;
     xp_reward := xp_reward; gold_reward := gold_reward;
     enemy_type := enemy_type; loot_table := loot_table |}.

Definition with_hp (e : t) (v : Z) : t :=
  {| enemy_id := enemy_id e; name := name e; level := level e; max_hp := max_hp e;
     hp := v; strength := strength e; defense := defense e; agility := agility e;
     xp_reward := xp_reward e; gold_reward := gold_reward e;
     enemy_type := enemy_type e; loot_table := loot_table e |}.

(** [take_damage] *)
Definition take_damage (damage : Z) (e : t) : Z * t :=
  let damage_reduction := (inject_Z (defense e) * (1 # 2))%Q in
  let actual_damage := Z.max 1 (Py.int_of_Q (inject_Z damage - damage_reduction)%Q) in
  (actual_damage, with_hp e (Z.max 0 (hp e - actual_damage))).

(** [is_alive] *)
Definition is_alive (e : t) : bool := 0 <? hp e.

(** [get_attack_damage] *)
Definition get_attack_damage (e : t) (g : Random.state) : Z * Random.state :=
  let base_damage := strength e * 2 in
  let '(variance, g') := Random.randint (-2) 2 g in
  (Z.max 1 (base_damage + variance), g').

(** The loop of [get_loot] over the entries of the loot table. *)
Fixpoint roll_loot (entries : list (string * float)) (loot : list string)
    (g : Random.state) : list string * Random.state :=
  match entries with
  | [] => (loot, g)
  | (item_id, drop_chance) :: rest =>
      let '(r, g') := Random.random g in
      if (r <? drop_chance)%float
      then roll_loot rest (loot ++ [item_id]) g'
      else roll_loot rest loot g'
  end.

(** [get_loot] *)
Definition get_loot (e : t) (g : Random.state) : list string * Random.state :=
  roll_loot (loot_table e) [] g.

End Enemy.

(* ================================================================= *)
(** ** combat.py: [Combat] *)

Module Combat.

Inductive CombatAction := ATTACK | DEFEND | USE_ITEM | FLEE.

Inductive CombatResult := ONGOING | VICTORY | DEFEAT | FLED.

Definition is_ongoing (r : CombatResult) : bool :=
  match r with ONGOING => true | _ => false end.

Record t := {
  character : Character.t;
  enemy : Enemy.t;
  turn_count : Z;
  result : CombatResult;
  combat_log : list string;
  is_defending : bool;
  flee_attempts : Z
}.

(** [Combat.__init__] *)
Definition init (character : Character.t) (enemy : Enemy.t) : t :=
  {| character := character; enemy := enemy; turn_count := 0; result := ONGOING;
     combat_log := []; is_defending := false; flee_attempts := 0 |}.

Definition with_character (s : t) (c : Character.t) : t :=
  {| character := c; enemy := enemy s; turn_count := turn_count s; result := result s;
     combat_log := combat_log s; is_defending := is_defending s;
     flee_attempts := flee_attempts s |}.

Definition with_enemy (s : t) (e : Enemy.t) : t :=
  {| character := character s; enemy := e; turn_count := turn_count s; result := result s;
     combat_log := combat_log s; is_defending := is_defending s;
     flee_attempts := flee_attempts s |}.

Definition with_turn_count (s : t) (n : Z) : t :=
  {| character := character s; enemy := enemy s; turn_count := n; result := result s;
     combat_log := combat_log s; is_defending := is_defending s;
     flee_attempts := flee_attempts s |}.

Definition with_result (s : t) (r : CombatResult) : t :=
  {| character := character s; enemy := enemy s; turn_count := turn_count s; result := r;
     combat_log := combat_log s; is_defending := is_defending s;
     flee_attempts := flee_attempts s |}.

Definition with_is_defending (s : t) (b : bool) : t :=
  {| character := character s; enemy := enemy s; turn_count := turn_count s;
     result := result s; combat_log := combat_log s; is_defending := b;
     flee_attempts := flee_attempts s |}.

Definition with_flee_attempts (s : t) (n : Z) : t :=
  {| character := character s; enemy := enemy s; turn_count := turn_count s;
     result := result s; combat_log := combat_log s; is_defending := is_defending s;
     flee_attempts := n |}.

(** [log] *)
Definition log (message : string) (s : t) : t :=
  {| character := character s; enemy := enemy s; turn_count := turn_count s;
     result := result s; combat_log := combat_log s ++ [message];
     is_defending := is_defending s; flee_attempts := flee_attempts s |}.

(** [get_turn_order] *)
Definition get_turn_order (s : t) (g : Random.state) : list string * Random.state :=
  let player_agility := Character.get_stat (character s) "agility" in
  let enemy_agility := Enemy.agility (enemy s) in
  let '(r1, g1) := Random.randint 0 10 g in
  let player_roll := player_agility + r1 in
  let '(r2, g2) := Random.randint 0 10 g1 in
  let enemy_roll := enemy_agility + r2 in
  if enemy_roll <=? player_roll
  then (["player"; "enemy"], g2)
  else (["enemy"; "player"], g2).

(** [player_attack] *)
Definition player_attack (s : t) (g : Random.state) : string * t * Random.state :=
  let base_damage := Character.get_attack_damage (character s) in
  let crit_chance := Character.get_crit_chance (character s) in
  let '(r, g1) := Random.random g in
  let is_crit := (r <? crit_chance)%float in
  if is_crit then
    let damage := Py.int_of_Q (inject_Z base_damage * (3 # 2))%Q in
    let '(damage_dealt, e1) := Enemy.take_damage damage (enemy s) in
    let s1 := with_enemy s e1 in
    let s2 := log (String.concat "" ["💥 CRITICAL HIT! You deal "; Py.str damage_dealt;
                                     " damage to "; Enemy.name (enemy s1); "!"]) s1 in
    (String.concat "" ["💥 CRITICAL HIT! You deal "; Py.str damage_dealt; " damage!"],
     s2, g1)
  else
    let '(damage_dealt, e1) := Enemy.take_damage base_damage (enemy s) in
    let s1 := with_enemy s e1 in
    let s2 := log (String.concat "" ["You attack "; Enemy.name (enemy s1); " for ";
                                     Py.str damage_dealt; " damage."]) s1 in
    (String.concat "" ["You deal "; Py.str damage_dealt; " damage!"], s2, g1).

(** [enemy_attack] *)
Definition enemy_attack (s : t) (g : Random.state) : string * t * Random.state :=
  let dodge_chance := Character.get_dodge_chance (character s) in
  let '(r, g1) := Random.random g in
  if (r <? dodge_chance)%float then
    ("You dodged the attack!",
     log (String.concat "" ["You dodge "; Enemy.name (enemy s); "'s attack!"]) s, g1)
  else
    let '(damage, g2) := Enemy.get_attack_damage (enemy s) g1 in
    let '(damage, s1) :=
      if is_defending s then
        (Py.int_of_Q (inject_Z damage * (1 # 2))%Q,
         log (String.concat "" [Enemy.name (enemy s);
                                " attacks! Your defense reduces damage."])
             (with_is_defending s false))
      else (damage, s) in
    let '(damage_taken, c1) := Character.take_damage damage (character s1) in
    let s2 := with_character s1 c1 in
    let s3 := log (String.concat "" [Enemy.name (enemy s2); " attacks you for ";
                                     Py.str damage_taken; " damage!"]) s2 in
    (String.concat "" [Enemy.name (enemy s3); " deals "; Py.str damage_taken; " damage!"],
     s3, g2).

(** [player_defend] *)
Definition player_defend (s : t) : string * t :=
  ("You brace for the next attack!",
   log "You take a defensive stance." (with_is_defending s true)).

(** [player_use_item] *)
Definition player_use_item (item : option Items.Item) (s : t) : (bool * string) * t :=
  match item with
  | None => ((false, "No item selected."), s)
  | Some it =>
      match Items.payload it with
      | Items.ConsumablePayload effect_type effect_amount =>
          let '(effect_msg, c1) :=
            Consumable.use effect_type effect_amount (character s) in
          let s1 := with_character s c1 in
          ((true, effect_msg),
           log (String.concat "" ["You use "; Items.name it; ". "; effect_msg]) s1)
      | _ => ((false, "Cannot use that item in combat."), s)
      end
  end.

(** [attempt_flee] *)
Definition attempt_flee (s : t) (g : Random.state) : (bool * string) * t * Random.state :=
  let s1 := with_flee_attempts s (flee_attempts s + 1) in
  let flee_chance := (0.5 - Py.float_of_int (flee_attempts s1) * 0.1)%float in
  let player_agility := Character.get_stat (character s1) "agility" in
  let agility_bonus := (Py.float_of_int player_agility * 0.01)%float in
  let flee_chance := (flee_chance + agility_bonus)%float in
  let level_difference := Enemy.level (enemy s1) - Character.level (character s1) in
  let flee_chance := (flee_chance - Py.float_of_int level_difference * 0.05)%float in
  let flee_chance := Py.max_float 0.1 (Py.min_float 0.9 flee_chance) in
  let '(r, g1) := Random.random g in
  if (r <? flee_chance)%float then
    ((true, "You escaped!"),
     log "You successfully fled from combat!" (with_result s1 FLED), g1)
  else
    ((false, "Couldn't escape!"), log "Failed to flee!" s1, g1).

(** The branch [actor == 'player'] of the loop of [execute_turn], up to the
    check on the enemy.  The boolean is [true] when the branch has executed
    [return turn_messages]. *)
Definition player_turn (player_action : CombatAction) (item : option Items.Item)
    (turn_messages : list string) (s : t) (g : Random.state)
    : bool * list string * t * Random.state :=
  match player_action with
  | ATTACK =>
      let '(msg, s1, g1) := player_attack s g in
      (false, (turn_messages ++ [msg])%list, s1, g1)
  | DEFEND =>
      let '(msg, s1) := player_defend s in
      (false, (turn_messages ++ [msg])%list, s1, g)
  | USE_ITEM =>
      let '((success, msg), s1) := player_use_item item s in
      (negb success, (turn_messages ++ [msg])%list, s1, g)
  | FLEE =>
      let '((success, msg), s1, g1) := attempt_flee s g in
      (success, (turn_messages ++ [msg])%list, s1, g1)
  end.

(** The loop [for actor in turn_order] of [execute_turn], with its [break]
    and [return] exits. *)
Fixpoint run_actors (turn_order : list string) (player_action : CombatAction)
    (item : option Items.Item) (turn_messages : list string)
    (s : t) (g : Random.state) : list string * t * Random.state :=
  match turn_order with
  | [] => (turn_messages, s, g)
  | actor :: rest =>
      if negb (is_ongoing (result s)) then (turn_messages, s, g)
      else if (actor =? "player")%string then
        let '(returned, turn_messages1, s1, g1) :=
          player_turn player_action item turn_messages s g in
        if returned then (turn_messages1, s1, g1)
        else if negb (Enemy.is_alive (enemy s1))
        then (turn_messages1, with_result s1 VICTORY, g1)
        else run_actors rest player_action item turn_messages1 s1 g1
      else
        let '(msg, s1, g1) := enemy_attack s g in
        let turn_messages1 := (turn_messages ++ [msg])%list in
        if Character.is_dead (character s1)
        then (turn_messages1, with_result s1 DEFEAT, g1)
        else run_actors rest player_action item turn_messages1 s1 g1
  end.

(** [execute_turn] *)
Definition execute_turn (player_action : CombatAction) (item : option Items.Item)
    (s : t) (g : Random.state) : list string * t * Random.state :=
  let s1 := with_turn_count s (turn_count s + 1) in
  let '(turn_order, g1) := get_turn_order s1 g in
  run_actors turn_order player_action item [] s1 g1.

(** The dictionary returned by [get_rewards]. *)
Record Rewards := { xp : Z; gold : Z; loot : list string }.

(** [get_rewards] *)
Definition get_rewards (s : t) (g : Random.state) : Rewards * Random.state :=
  match result s with
  | VICTORY =>
      let xp := Enemy.xp_reward (enemy s) in
      let gold := Enemy.gold_reward (enemy s) in
      let luck := Character.get_stat (character s) "luck" in
      let gold_bonus :=
        Py.int_of_float (Py.float_of_int gold * (Py.float_of_int luck * 0.01))%float in
      let gold := gold + gold_bonus in
      let '(loot, g1) := Enemy.get_loot (enemy s) g in
      ({| xp := xp; gold := gold; loot := loot |}, g1)
  | _ => ({| xp := 0; gold := 0; loot := [] |}, g)
  end.

End Combat.

(* ================================================================= *)
(** ** combat.py: entries of the enemy database used below *)

Module Enemies.

Definition slime : Enemy.t :=
  Enemy.init "slime" "Slime" 1 30 5 2 3 10 5 Enemy.BEAST
    [("health_potion_small", 0.3%float); ("leather_scrap", 0.2%float)].


Definition vampire : Enemy.t :=
  Enemy.init "vampire" "Vampire Lord" 10 200 30 25 15 150 100 Enemy.UNDEAD
    [("health_potion_supreme", 0.3%float); ("silver_rapier", 0.15%float);
     ("silver_ore", 0.5%float)].

End Enemies.

(* ================================================================= *)
(** ** Concrete sessions used as examples *)

Module Scenario.

Definition hero : Character.t := Character.init "Hero".

(** A draw that makes [random.random()] return 0.0, and one that makes it
    return the largest value below 1. *)
Definition low : N := 0%N.
Definition high : N := (2 ^ 53 - 1)%N.

Definition last_blow_draws : Random.state := Random.of_list [0; 10; high; 2; high]%N.


(** The Silver Amulet of the item database. *)
Definition silver_amulet : Items.Item :=
  {| Items.item_id := "silver_amulet"; Items.name := "Silver Amulet";
     Items.description := "An amulet that brings good fortune."; Items.value := 100;
     Items.rarity := Items.UNCOMMON;
     Items.payload := Items.AccessoryPayload [("luck", 8); ("max_hp", 15)] 4 |}.

(** An accessory that lowers the max hp by 150. *)
Definition cursed_amulet : Items.Item :=
  {| Items.item_id := "cursed_amulet"; Items.name := "Cursed Amulet";
     Items.description := "Drains the wearer"; Items.value := 1;
     Items.rarity := Items.RARE;
     Items.payload := Items.AccessoryPayload [("max_hp", -150)] 1 |}.

(** A victory over a Vampire Lord (gold reward 100) with 29 luck. *)
Definition lucky_victory : Combat.t :=
  Combat.with_result
    (Combat.init (Character.set_base hero Character.KLuck 29) Enemies.vampire)
    Combat.VICTORY.

(** The player rolls first (10 + 5 against 3 + 0) and fails to flee; the
    Slime is not dodged. *)
Definition fresh : Combat.t := Combat.init hero Enemies.slime.
Definition player_first_draws : Random.state := Random.of_list [5; 0; high; high; 2]%N.

End Scenario.

(* ================================================================= *)
(** ** The formulas of the specification, in its own words *)

Module Spec.

(** Damage: [reduction = floor(defense * 0.5)] and
    [actual = max(1, floor(raw - reduction))]. *)
Definition reduction (defense : Z) : Z := defense / 2.
Definition actual_damage (defense raw : Z) : Z := Z.max 1 (raw - reduction defense).

(** Level-up threshold: [floor(100 * 1.5^(level-1))]. *)
Definition xp_threshold (level : Z) : Z :=
  Qfloor (inject_Z 100 * Qpower (3 # 2) (level - 1))%Q.

(** Stat points granted on reaching [level]: [3 + floor(level/5)]. *)
Definition points_for (level : Z) : Z := 3 + level / 5.


(** Critical hit: [floor(1.5 * attackDamage)]. *)
Definition crit_damage (attack : Z) : Z := Qfloor (inject_Z attack * (3 # 2))%Q.

(** Rewards: [gold = goldReward + floor(goldReward * 0.01 * playerLuck)],
    in exact arithmetic and in binary64 read from left to right. *)
Definition reward_gold (gold_reward luck : Z) : Z :=
  gold_reward + Qfloor (inject_Z gold_reward * (1 # 100) * inject_Z luck)%Q.
Definition reward_gold_binary64 (gold_reward luck : Z) : Z :=
  gold_reward
  + Py.int_of_float (Py.float_of_int gold_reward * 0.01 * Py.float_of_int luck)%float.

(** Loot: one trial per entry of the loot table, entry [i] against draw
    [i]; the item is included iff the draw is below its drop chance. *)
Fixpoint loot_trials (entries : list (string * float)) (g : Random.state)
    : list string :=
  match entries with
  | [] => []
  | (item_id, drop_chance) :: rest =>
      let dropped := (fst (Random.random g) <? drop_chance)%float in
      (if dropped then [item_id] else []) ++ loot_trials rest (snd (Random.random g))
  end.

(** [clamp(lo, hi, x)]. *)
Definition clamp (lo hi x : float) : float := Py.max_float lo (Py.min_float hi x).

(** Flee formula: [clamp(0.1, 0.9, 0.5 - 0.1*fleeAttempts
    + 0.01*playerAgility - 0.05*(enemyLevel - playerLevel))]. *)
Definition flee_chance (flee_attempts player_agility enemy_level player_level : Z)
    : float :=
  clamp 0.1 0.9
    (0.5 - 0.1 * Py.float_of_int flee_attempts
     + 0.01 * Py.float_of_int player_agility
     - 0.05 * Py.float_of_int (enemy_level - player_level))%float.

End Spec.

(* ================================================================= *)
(** ** The texts of [player_attack] *)

Module Messages.

Definition crit_message (damage_dealt : Z) : string :=
  String.concat "" ["💥 CRITICAL HIT! You deal "; Py.str damage_dealt; " damage!"].

Definition hit_message (damage_dealt : Z) : string :=
  String.concat "" ["You deal "; Py.str damage_dealt; " damage!"].

Definition crit_log (damage_dealt : Z) (enemy_name : string) : string :=
  String.concat "" ["💥 CRITICAL HIT! You deal "; Py.str damage_dealt;
                    " damage to "; enemy_name; "!"].

Definition hit_log (damage_dealt : Z) (enemy_name : string) : string :=
  String.concat "" ["You attack "; enemy_name; " for "; Py.str damage_dealt;
                    " damage."].

End Messages.

(* ================================================================= *)
(** ** Sequences of turns *)

(** The caller's loop: one [execute_turn] per chosen action, the messages
    being printed and dropped. *)
Fixpoint run_turns (turns : list (Combat.CombatAction * option Items.Item))
    (s : Combat.t) (g : Random.state) : Combat.t * Random.state :=
  match turns with
  | [] => (s, g)
  | (player_action, item) :: rest =>
      let '(_, s1, g1) := Combat.execute_turn player_action item s g in
      run_turns rest s1 g1
  end.

(* ================================================================= *)
(** ** The dyadic computations, carried out in binary64 *)

(** The three computations that the embedding carries out over [Q], as
    CPython carries them out; they are compared with the exact ones on a
    grid of game-sized values below. *)
Module Binary64.

Definition damage (d f : Z) : Z :=
  Z.max 1 (Py.int_of_float (Py.float_of_int d - Py.float_of_int f * 0.5)%float).

Definition crit (attack : Z) : Z :=
  Py.int_of_float (Py.float_of_int attack * 1.5)%float.

Definition halved (d : Z) : Z :=
  Py.int_of_float (Py.float_of_int d * 0.5)%float.

Definition grid (n : nat) : list Z := map Z.of_nat (seq 0 n).

End Binary64.

(* ================================================================= *)
(** ** Damage in closed form *)

(** The damage a combatant with defense [f] takes from a raw hit [d]:
    [max(1, floor(d - f/2))], the half of an odd defense being kept. *)
Definition damage_taken (f d : Z) : Z := Z.max 1 (d - (f + 1) / 2).

(* ================================================================= *)
(** ** The hp invariant and the operations on the stat block *)

(** [0 <= hp <= effectiveMaxHp]. *)
Definition hp_inv (c : Character.t) : Prop :=
  0 <= Character.hp (Character.base_stats c) <= Character.get_max_hp c.

(** The max-hp bonus an item carries in its [stats]. *)
Fixpoint payload_max_hp (st : list (string * Z)) : Z :=
  match st with
  | [] => 0
  | (stat, value) :: rest =>
      (if (stat =? "max_hp")%string then value else 0) + payload_max_hp rest
  end.

Definition item_max_hp (item : Items.Item) : Z :=
  match Items.stats item with
  | Some st => payload_max_hp st
  | None => 0
  end.

Definition slot_max_hp (x : option Items.Item) : Z :=
  match x with
  | Some item => item_max_hp item
  | None => 0
  end.

Definition equipped_max_hp (c : Character.t) : Z :=
  slot_max_hp (Character.weapon (Character.equipped c))
  + slot_max_hp (Character.armor (Character.equipped c))
  + slot_max_hp (Character.accessory (Character.equipped c)).

(** No max-hp entry of the payload is negative. *)
Definition payload_ok (st : list (string * Z)) : bool :=
  forallb (fun entry => negb (fst entry =? "max_hp")%string || (0 <=? snd entry)) st.

Definition item_ok (item : Items.Item) : bool :=
  match Items.stats item with
  | Some st => payload_ok st
  | None => true
  end.

Definition slot_ok (x : option Items.Item) : bool :=
  match x with
  | Some item => item_ok item
  | None => true
  end.

(** The calls that mutate the stat block. *)
Inductive Op :=
| Heal (amount : Z)
| TakeDamage (damage : Z)
| LevelUp
| AddXp (amount : Z)
| AllocateStat (stat_name : string) (points : Z)
| EquipItem (item : Items.Item) (slot : string)
| UnequipItem (slot : string).

Definition apply_op (c : Character.t) (op : Op) : Character.t :=
  match op with
  | Heal amount => snd (Character.heal amount c)
  | TakeDamage damage => snd (Character.take_damage damage c)
  | LevelUp => snd (Character.level_up c)
  | AddXp amount => snd (Character.add_xp amount c)
  | AllocateStat stat_name points => snd (Character.allocate_stat stat_name points c)
  | EquipItem item slot => snd (Character.equip_item item slot c)
  | UnequipItem slot => snd (Character.unequip_item slot c)
  end.

(** The amounts are not negative. *)
Definition valid_op (op : Op) : bool :=
  match op with
  | Heal amount => 0 <=? amount
  | AllocateStat _ points => 0 <=? points
  | EquipItem item _ => item_ok item
  | _ => true
  end.

(** The invariant that the operations preserve: beside [hp_inv], the base
    max hp is not negative, the max-hp bonus is the sum over the equipped
    items, and these carry no negative max-hp entry. *)
Definition well_formed (c : Character.t) : Prop :=
  0 <= Character.max_hp (Character.base_stats c)
  /\ Character.bonus_max_hp (Character.equipment_bonuses c) = equipped_max_hp c
  /\ slot_ok (Character.weapon (Character.equipped c)) = true
  /\ slot_ok (Character.armor (Character.equipped c)) = true
  /\ slot_ok (Character.accessory (Character.equipped c)) = true
  /\ hp_inv c.

(** The parts of what a method of [Combat] returns. *)
Definition value_of {A : Type} (o : A * Combat.t * Random.state) : A := fst (fst o).
Definition session_of {A : Type} (o : A * Combat.t * Random.state) : Combat.t :=
  snd (fst o).




(** The branch of the enemy in the loop of [execute_turn]: the attack, and
    DEFEAT when it leaves the player dead. *)
Definition enemy_turn (turn_messages : list string) (s : Combat.t) (g : Random.state)
    : list string * Combat.t * Random.state :=
  let '(msg, s1, g1) := Combat.enemy_attack s g in
  ((turn_messages ++ [msg])%list,
   if Character.is_dead (Combat.character s1)
   then Combat.with_result s1 Combat.DEFEAT else s1,
   g1).

(** The branch of the player when no actor comes after it: the action, and
    VICTORY when it has not returned and the enemy is dead. *)
Definition player_last (player_action : Combat.CombatAction)
    (item : option Items.Item) (turn_messages : list string)
    (s : Combat.t) (g : Random.state) : list string * Combat.t * Random.state :=
  let '(returned, msgs, s1, g1) :=
    Combat.player_turn player_action item turn_messages s g in
  (msgs,
   if returned then s1
   else if Enemy.is_alive (Combat.enemy s1) then s1
        else Combat.with_result s1 Combat.VICTORY,
   g1).

(** What no step inside a turn may do to the counters of the session: the
    turn count stays and the number of flee attempts does not go down. *)
Definition keeps_counters (s s' : Combat.t) : Prop :=
  Combat.turn_count s' = Combat.turn_count s
  /\ Combat.flee_attempts s <= Combat.flee_attempts s'.

(** The generator after [n] more draws. *)
Definition advance (n : nat) (g : Random.state) : Random.state :=
  {| Random.tape := Random.tape g; Random.cursor := (n + Random.cursor g)%nat |}.

(* ================================================================= *)
(** ** Bookkeeping of the equipment bonuses *)

(** Equality of keys. *)
Definition stat_key_eqb (a b : Character.StatKey) : bool :=
  match a, b with
  | Character.KMaxHp, Character.KMaxHp | Character.KHp, Character.KHp
  | Character.KStrength, Character.KStrength | Character.KDefense, Character.KDefense
  | Character.KAgility, Character.KAgility
  | Character.KIntelligence, Character.KIntelligence
  | Character.KLuck, Character.KLuck => true
  | _, _ => false
  end.

(** [equipment_bonuses.get(k, 0)]. *)
Definition bonus_value (e : Character.EquipmentBonuses) (k : Character.StatKey) : Z :=
  match Character.bonus_get e k with
  | Some v => v
  | None => 0
  end.

(** The sum of the entries of a payload that go to the bonus [k]. *)
Fixpoint payload_total (st : list (string * Z)) (k : Character.StatKey) : Z :=
  match st with
  | [] => 0
  | (stat, value) :: rest =>
      (match Character.stat_key stat with
       | Some k' => if stat_key_eqb k' k then value else 0
       | None => 0
       end) + payload_total rest k
  end.

Definition item_total (item : Items.Item) (k : Character.StatKey) : Z :=
  match Items.stats item with
  | Some st => payload_total st k
  | None => 0
  end.

Definition slot_total (x : option Items.Item) (k : Character.StatKey) : Z :=
  match x with
  | Some item => item_total item k
  | None => 0
  end.

Definition equipped_total (c : Character.t) (k : Character.StatKey) : Z :=
  slot_total (Character.weapon (Character.equipped c)) k
  + slot_total (Character.armor (Character.equipped c)) k
  + slot_total (Character.accessory (Character.equipped c)) k.

(** Every bonus is the sum of what the equipped items give. *)
Definition bonuses_match (c : Character.t) : Prop :=
  forall k, k <> Character.KHp ->
    bonus_value (Character.equipment_bonuses c) k = equipped_total c k.

(** The character without its hp and its bonuses: what the loops of
    [equip_item] and [unequip_item] never touch. *)
Definition no_bonuses : Character.EquipmentBonuses :=
  {| Character.bonus_max_hp := 0; Character.bonus_strength := 0;
     Character.bonus_defense := 0; Character.bonus_agility := 0;
     Character.bonus_intelligence := 0; Character.bonus_luck := 0 |}.

Definition strip (c : Character.t) : Character.t :=
  Character.with_bonuses (Character.set_base c Character.KHp 0) no_bonuses.


(** The xp [add_xp] credits for [amount], with the intelligence bonus. *)
Definition xp_gained (amount : Z) (c : Character.t) : Z :=
  Py.int_of_float
    (Py.float_of_int amount
     * (1.0 + Py.float_of_int (Character.get_stat c "intelligence") * 0.01))%float.


(** The name of a key, as the dictionaries spell it. *)
Definition key_name (k : Character.StatKey) : string :=
  match k with
  | Character.KMaxHp => "max_hp" | Character.KHp => "hp"
  | Character.KStrength => "strength" | Character.KDefense => "defense"
  | Character.KAgility => "agility" | Character.KIntelligence => "intelligence"
  | Character.KLuck => "luck"
  end.

(** A character wearing the Silver Amulet and then hit. *)
Definition adorned : Character.t :=
  fold_left apply_op
    [EquipItem Scenario.silver_amulet "accessory"; TakeDamage 40]
    (Character.init "Hero").


(** The fields that only the progression and the purse write. *)
Definition identity_of (c : Character.t)
    : string * Z * Z * Z * bool * Z * Z :=
  (Character.name c, Character.level c, Character.xp c, Character.xp_to_next_level c,
   Character.is_alive c, Character.gold c, Character.stat_points c).

(** A fresh character killed by one blow. *)
Definition fallen : Character.t := snd (Character.take_damage 500 (Character.init "Hero")).



(** Whether [enemy_attack] takes the dodge branch. *)
Definition dodged (s : Combat.t) (g : Random.state) : bool :=
  (fst (Random.random g) <? Character.get_dodge_chance (Combat.character s))%float.

(** The damage [enemy_attack] hands to [take_damage] when it is not dodged:
    the attack damage of the enemy, halved (rounded down) under a defensive
    stance. *)
Definition incoming (s : Combat.t) (g : Random.state) : Z :=
  let d := fst (Enemy.get_attack_damage (Combat.enemy s) (snd (Random.random g))) in
  if Combat.is_defending s then d / 2 else d.


(** A hero fast enough to always act before a Slime. *)
Definition swift : Combat.t :=
  Combat.init (Character.set_base Scenario.hero Character.KAgility 13) Enemies.slime.


(* ================================================================= *)
(** ** Python dictionaries with string keys *)

(** A [dict] as the list of its entries in insertion order.  Assigning to a
    key that is present keeps its position; a new key goes last. *)
Module Dict.

Definition t (V : Type) : Type := list (string * V).

(** [d.get(k)] *)
Fixpoint get {V : Type} (d : t V) (k : string) : option V :=
  match d with
  | [] => None
  | (k', v) :: rest => if (k' =? k)%string then Some v else get rest k
  end.

(** [d.get(k, default)] *)
Definition get_default {V : Type} (d : t V) (k : string) (default : V) : V :=
  match get d k with
  | Some v => v
  | None => default
  end.

(** [k in d] *)
Definition contains {V : Type} (d : t V) (k : string) : bool :=
  match get d k with
  | Some _ => true
  | None => false
  end.

(** [d[k] = v] *)
Fixpoint set {V : Type} (d : t V) (k : string) (v : V) : t V :=
  match d with
  | [] => [(k, v)]
  | (k', v') :: rest =>
      if (k' =? k)%string then (k', v) :: rest else (k', v') :: set rest k v
  end.

(** [del d[k]] for a key that is present. *)
Fixpoint del {V : Type} (d : t V) (k : string) : t V :=
  match d with
  | [] => []
  | (k', v') :: rest =>
      if (k' =? k)%string then rest else (k', v') :: del rest k
  end.

Definition keys {V : Type} (d : t V) : list string := map fst d.

Definition values {V : Type} (d : t V) : list V := map snd d.

(** [sum(d.values())] *)
Definition sum_values (d : t Z) : Z := fold_right Z.add 0 (values d).

End Dict.

(* ================================================================= *)
(** ** items.py: the constructors and the item database *)

Module ItemsDb.

(** [Consumable.__init__] *)
Definition Consumable (item_id name description : string) (value : Z)
    (effect_type : string) (effect_amount : Z) (rarity : Items.ItemRarity)
    : Items.Item :=
  {| Items.item_id := item_id; Items.name := name; Items.description := description;
     Items.value := value; Items.rarity := rarity;
     Items.payload := Items.ConsumablePayload effect_type effect_amount |}.

(** [Weapon.__init__]; every call of the program passes [stats]. *)
Definition Weapon (item_id name description : string) (value damage : Z)
    (stats : Dict.t Z) (level_requirement : Z) (rarity : Items.ItemRarity)
    : Items.Item :=
  {| Items.item_id := item_id; Items.name := name; Items.description := description;
     Items.value := value; Items.rarity := rarity;
     Items.payload := Items.WeaponPayload damage stats level_requirement |}.

(** [Armor.__init__]: the defense bonus is added to the ['defense'] entry of
    the [stats] it is given (every call of the program passes [stats]). *)
Definition Armor (item_id name description : string) (value defense_bonus : Z)
    (stats : Dict.t Z) (level_requirement : Z) (rarity : Items.ItemRarity)
    : Items.Item :=
  let stats :=
    Dict.set stats "defense" (Dict.get_default stats "defense" 0 + defense_bonus) in
  {| Items.item_id := item_id; Items.name := name; Items.description := description;
     Items.value := value; Items.rarity := rarity;
     Items.payload := Items.ArmorPayload defense_bonus stats level_requirement |}.

(** [Accessory.__init__] *)
Definition Accessory (item_id name description : string) (value : Z)
    (stats : Dict.t Z) (level_requirement : Z) (rarity : Items.ItemRarity)
    : Items.Item :=
  {| Items.item_id := item_id; Items.name := name; Items.description := description;
     Items.value := value; Items.rarity := rarity;
     Items.payload := Items.AccessoryPayload stats level_requirement |}.

(** [Material.__init__] *)
Definition Material (item_id name description : string) (value : Z)
    (rarity : Items.ItemRarity) : Items.Item :=
  {| Items.item_id := item_id; Items.name := name; Items.description := description;
     Items.value := value; Items.rarity := rarity; Items.payload := Items.MaterialPayload |}.

(** [QuestItem.__init__] *)
Definition QuestItem (item_id name description : string) (value : Z) : Items.Item :=
  {| Items.item_id := item_id; Items.name := name; Items.description := description;
     Items.value := value; Items.rarity := Items.COMMON;
     Items.payload := Items.QuestPayload |}.

(** [register_item] *)
Definition register_item (db : Dict.t Items.Item) (item : Items.Item)
    : Dict.t Items.Item :=
  Dict.set db (Items.item_id item) item.

(** The calls of [register_item], in the order of the module. *)
Definition registered : list Items.Item :=
  [
    Consumable "health_potion_small" "Small Health Potion" "Restores 50 HP" 20 "heal"
      50 Items.COMMON;
    Consumable "health_potion_medium" "Medium Health Potion" "Restores 100 HP" 50
      "heal" 100 Items.UNCOMMON;
    Consumable "health_potion_large" "Large Health Potion" "Restores 200 HP" 100 "heal"
      200 Items.RARE;
    Consumable "health_potion_supreme" "Supreme Health Potion" "Fully restores HP" 250
      "heal" 9999 Items.EPIC;
    Consumable "elixir_vitality" "Elixir of Vitality"
      "Permanently increases max HP by 20" 200 "max_hp_boost" 20 Items.RARE;
    Consumable "phoenix_down" "Phoenix Down" "Revives from defeat with 50% HP" 300
      "revive" 50 Items.EPIC;
    Weapon "rusty_sword" "Rusty Sword" "An old, worn sword. Better than nothing." 10 5
      [("strength", 2)] 1 Items.COMMON;
    Weapon "iron_sword" "Iron Sword" "A reliable iron blade." 50 12 [("strength", 5)] 3
      Items.COMMON;
    Weapon "steel_sword" "Steel Sword" "A well-crafted steel weapon." 150 20
      [("strength", 10); ("agility", 3)] 5 Items.UNCOMMON;
    Weapon "silver_rapier" "Silver Rapier" "An elegant and deadly blade." 300 28
      [("strength", 12); ("agility", 8)] 8 Items.RARE;
    Weapon "dragon_slayer" "Dragon Slayer"
      "A legendary sword forged from dragon scales." 1000 45
      [("strength", 20); ("agility", 5); ("luck", 10)] 12 Items.EPIC;
    Weapon "excalibur" "Excalibur" "The sword of legends, pulsing with ancient power."
      5000 80 [("strength", 35); ("agility", 15); ("luck", 20); ("max_hp", 50)] 15
      Items.LEGENDARY;
    Weapon "staff_apprentice" "Apprentice Staff" "A simple wooden staff." 40 8
      [("intelligence", 8)] 2 Items.COMMON;
    Weapon "staff_mage" "Mage Staff" "A staff imbued with magical energy." 200 18
      [("intelligence", 15); ("max_hp", 20)] 6 Items.UNCOMMON;
    Armor "cloth_armor" "Cloth Armor" "Basic cloth protection." 20 3 [("max_hp", 10)] 1
      Items.COMMON;
    Armor "leather_armor" "Leather Armor" "Light but effective protection." 60 8
      [("max_hp", 20); ("agility", 2)] 3 Items.COMMON;
    Armor "chain_mail" "Chain Mail" "Interlocking metal rings provide solid defense."
      180 15 [("max_hp", 40); ("strength", 3)] 5 Items.UNCOMMON;
    Armor "plate_armor" "Plate Armor"
      "Heavy plate armor offering excellent protection." 400 25
      [("max_hp", 80); ("strength", 5); ("defense", 10)] 8 Items.RARE;
    Armor "dragon_armor" "Dragon Scale Armor" "Armor crafted from dragon scales." 1200
      40 [("max_hp", 150); ("strength", 10); ("defense", 20); ("agility", (-5))] 12
      Items.EPIC;
    Armor "celestial_robe" "Celestial Robe" "A robe woven from starlight itself." 2000
      20 [("max_hp", 100); ("intelligence", 25); ("agility", 10); ("luck", 10)] 10
      Items.LEGENDARY;
    Accessory "bronze_ring" "Bronze Ring" "A simple bronze ring." 30 [("luck", 3)] 1
      Items.COMMON;
    Accessory "silver_amulet" "Silver Amulet" "An amulet that brings good fortune." 100
      [("luck", 8); ("max_hp", 15)] 4 Items.UNCOMMON;
    Accessory "ring_strength" "Ring of Strength"
      "Grants the wearer enhanced physical power." 200
      [("strength", 10); ("max_hp", 20)] 6 Items.RARE;
    Accessory "amulet_protection" "Amulet of Protection"
      "Magical protection against harm." 250 [("defense", 15); ("max_hp", 30)] 6
      Items.RARE;
    Accessory "ring_haste" "Ring of Haste" "Increases the wearer's speed." 220
      [("agility", 15); ("luck", 5)] 7 Items.RARE;
    Accessory "crown_wisdom" "Crown of Wisdom" "A crown that enhances mental acuity."
      800 [("intelligence", 20); ("max_hp", 40); ("luck", 10)] 10 Items.EPIC;
    Accessory "pendant_phoenix" "Phoenix Pendant" "Contains the essence of a phoenix."
      1500 [("max_hp", 100); ("strength", 10); ("defense", 10); ("luck", 15)] 12
      Items.LEGENDARY;
    Material "iron_ore" "Iron Ore" "Raw iron ready for smelting." 15 Items.COMMON;
    Material "leather_scrap" "Leather Scrap" "A piece of tanned leather." 10
      Items.COMMON;
    Material "wood_plank" "Wood Plank" "A sturdy wooden plank." 8 Items.COMMON;
    Material "steel_ingot" "Steel Ingot" "Refined steel ready for crafting." 40
      Items.UNCOMMON;
    Material "dragon_scale" "Dragon Scale" "A scale from a dragon's hide." 200
      Items.EPIC;
    Material "star_fragment" "Star Fragment" "A piece of a fallen star." 500
      Items.LEGENDARY;
    Material "enchanted_crystal" "Enchanted Crystal"
      "A crystal pulsing with magical energy." 100 Items.RARE;
    Material "silver_ore" "Silver Ore" "Precious silver ore." 50 Items.UNCOMMON;
    QuestItem "mysterious_letter" "Mysterious Letter" "A sealed letter with no sender."
      0;
    QuestItem "ancient_key" "Ancient Key" "An old key with strange markings." 0;
    QuestItem "goblin_chief_head" "Goblin Chief's Head"
      "Proof of defeating the goblin chief." 0;
    QuestItem "rare_herb" "Rare Healing Herb" "A herb with potent healing properties."
      0;
    QuestItem "merchants_package" "Merchant's Package" "A sealed package for delivery."
      0
  ].

Definition ITEMS_DB : Dict.t Items.Item :=
  Eval vm_compute in fold_left register_item registered [].

(** [get_item] *)
Definition get_item (item_id : string) : option Items.Item := Dict.get ITEMS_DB item_id.

(** [create_item] *)
Definition create_item (item_id : string) : option Items.Item :=
  match get_item item_id with
  | None => None
  | Some template =>
      match Items.payload template with
      | Items.ConsumablePayload effect_type effect_amount =>
          Some (Consumable (Items.item_id template) (Items.name template)
                  (Items.description template) (Items.value template)
                  effect_type effect_amount (Items.rarity template))
      | Items.WeaponPayload damage stats level_requirement =>
          Some (Weapon (Items.item_id template) (Items.name template)
                  (Items.description template) (Items.value template)
                  damage stats level_requirement (Items.rarity template))
      | Items.ArmorPayload defense_bonus stats level_requirement =>
          Some (Armor (Items.item_id template) (Items.name template)
                  (Items.description template) (Items.value template)
                  defense_bonus stats level_requirement (Items.rarity template))
      | Items.AccessoryPayload stats level_requirement =>
          Some (Accessory (Items.item_id template) (Items.name template)
                  (Items.description template) (Items.value template)
                  stats level_requirement (Items.rarity template))
      | Items.MaterialPayload =>
          Some (Material (Items.item_id template) (Items.name template)
                  (Items.description template) (Items.value template)
                  (Items.rarity template))
      | Items.QuestPayload =>
          Some (QuestItem (Items.item_id template) (Items.name template)
                  (Items.description template) (Items.value template))
      end
  end.

(** [get_items_by_type] *)
Definition item_type_eqb (a b : Items.ItemType) : bool :=
  match a, b with
  | Items.CONSUMABLE, Items.CONSUMABLE | Items.WEAPON, Items.WEAPON
  | Items.ARMOR, Items.ARMOR | Items.ACCESSORY, Items.ACCESSORY
  | Items.MATERIAL, Items.MATERIAL | Items.QUEST, Items.QUEST => true
  | _, _ => false
  end.

Definition get_items_by_type (item_type : Items.ItemType) : list Items.Item :=
  filter (fun item => item_type_eqb (Items.item_type item) item_type)
    (Dict.values ITEMS_DB).

End ItemsDb.

(* ================================================================= *)
(** ** combat.py: the enemy database *)

Module EnemiesDb.

(** [register_enemy] *)
Definition register_enemy (db : Dict.t Enemy.t) (enemy : Enemy.t) : Dict.t Enemy.t :=
  Dict.set db (Enemy.enemy_id enemy) enemy.

(** The calls of [register_enemy], in the order of the module. *)
Definition registered : list Enemy.t :=
  [
    Enemy.init "slime" "Slime" 1 30 5 2 3 10 5 Enemy.BEAST
      [("health_potion_small", 0.3%float); ("leather_scrap", 0.2%float)];
    Enemy.init "goblin" "Goblin" 2 50 8 5 6 20 10 Enemy.HUMANOID
      [("health_potion_small", 0.4%float); ("iron_ore", 0.3%float);
      ("rusty_sword", 0.1%float)];
    Enemy.init "wolf" "Wolf" 2 45 10 3 9 18 8 Enemy.BEAST
      [("health_potion_small", 0.3%float); ("leather_scrap", 0.5%float)];
    Enemy.init "bandit" "Bandit" 3 70 12 8 7 30 20 Enemy.HUMANOID
      [("health_potion_medium", 0.3%float); ("iron_sword", 0.15%float);
      ("bronze_ring", 0.1%float)];
    Enemy.init "skeleton" "Skeleton Warrior" 5 100 15 10 8 50 30 Enemy.UNDEAD
      [("health_potion_medium", 0.4%float); ("steel_ingot", 0.3%float);
      ("steel_sword", 0.1%float)];
    Enemy.init "orc" "Orc Brute" 6 130 20 15 5 70 40 Enemy.HUMANOID
      [("health_potion_large", 0.3%float); ("chain_mail", 0.1%float);
      ("iron_ore", 0.5%float)];
    Enemy.init "dark_mage" "Dark Mage" 7 90 12 8 12 80 60 Enemy.HUMANOID
      [("health_potion_large", 0.4%float); ("staff_mage", 0.15%float);
      ("enchanted_crystal", 0.3%float)];
    Enemy.init "troll" "Cave Troll" 8 180 25 20 4 100 50 Enemy.HUMANOID
      [("health_potion_large", 0.5%float); ("plate_armor", 0.1%float);
      ("steel_ingot", 0.4%float)];
    Enemy.init "vampire" "Vampire Lord" 10 200 30 25 15 150 100 Enemy.UNDEAD
      [("health_potion_supreme", 0.3%float); ("silver_rapier", 0.15%float);
      ("silver_ore", 0.5%float)];
    Enemy.init "wyvern" "Wyvern" 11 250 35 30 18 200 120 Enemy.DRAGON
      [("health_potion_supreme", 0.4%float); ("dragon_scale", 0.6%float);
      ("dragon_armor", 0.05%float)];
    Enemy.init "demon" "Lesser Demon" 12 220 40 28 20 250 150 Enemy.DEMON
      [("health_potion_supreme", 0.5%float); ("phoenix_down", 0.2%float);
      ("ring_strength", 0.1%float); ("enchanted_crystal", 0.4%float)];
    Enemy.init "dragon" "Ancient Dragon" 15 500 50 40 25 500 500 Enemy.DRAGON
      [("dragon_slayer", 0.5%float); ("dragon_armor", 0.4%float);
      ("dragon_scale", 1.0%float); ("health_potion_supreme", 0.8%float);
      ("phoenix_down", 0.3%float)];
    Enemy.init "goblin_chief" "Goblin Chief" 5 120 18 12 10 100 80 Enemy.HUMANOID
      [("health_potion_large", 0.6%float); ("steel_sword", 0.3%float);
      ("chain_mail", 0.2%float); ("goblin_chief_head", 1.0%float)];
    Enemy.init "lich" "Lich King" 18 600 45 35 30 1000 1000 Enemy.UNDEAD
      [("excalibur", 0.3%float); ("celestial_robe", 0.3%float);
      ("crown_wisdom", 0.4%float); ("phoenix_down", 0.8%float);
      ("star_fragment", 0.5%float)]
  ].

Definition ENEMIES_DB : Dict.t Enemy.t :=
  Eval vm_compute in fold_left register_enemy registered [].

(** [create_enemy]: the copy starts from the max hp of the template. *)
Definition create_enemy (enemy_id : string) : option Enemy.t :=
  match Dict.get ENEMIES_DB enemy_id with
  | None => None
  | Some template =>
      Some (Enemy.init (Enemy.enemy_id template) (Enemy.name template)
              (Enemy.level template) (Enemy.max_hp template) (Enemy.strength template)
              (Enemy.defense template) (Enemy.agility template)
              (Enemy.xp_reward template) (Enemy.gold_reward template)
              (Enemy.enemy_type template) (Enemy.loot_table template))
  end.

(** [random.choice(seq)]: the element at a drawn index; [None] stands for
    the [IndexError] on an empty sequence. *)
Definition choice {A : Type} (seq : list A) (g : Random.state)
    : option A * Random.state :=
  let '(n, g') := Random.draw g in
  (nth_error seq (Z.to_nat (Z.of_N n mod Z.of_nat (List.length seq))), g').

(** [get_enemies_by_level] *)
Definition get_enemies_by_level (min_level max_level : Z) : list Enemy.t :=
  filter (fun e => (min_level <=? Enemy.level e) && (Enemy.level e <=? max_level))
    (Dict.values ENEMIES_DB).

(** [get_random_enemy_for_level] *)
Definition get_random_enemy_for_level (level : Z) (g : Random.state)
    : option Enemy.t * Random.state :=
  let min_level := Z.max 1 (level - 1) in
  let max_level := level + 2 in
  let appropriate_enemies :=
    filter (fun e => (min_level <=? Enemy.level e) && (Enemy.level e <=? max_level))
      (Dict.values ENEMIES_DB) in
  let appropriate_enemies :=
    match appropriate_enemies with
    | [] => Dict.values ENEMIES_DB
    | _ => appropriate_enemies
    end in
  let '(template, g') := choice appropriate_enemies g in
  (match template with
   | Some template => create_enemy (Enemy.enemy_id template)
   | None => None
   end, g').

End EnemiesDb.

(* ================================================================= *)
(** ** inventory.py: [Inventory] *)

Module Inventory.

Record t := {
  max_capacity : Z;
  items : Dict.t Z
}.

(** [Inventory.__init__] *)
Definition init (max_capacity : Z) : t :=
  {| max_capacity := max_capacity; items := [] |}.

Definition with_items (inv : t) (d : Dict.t Z) : t :=
  {| max_capacity := max_capacity inv; items := d |}.

(** [add_item] *)
Definition add_item (item_id : string) (quantity : Z) (inv : t) : bool * t :=
  match ItemsDb.get_item item_id with
  | None => (false, inv)
  | Some _ =>
      let current_total := Dict.sum_values (items inv) in
      if max_capacity inv <? current_total + quantity then (false, inv)
      else
        (true,
         with_items inv
           (Dict.set (items inv) item_id
              (Dict.get_default (items inv) item_id 0 + quantity)))
  end.

(** [remove_item] *)
Definition remove_item (item_id : string) (quantity : Z) (inv : t) : bool * t :=
  match Dict.get (items inv) item_id with
  | None => (false, inv)
  | Some count =>
      if count <? quantity then (false, inv)
      else
        let d1 := Dict.set (items inv) item_id (count - quantity) in
        let d2 := if count - quantity <=? 0 then Dict.del d1 item_id else d1 in
        (true, with_items inv d2)
  end.

(** [has_item] *)
Definition has_item (item_id : string) (quantity : Z) (inv : t) : bool :=
  quantity <=? Dict.get_default (items inv) item_id 0.

(** [get_item_count] *)
Definition get_item_count (item_id : string) (inv : t) : Z :=
  Dict.get_default (items inv) item_id 0.

(** [get_total_items] *)
Definition get_total_items (inv : t) : Z := Dict.sum_values (items inv).

(** [is_full] *)
Definition is_full (inv : t) : bool := max_capacity inv <=? get_total_items inv.

(** [get_free_space] *)
Definition get_free_space (inv : t) : Z := max_capacity inv - get_total_items inv.

(** [clear] *)
Definition clear (inv : t) : t := with_items inv [].

(** [get_all_items]: the entries whose id is registered. *)
Definition get_all_items (inv : t) : list (Items.Item * Z) :=
  flat_map
    (fun entry =>
       match ItemsDb.get_item (fst entry) with
       | Some item => [(item, snd entry)]
       | None => []
       end)
    (items inv).

(** [get_items_by_type] *)
Definition get_items_by_type (item_type : Items.ItemType) (inv : t)
    : list (Items.Item * Z) :=
  flat_map
    (fun entry =>
       match ItemsDb.get_item (fst entry) with
       | Some item =>
           if ItemsDb.item_type_eqb (Items.item_type item) item_type
           then [(item, snd entry)] else []
       | None => []
       end)
    (items inv).

End Inventory.

(* ================================================================= *)
(** ** inventory.py: [Shop] *)

Module Shop.

Record t := {
  name : string;
  inventory : Dict.t Z;
  buy_multiplier : float;
  sell_multiplier : float
}.

Definition with_inventory (shop : t) (d : Dict.t Z) : t :=
  {| name := name shop; inventory := d; buy_multiplier := buy_multiplier shop;
     sell_multiplier := sell_multiplier shop |}.

(** [has_item] *)
Definition has_item (item_id : string) (shop : t) : bool :=
  match Dict.get (inventory shop) item_id with
  | Some quantity => negb (quantity =? 0)
  | None => false
  end.

(** [get_buy_price] *)
Definition get_buy_price (item_id : string) (shop : t) : Z :=
  match ItemsDb.get_item item_id with
  | None => 0
  | Some item =>
      Py.int_of_float (Py.float_of_int (Items.value item) * buy_multiplier shop)%float
  end.

(** [get_sell_price] *)
Definition get_sell_price (item_id : string) (shop : t) : Z :=
  match ItemsDb.get_item item_id with
  | None => 0
  | Some item =>
      Py.int_of_float (Py.float_of_int (Items.value item) * sell_multiplier shop)%float
  end.

(** [buy_item] *)
Definition buy_item (item_id : string) (character : Character.t)
    (player_inventory : Inventory.t) (shop : t)
    : (bool * string) * Character.t * Inventory.t * t :=
  if negb (has_item item_id shop)
  then ((false, "Item not in stock."), character, player_inventory, shop)
  else
    match ItemsDb.get_item item_id with
    | None => ((false, "Invalid item."), character, player_inventory, shop)
    | Some item =>
        let price := get_buy_price item_id shop in
        if Character.gold character <? price then
          ((false,
            String.concat "" ["Not enough gold. Need "; Py.str price; "g, have ";
                              Py.str (Character.gold character); "g."]),
           character, player_inventory, shop)
        else if Inventory.is_full player_inventory then
          ((false, "Inventory is full."), character, player_inventory, shop)
        else
          let character1 := snd (Character.remove_gold price character) in
          let player_inventory1 := snd (Inventory.add_item item_id 1 player_inventory) in
          let stock := Dict.get_default (inventory shop) item_id 0 in
          let shop1 :=
            if 0 <? stock
            then with_inventory shop (Dict.set (inventory shop) item_id (stock - 1))
            else shop in
          ((true,
            String.concat "" ["Purchased "; Items.name item; " for "; Py.str price; "g."]),
           character1, player_inventory1, shop1)
    end.

(** [sell_item] *)
Definition sell_item (item_id : string) (character : Character.t)
    (player_inventory : Inventory.t) (shop : t)
    : (bool * string) * Character.t * Inventory.t * t :=
  if negb (Inventory.has_item item_id 1 player_inventory)
  then ((false, "You don't have that item."), character, player_inventory, shop)
  else
    match ItemsDb.get_item item_id with
    | None => ((false, "Invalid item."), character, player_inventory, shop)
    | Some item =>
        match Items.item_type item with
        | Items.QUEST =>
            ((false, "Cannot sell quest items."), character, player_inventory, shop)
        | _ =>
            let price := get_sell_price item_id shop in
            let player_inventory1 :=
              snd (Inventory.remove_item item_id 1 player_inventory) in
            let character1 := Character.add_gold price character in
            let shop1 :=
              match Dict.get (inventory shop) item_id with
              | Some stock =>
                  if 0 <=? stock
                  then with_inventory shop (Dict.set (inventory shop) item_id (stock + 1))
                  else shop
              | None => with_inventory shop (Dict.set (inventory shop) item_id 1)
              end in
            ((true,
              String.concat "" ["Sold "; Items.name item; " for "; Py.str price; "g."]),
             character1, player_inventory1, shop1)
        end
    end.

(** The four shops of the module. *)
Definition create_general_shop : t :=
  {| name := "General Store";
     inventory := [("health_potion_small", -1); ("health_potion_medium", -1);
                   ("health_potion_large", 5); ("rusty_sword", 3); ("iron_sword", 2);
                   ("cloth_armor", 3); ("leather_armor", 2); ("bronze_ring", 5)];
     buy_multiplier := 1.0; sell_multiplier := 0.5 |}.

Definition create_weapon_shop : t :=
  {| name := "Blacksmith's Forge";
     inventory := [("iron_sword", -1); ("steel_sword", 2); ("silver_rapier", 1);
                   ("staff_apprentice", -1); ("staff_mage", 1)];
     buy_multiplier := 1.2; sell_multiplier := 0.6 |}.

Definition create_armor_shop : t :=
  {| name := "Armor Emporium";
     inventory := [("leather_armor", -1); ("chain_mail", 2); ("plate_armor", 1)];
     buy_multiplier := 1.2; sell_multiplier := 0.6 |}.

Definition create_magic_shop : t :=
  {| name := "Mystical Emporium";
     inventory := [("health_potion_medium", -1); ("health_potion_large", -1);
                   ("health_potion_supreme", 3); ("elixir_vitality", 2);
                   ("phoenix_down", 1); ("silver_amulet", 3); ("staff_mage", 1)];
     buy_multiplier := 1.5; sell_multiplier := 0.7 |}.

Definition shops : list t :=
  [create_general_shop; create_weapon_shop; create_armor_shop; create_magic_shop].

End Shop.

(* ================================================================= *)
(** ** save_system.py: the character in [save_game], [load_game], [new_game] *)

Module SaveSystem.

(** The dictionary of [Character.to_dict], after the round trip through the
    JSON file.  An equipped item is saved as the dictionary of its
    attributes, of which [load_game] reads the ['item_id']. *)
Record CharacterData := {
  data_name : string;
  data_level : Z;
  data_xp : Z;
  data_xp_to_next_level : Z;
  data_base_stats : Character.BaseStats;
  data_equipment_bonuses : Character.EquipmentBonuses;
  data_equipped : list (string * option Items.Item);
  data_is_alive : bool;
  data_gold : Z;
  data_stat_points : Z
}.

(** [Character.to_dict] *)
Definition to_dict (c : Character.t) : CharacterData :=
  {| data_name := Character.name c; data_level := Character.level c;
     data_xp := Character.xp c;
     data_xp_to_next_level := Character.xp_to_next_level c;
     data_base_stats := Character.base_stats c;
     data_equipment_bonuses := Character.equipment_bonuses c;
     data_equipped :=
       [("weapon", Character.weapon (Character.equipped c));
        ("armor", Character.armor (Character.equipped c));
        ("accessory", Character.accessory (Character.equipped c))];
     data_is_alive := Character.is_alive c; data_gold := Character.gold c;
     data_stat_points := Character.stat_points c |}.

(** [Character.from_dict]: the slots are left as [__init__] made them. *)
Definition from_dict (data : CharacterData) : Character.t :=
  let char := Character.init (data_name data) in
  {| Character.name := Character.name char; Character.level := data_level data;
     Character.xp := data_xp data;
     Character.xp_to_next_level := data_xp_to_next_level data;
     Character.base_stats := data_base_stats data;
     Character.equipment_bonuses := data_equipment_bonuses data;
     Character.equipped := Character.equipped char;
     Character.is_alive := data_is_alive data; Character.gold := data_gold data;
     Character.stat_points := data_stat_points data |}.

(** The loop "Restore equipped items" of [load_game]. *)
Definition restore_equipped (char_data : CharacterData) (character : Character.t)
    : Character.t :=
  fold_left
    (fun character entry =>
       match snd entry with
       | Some item_data =>
           match ItemsDb.create_item (Items.item_id item_data) with
           | Some item => snd (Character.equip_item item (fst entry) character)
           | None => character
           end
       | None => character
       end)
    (data_equipped char_data) character.

(** The character after [load_game] on a save that holds a character and an
    inventory.  (The world, the quests and the crafting system are loaded in
    between; they hold no reference to the character.) *)
Definition load_character (char_data : CharacterData) : Character.t :=
  restore_equipped char_data (from_dict char_data).

(** The character and the inventory of [new_game]. *)
Definition new_game (character_name : string) : Character.t * Inventory.t :=
  let character := Character.init character_name in
  let inventory := Inventory.init 50 in
  let inventory := snd (Inventory.add_item "health_potion_small" 3 inventory) in
  let inventory := snd (Inventory.add_item "rusty_sword" 1 inventory) in
  let character :=
    match ItemsDb.create_item "rusty_sword" with
    | Some weapon => snd (Character.equip_item weapon "weapon" character)
    | None => character
    end in
  (character, inventory).

End SaveSystem.


(** A character that can fight: alive, with positive hp within the
    effective max hp. *)
Definition healthy (c : Character.t) : Prop :=
  Character.is_alive c = true
  /\ 0 < Character.hp (Character.base_stats c) <= Character.get_max_hp c.

(** The amount of a consumable handed to USE_ITEM is not negative. *)
Definition usable (item : option Items.Item) : bool :=
  match item with
  | Some it =>
      match Items.payload it with
      | Items.ConsumablePayload _ effect_amount => 0 <=? effect_amount
      | _ => true
      end
  | None => true
  end.

(** The result of a session agrees with the state of the two sides. *)
Definition coherent (s : Combat.t) : Prop :=
  match Combat.result s with
  | Combat.ONGOING | Combat.FLED =>
      0 < Enemy.hp (Combat.enemy s) /\ healthy (Combat.character s)
  | Combat.VICTORY =>
      Enemy.hp (Combat.enemy s) = 0 /\ healthy (Combat.character s)
  | Combat.DEFEAT =>
      0 < Enemy.hp (Combat.enemy s)
      /\ Character.is_alive (Combat.character s) = false
      /\ Character.hp (Character.base_stats (Combat.character s)) = 0
  end.

(** The log of [s'] continues the log of [s]. *)
Definition log_extends (s s' : Combat.t) : Prop :=
  exists entries, Combat.combat_log s' = (Combat.combat_log s ++ entries)%list.

(** The enemy of [s'] is the enemy of [s] with hp that is not negative and
    not higher. *)
Definition enemy_fades (s s' : Combat.t) : Prop :=
  Combat.enemy s' = Enemy.with_hp (Combat.enemy s) (Enemy.hp (Combat.enemy s'))
  /\ 0 <= Enemy.hp (Combat.enemy s') <= Enemy.hp (Combat.enemy s).

(** A fight of four turns. *)
Definition four_turns : list (Combat.CombatAction * option Items.Item) :=
  [(Combat.ATTACK, None); (Combat.DEFEND, None);
   (Combat.USE_ITEM, ItemsDb.get_item "health_potion_small"); (Combat.ATTACK, None)].


(** Whether [xs] can be obtained from [ys] by dropping elements. *)
Fixpoint subsequence (xs ys : list string) : bool :=
  match xs, ys with
  | [], _ => true
  | _ :: _, [] => false
  | x :: xs', y :: ys' =>
      if (x =? y)%string then subsequence xs' ys' else subsequence xs ys'
  end.


(** The body of [create_item] once the template is found. *)
Definition recreate (template : Items.Item) : Items.Item :=
  match Items.payload template with
  | Items.ConsumablePayload effect_type effect_amount =>
      ItemsDb.Consumable (Items.item_id template) (Items.name template)
        (Items.description template) (Items.value template)
        effect_type effect_amount (Items.rarity template)
  | Items.WeaponPayload damage stats level_requirement =>
      ItemsDb.Weapon (Items.item_id template) (Items.name template)
        (Items.description template) (Items.value template)
        damage stats level_requirement (Items.rarity template)
  | Items.ArmorPayload defense_bonus stats level_requirement =>
      ItemsDb.Armor (Items.item_id template) (Items.name template)
        (Items.description template) (Items.value template)
        defense_bonus stats level_requirement (Items.rarity template)
  | Items.AccessoryPayload stats level_requirement =>
      ItemsDb.Accessory (Items.item_id template) (Items.name template)
        (Items.description template) (Items.value template)
        stats level_requirement (Items.rarity template)
  | Items.MaterialPayload =>
      ItemsDb.Material (Items.item_id template) (Items.name template)
        (Items.description template) (Items.value template) (Items.rarity template)
  | Items.QuestPayload =>
      ItemsDb.QuestItem (Items.item_id template) (Items.name template)
        (Items.description template) (Items.value template)
  end.

(** What the database guarantees of an entry: the key is the id of the
    item; a copy made by [create_item] is equal to the template, except for
    an armor, whose copy counts the (positive) defense bonus once more. *)
Definition entry_ok (entry : string * Items.Item) : Prop :=
  let '(item_id, template) := entry in
  Items.item_id template = item_id
  /\ 0 <= Items.value template
  /\ match Items.payload template with
     | Items.ArmorPayload defense_bonus stats _ =>
         0 < defense_bonus
         /\ forall k,
              item_total (recreate template) k
              = item_total template k
                + (if stat_key_eqb k Character.KDefense then defense_bonus else 0)
     | _ => recreate template = template
     end.

(** An enemy of the database is at full, positive hp, its key is its id, and
    every id of its loot table is a registered item. *)
Definition enemy_ok (entry : string * Enemy.t) : bool :=
  let '(enemy_id, e) := entry in
  (Enemy.enemy_id e =? enemy_id)%string
  && (Enemy.hp e =? Enemy.max_hp e) && (0 <? Enemy.hp e)
  && (1 <=? Enemy.level e) && (Enemy.level e <=? 18)
  && forallb (fun drop => Dict.contains ItemsDb.ITEMS_DB (fst drop)) (Enemy.loot_table e).


(** The state an inventory is kept in: distinct keys, no entry with a count
    below 1, every key a registered item, and a total within the capacity. *)
Definition inventory_ok (inv : Inventory.t) : Prop :=
  NoDup (Dict.keys (Inventory.items inv))
  /\ Forall (fun entry => 1 <= snd entry
                          /\ ItemsDb.get_item (fst entry) <> None)
       (Inventory.items inv)
  /\ Inventory.get_total_items inv <= Inventory.max_capacity inv.

(** The calls that change an inventory. *)
Inductive InventoryOp :=
| AddItem (item_id : string) (quantity : Z)
| RemoveItem (item_id : string) (quantity : Z).

Definition apply_inventory_op (inv : Inventory.t) (op : InventoryOp) : Inventory.t :=
  match op with
  | AddItem item_id quantity => snd (Inventory.add_item item_id quantity inv)
  | RemoveItem item_id quantity => snd (Inventory.remove_item item_id quantity inv)
  end.

(** The quantities are at least 1. *)
Definition valid_inventory_op (op : InventoryOp) : bool :=
  match op with
  | AddItem _ quantity | RemoveItem _ quantity => 1 <=? quantity
  end.

(** The inventory of a new game. *)
Definition starting_inventory : Inventory.t := snd (SaveSystem.new_game "Hero").


(** The parts of what [buy_item] and [sell_item] return and leave behind. *)
Definition sale_ok (o : (bool * string) * Character.t * Inventory.t * Shop.t) : bool :=
  fst (fst (fst (fst o))).
Definition sale_character (o : (bool * string) * Character.t * Inventory.t * Shop.t)
    : Character.t := snd (fst (fst o)).
Definition sale_inventory (o : (bool * string) * Character.t * Inventory.t * Shop.t)
    : Inventory.t := snd (fst o).
Definition sale_shop (o : (bool * string) * Character.t * Inventory.t * Shop.t)
    : Shop.t := snd o.

(** [shop.inventory.get(item_id, 0)] *)
Definition stock_of (item_id : string) (shop : Shop.t) : Z :=
  Dict.get_default (Shop.inventory shop) item_id 0.

Definition is_quest (item_id : string) : bool :=
  match ItemsDb.get_item item_id with
  | Some item => ItemsDb.item_type_eqb (Items.item_type item) Items.QUEST
  | None => false
  end.

(** The shop [buyer] pays no more for an item than the shop [seller] asks. *)
Definition no_profit (seller buyer : Shop.t) (item_id : string) : bool :=
  (0 <=? Shop.get_sell_price item_id buyer)
  && (Shop.get_sell_price item_id buyer <=? Shop.get_buy_price item_id seller).


(** The item [load_game] puts back in a slot: a new copy made from the saved
    id, or nothing when the slot was empty or the id is not registered. *)
Definition reloaded (x : option Items.Item) : option Items.Item :=
  match x with
  | Some item_data => ItemsDb.create_item (Items.item_id item_data)
  | None => None
  end.

(** Every equipped item is equal to the copy [create_item] makes of it. *)
Definition fresh_items (c : Character.t) : Prop :=
  forall k, reloaded (Character.equipped_get (Character.equipped c) k)
            = Character.equipped_get (Character.equipped c) k.

(** The character of a new game, saved and loaded once. *)
Definition loaded_once : Character.t :=
  SaveSystem.load_character (SaveSystem.to_dict (fst (SaveSystem.new_game "Hero"))).


(** The stat points granted by the level-ups that lead to level [n + 1]. *)
Fixpoint points_granted (n : nat) : Z :=
  match n with
  | O => 0
  | S m => points_granted m + Spec.points_for (Z.of_nat m + 2)
  end.

(** Five times the stat points, unspent and spent, of a character: a point
    buys 1 in a stat or 5 max hp, and a level-up gives 10 max hp. *)
Definition ledger (c : Character.t) : Z :=
  5 * Character.stat_points c
  + 5 * (Character.strength (Character.base_stats c)
         + Character.defense (Character.base_stats c)
         + Character.agility (Character.base_stats c)
         + Character.intelligence (Character.base_stats c)
         + Character.luck (Character.base_stats c))
  + Character.max_hp (Character.base_stats c)
  - 10 * Character.level c.

Definition ledger_ok (c : Character.t) : Prop :=
  1 <= Character.level c
  /\ ledger c = 365 + 5 * points_granted (Z.to_nat (Character.level c - 1)).


(* ================================================================= *)
(** * Properties *)

(** ** Arithmetic of the exact layer *)

Ltac q_trunc :=
  unfold Py.int_of_Q, Qminus, Qplus, Qmult, Qopp, inject_Z;
  cbn [Qnum Qden Pos.mul]; f_equal; lia.

Lemma int_of_Q_nonneg (q : Q) : (0 <= q)%Q -> Py.int_of_Q q = Qfloor q.
Proof.
  destruct q as [n d]. unfold Qle, Py.int_of_Q, Qfloor. cbn. intro H.
  apply Z.quot_div_nonneg; lia.
Qed.

Lemma int_of_Q_sub_half (d f : Z) :
  Py.int_of_Q (inject_Z d - inject_Z f * (1 # 2))%Q = Z.quot (2 * d - f) 2.
Proof. q_trunc. Qed.

Lemma int_of_Q_half (d : Z) : Py.int_of_Q (inject_Z d * (1 # 2))%Q = Z.quot d 2.
Proof. q_trunc. Qed.


(** On game-sized values the exact layer and binary64 agree. *)
Example exact_layer_agrees_with_binary64 :
  forallb (fun d =>
    forallb (fun f =>
      Binary64.damage d f
      =? Z.max 1 (Py.int_of_Q (inject_Z d - inject_Z f * (1 # 2))%Q))
      (Binary64.grid 60))
    (Binary64.grid 120) = true
  /\ forallb (fun a =>
       (Binary64.crit a =? Py.int_of_Q (inject_Z a * (3 # 2))%Q)
       && (Binary64.halved a =? Py.int_of_Q (inject_Z a * (1 # 2))%Q))
       (Binary64.grid 2000) = true.
Proof. split; vm_compute; reflexivity. Qed.

(** After the clamp at 1, truncating [d - f/2] toward zero or flooring it
    gives the same damage. *)
Lemma max1_quot_half (n : Z) : Z.max 1 (Z.quot n 2) = Z.max 1 (n / 2).
Proof.
  destruct (Z.le_gt_cases 0 n) as [H | H].
  - now rewrite Z.quot_div_nonneg by lia.
  - assert (Z.quot n 2 <= 0) by (apply Z.quot_le_upper_bound; lia).
    assert (n / 2 < 0) by (apply Z.div_lt_upper_bound; lia).
    lia.
Qed.

Lemma half_floor_ceil (d f : Z) : (2 * d - f) / 2 = d - (f + 1) / 2.
Proof.
  pose proof (Z.div_mod (2 * d - f) 2 ltac:(lia)).
  pose proof (Z.mod_pos_bound (2 * d - f) 2 ltac:(lia)).
  pose proof (Z.div_mod (f + 1) 2 ltac:(lia)).
  pose proof (Z.mod_pos_bound (f + 1) 2 ltac:(lia)).
  lia.
Qed.

(** The damage both [take_damage] methods compute from the defense and the
    raw damage. *)
Lemma damage_formula (d f : Z) :
  Z.max 1 (Py.int_of_Q (inject_Z d - inject_Z f * (1 # 2))%Q)
  = Z.max 1 (d - (f + 1) / 2).
Proof.
  now rewrite int_of_Q_sub_half, max1_quot_half, half_floor_ceil.
Qed.

(* ================================================================= *)
(** ** Damage *)




Lemma character_take_damage_eq (d : Z) (c : Character.t) :
  let a := damage_taken (Character.get_stat c "defense") d in
  let h := Z.max 0 (Character.hp (Character.base_stats c) - a) in
  Character.take_damage d c
  = (a, Character.with_is_alive (Character.set_base c Character.KHp h)
          (if h =? 0 then false else Character.is_alive c)).
Proof.
  cbv zeta. unfold Character.take_damage. rewrite damage_formula.
  fold (damage_taken (Character.get_stat c "defense") d).
  pose proof (Z.le_max_l 1 (d - (Character.get_stat c "defense" + 1) / 2)) as Ha.
  fold (damage_taken (Character.get_stat c "defense") d) in Ha.
  set (a := damage_taken _ _) in *.
  cbn [Character.set_base Character.with_base Character.base_set Character.base_stats
       Character.hp].
  destruct (Z.leb_spec (Character.hp (Character.base_stats c) - a) 0) as [H | H].
  - rewrite Z.max_l by lia. reflexivity.
  - rewrite Z.max_r by lia.
    destruct (Z.eqb_spec (Character.hp (Character.base_stats c) - a) 0); [lia | reflexivity].
Qed.

Lemma enemy_take_damage_eq (d : Z) (e : Enemy.t) :
  let a := damage_taken (Enemy.defense e) d in
  Enemy.take_damage d e = (a, Enemy.with_hp e (Z.max 0 (Enemy.hp e - a))).
Proof.
  cbv zeta. unfold Enemy.take_damage. rewrite damage_formula. reflexivity.
Qed.


(** The scenario of the specification: defense 2, raw damage 3, actual
    damage 2. *)
Example take_damage_scenario : fst (Enemy.take_damage 3 Enemies.slime) = 2.
Proof. reflexivity. Qed.



(* ================================================================= *)
(** ** Progression *)

Lemma xp_threshold_nonneg (z : Z) : (0 <= inject_Z 100 * Qpower (3 # 2) z)%Q.
Proof.
  apply Qmult_le_0_compat.
  - unfold Qle. cbn. lia.
  - apply Qpower_0_le. unfold Qle. cbn. lia.
Qed.


Lemma level_up_below (c : Character.t) :
  Character.xp c < Character.xp_to_next_level c -> Character.level_up c = (false, c).
Proof.
  intro H. unfold Character.level_up.
  destruct (Z.ltb_spec (Character.xp c) (Character.xp_to_next_level c)); [reflexivity | lia].
Qed.

Lemma level_up_reached (c : Character.t) :
  Character.xp_to_next_level c <= Character.xp c ->
  Character.level_up c
  = (true,
     {| Character.name := Character.name c;
        Character.level := Character.level c + 1;
        Character.xp := Character.xp c - Character.xp_to_next_level c;
        Character.xp_to_next_level := Spec.xp_threshold (Character.level c + 1);
        Character.base_stats :=
          Character.base_set
            (Character.base_set (Character.base_stats c) Character.KMaxHp
               (Character.max_hp (Character.base_stats c) + 10))
            Character.KHp
            (Character.max_hp (Character.base_stats c) + 10
             + Character.bonus_max_hp (Character.equipment_bonuses c));
        Character.equipment_bonuses := Character.equipment_bonuses c;
        Character.equipped := Character.equipped c;
        Character.is_alive := Character.is_alive c;
        Character.gold := Character.gold c;
        Character.stat_points :=
          Character.stat_points c + Spec.points_for (Character.level c + 1) |}).
Proof.
  intro H. unfold Character.level_up.
  destruct (Z.ltb_spec (Character.xp c) (Character.xp_to_next_level c)); [lia |].
  rewrite int_of_Q_nonneg by apply xp_threshold_nonneg.
  reflexivity.
Qed.



(* ================================================================= *)
(** ** Stat allocation *)





(* ================================================================= *)
(** ** Binary64 facts *)

Lemma SFmul_comm (p e : Z) (x y : spec_float) : SFmul p e x y = SFmul p e y x.
Proof.
  destruct x as [sx | sx | | sx mx ex], y as [sy | sy | | sy my ey]; cbn;
    rewrite ?(xorb_comm sx sy), ?(Pos.mul_comm mx my), ?(Z.add_comm ex ey);
    reflexivity.
Qed.

Lemma float_mul_comm (x y : float) : (x * y)%float = (y * x)%float.
Proof. apply Prim2SF_inj. rewrite !mul_spec. apply SFmul_comm. Qed.

Lemma float_ltb_leb (x y : float) :
  (x <? y)%float = true -> (x <=? y)%float = true.
Proof.
  rewrite ltb_spec, leb_spec. unfold SFltb, SFleb.
  destruct (SFcompare _ _) as [[] |]; congruence.
Qed.

(** Whatever [x] is (a NaN included), [max(lo, min(hi, x))] with [lo <= hi]
    lies between [lo] and [hi]. *)
Lemma clamp_bounds (lo hi x : float) :
  (lo <=? lo)%float = true -> (hi <=? hi)%float = true ->
  (lo <=? hi)%float = true ->
  (lo <=? Spec.clamp lo hi x)%float = true
  /\ (Spec.clamp lo hi x <=? hi)%float = true.
Proof.
  intros Hlo Hhi Hle. unfold Spec.clamp, Py.max_float, Py.min_float.
  destruct (x <? hi)%float eqn:E1.
  - destruct (lo <? x)%float eqn:E2.
    + split; now apply float_ltb_leb.
    + now split.
  - destruct (lo <? hi)%float eqn:E2; now split.
Qed.

(* ================================================================= *)
(** ** Fleeing *)

Lemma flee_chance_code (n a d : Z) :
  Py.max_float 0.1
    (Py.min_float 0.9
       (0.5 - Py.float_of_int n * 0.1 + Py.float_of_int a * 0.01
        - Py.float_of_int d * 0.05)%float)
  = Spec.clamp 0.1 0.9
      (0.5 - 0.1 * Py.float_of_int n + 0.01 * Py.float_of_int a
       - 0.05 * Py.float_of_int d)%float.
Proof.
  unfold Spec.clamp.
  now rewrite (float_mul_comm (Py.float_of_int n)), (float_mul_comm (Py.float_of_int a)),
    (float_mul_comm (Py.float_of_int d)).
Qed.

(** C2.  [attempt_flee] first adds 1 to the attempt counter and then
    computes the chance from the incremented counter, so that the first
    attempt of a session uses 1.  The chance is the clamp to [0.1, 0.9] of
    [0.5 - 0.1*fleeAttempts + 0.01*playerAgility
     - 0.05*(enemyLevel - playerLevel)], it lies in [0.1, 0.9] for every
    agility, levels and attempt count, one draw is compared with it, and the
    result of the session becomes FLED exactly on success. *)
Theorem attempt_flee_spec (s : Combat.t) (g : Random.state)
    (c : Character.t) (e : Enemy.t) :
  let n := Combat.flee_attempts s + 1 in
  let chance :=
    Spec.flee_chance n (Character.get_stat (Combat.character s) "agility")
      (Enemy.level (Combat.enemy s)) (Character.level (Combat.character s)) in
  let s1 := Combat.with_flee_attempts s n in
  let r := fst (Random.random g) in
  let g1 := snd (Random.random g) in
  let out := Combat.attempt_flee s g in
  let success := fst (fst (fst out)) in
  ((0.1 <=? chance)%float = true /\ (chance <=? 0.9)%float = true)
  /\ out
     = (if (r <? chance)%float
        then ((true, "You escaped!"),
              Combat.log "You successfully fled from combat!"
                (Combat.with_result s1 Combat.FLED), g1)
        else ((false, "Couldn't escape!"), Combat.log "Failed to flee!" s1, g1))
  /\ success = (r <? chance)%float
  /\ Combat.flee_attempts (snd (fst out)) = Combat.flee_attempts s + 1
  /\ Combat.result (snd (fst out)) = (if success then Combat.FLED else Combat.result s)
  /\ fst (fst (fst (Combat.attempt_flee (Combat.init c e) g)))
     = (r <? Spec.flee_chance 1 (Character.get_stat c "agility")
               (Enemy.level e) (Character.level c))%float.
Proof.
  cbv zeta.
  assert (E : forall s0,
    Combat.attempt_flee s0 g
    = (if (fst (Random.random g)
           <? Spec.flee_chance (Combat.flee_attempts s0 + 1)
                (Character.get_stat (Combat.character s0) "agility")
                (Enemy.level (Combat.enemy s0))
                (Character.level (Combat.character s0)))%float
       then ((true, "You escaped!"),
             Combat.log "You successfully fled from combat!"
               (Combat.with_result
                  (Combat.with_flee_attempts s0 (Combat.flee_attempts s0 + 1))
                  Combat.FLED), snd (Random.random g))
       else ((false, "Couldn't escape!"),
             Combat.log "Failed to flee!"
               (Combat.with_flee_attempts s0 (Combat.flee_attempts s0 + 1)),
             snd (Random.random g)))).
  { intro s0. unfold Combat.attempt_flee, Spec.flee_chance.
    cbn [Combat.flee_attempts Combat.with_flee_attempts Combat.character Combat.enemy].
    rewrite flee_chance_code. unfold Random.random, Random.draw.
    cbn [fst snd]. reflexivity. }
  split; [| rewrite !E; split; [reflexivity |]].
  - apply clamp_bounds; reflexivity.
  - cbn [Combat.init Combat.flee_attempts Combat.character Combat.enemy].
    destruct (fst (Random.random g) <? Spec.flee_chance _ _ _ _)%float;
      repeat split;
      destruct (fst (Random.random g) <? Spec.flee_chance _ _ _ _)%float; reflexivity.
Qed.

(** The scenario of the specification: first attempt, agility 10, equal
    levels, chance 0.5. *)
Example flee_chance_first_attempt : Spec.flee_chance 1 10 1 1 = 0.5%float.
Proof. vm_compute. reflexivity. Qed.

(* ================================================================= *)
(** ** The player's attack *)


Lemma crit_damage_closed (attack : Z) : Spec.crit_damage attack = (3 * attack) / 2.
Proof.
  unfold Spec.crit_damage, Qfloor, Qmult, inject_Z. cbn [Qnum Qden Pos.mul].
  f_equal. lia.
Qed.




Lemma player_attack_eq (s : Combat.t) (g : Random.state) :
  let attack := Character.get_attack_damage (Combat.character s) in
  let is_crit :=
    (fst (Random.random g) <? Character.get_crit_chance (Combat.character s))%float in
  let raw := if is_crit then Py.int_of_Q (inject_Z attack * (3 # 2))%Q else attack in
  let hit := Enemy.take_damage raw (Combat.enemy s) in
  Combat.player_attack s g
  = (if is_crit then Messages.crit_message (fst hit) else Messages.hit_message (fst hit),
     Combat.log
       (if is_crit then Messages.crit_log (fst hit) (Enemy.name (Combat.enemy s))
        else Messages.hit_log (fst hit) (Enemy.name (Combat.enemy s)))
       (Combat.with_enemy s (snd hit)),
     snd (Random.random g)).
Proof.
  cbv zeta. unfold Combat.player_attack, Random.random, Random.draw.
  cbn [fst snd].
  destruct (_ <? _)%float; reflexivity.
Qed.



(* ================================================================= *)
(** ** The turn: order, counters, terminal sessions *)

Lemma get_turn_order_eq (s : Combat.t) (g : Random.state) :
  Combat.get_turn_order s g
  = (if Enemy.agility (Combat.enemy s) + fst (Random.randint 0 10 (advance 1 g))
        <=? Character.get_stat (Combat.character s) "agility"
            + fst (Random.randint 0 10 g)
     then ["player"; "enemy"] else ["enemy"; "player"],
     advance 2 g).
Proof.
  unfold Combat.get_turn_order, Random.randint, Random.draw, advance.
  cbn [fst snd Random.tape Random.cursor Nat.add].
  destruct (_ <=? _); reflexivity.
Qed.

Lemma turn_order_cases (s : Combat.t) (g : Random.state) :
  Combat.get_turn_order s g = (["player"; "enemy"], advance 2 g)
  \/ Combat.get_turn_order s g = (["enemy"; "player"], advance 2 g).
Proof.
  rewrite get_turn_order_eq. destruct (_ <=? _); [left | right]; reflexivity.
Qed.

Lemma keeps_counters_refl (s : Combat.t) : keeps_counters s s.
Proof. unfold keeps_counters. lia. Qed.

Lemma keeps_counters_trans (s1 s2 s3 : Combat.t) :
  keeps_counters s1 s2 -> keeps_counters s2 s3 -> keeps_counters s1 s3.
Proof. unfold keeps_counters. lia. Qed.

Lemma player_attack_counters (s : Combat.t) (g : Random.state) :
  keeps_counters s (snd (fst (Combat.player_attack s g)))
  /\ Combat.result (snd (fst (Combat.player_attack s g))) = Combat.result s
  /\ Combat.character (snd (fst (Combat.player_attack s g))) = Combat.character s.
Proof.
  rewrite player_attack_eq. unfold keeps_counters. cbn. repeat split; lia.
Qed.

Lemma enemy_attack_counters (s : Combat.t) (g : Random.state) :
  keeps_counters s (snd (fst (Combat.enemy_attack s g)))
  /\ Combat.result (snd (fst (Combat.enemy_attack s g))) = Combat.result s
  /\ Combat.enemy (snd (fst (Combat.enemy_attack s g))) = Combat.enemy s.
Proof.
  unfold Combat.enemy_attack, Random.random, Random.draw, Enemy.get_attack_damage,
    Random.randint, Random.draw, keeps_counters.
  cbn [fst snd Random.tape Random.cursor].
  destruct (_ <? _)%float; [cbn; repeat split; lia |].
  destruct (Combat.is_defending s);
    destruct (Character.take_damage _ _) as [taken c1];
    cbn; repeat split; lia.
Qed.

Lemma player_turn_counters (player_action : Combat.CombatAction)
    (item : option Items.Item) (msgs : list string) (s : Combat.t) (g : Random.state) :
  keeps_counters s (snd (fst (Combat.player_turn player_action item msgs s g))).
Proof.
  destruct player_action; unfold Combat.player_turn.
  - pose proof (player_attack_counters s g) as [H _].
    destruct (Combat.player_attack s g) as [[msg s1] g1]. exact H.
  - cbn. unfold keeps_counters. cbn. lia.
  - unfold Combat.player_use_item.
    destruct item as [it |]; [| apply keeps_counters_refl].
    destruct (Items.payload it); try apply keeps_counters_refl.
    destruct (Consumable.use _ _ _) as [m c1]. unfold keeps_counters. cbn. lia.
  - unfold Combat.attempt_flee, Random.random, Random.draw.
    cbn [fst snd]. destruct (_ <? _)%float; unfold keeps_counters; cbn; lia.
Qed.

Lemma run_actors_counters (turn_order : list string)
    (player_action : Combat.CombatAction) (item : option Items.Item) :
  forall (msgs : list string) (s : Combat.t) (g : Random.state),
    keeps_counters s (snd (fst (Combat.run_actors turn_order player_action item msgs s g))).
Proof.
  induction turn_order as [| actor rest IH]; intros msgs s g; cbn [Combat.run_actors].
  - apply keeps_counters_refl.
  - destruct (negb (Combat.is_ongoing (Combat.result s))); [apply keeps_counters_refl |].
    destruct (actor =? "player")%string.
    + pose proof (player_turn_counters player_action item msgs s g) as Hp.
      destruct (Combat.player_turn player_action item msgs s g) as [[[ret m1] s1] g1].
      cbn [fst snd] in Hp.
      destruct ret; [exact Hp |].
      destruct (negb (Enemy.is_alive (Combat.enemy s1))).
      * cbn [fst snd]. unfold keeps_counters in *. cbn. lia.
      * eapply keeps_counters_trans; [exact Hp | apply IH].
    + pose proof (enemy_attack_counters s g) as [He _].
      destruct (Combat.enemy_attack s g) as [[m s1] g1]. cbn [fst snd] in He.
      destruct (Character.is_dead (Combat.character s1)).
      * cbn [fst snd]. unfold keeps_counters in *. cbn. lia.
      * eapply keeps_counters_trans; [exact He | apply IH].
Qed.

Lemma run_actors_terminal (turn_order : list string)
    (player_action : Combat.CombatAction) (item : option Items.Item)
    (msgs : list string) (s : Combat.t) (g : Random.state) :
  Combat.result s <> Combat.ONGOING ->
  Combat.run_actors turn_order player_action item msgs s g = (msgs, s, g).
Proof.
  intro H. destruct turn_order as [| actor rest]; [reflexivity |].
  cbn [Combat.run_actors]. destruct (Combat.result s); [contradiction | | |]; reflexivity.
Qed.

Lemma execute_turn_terminal_eq (player_action : Combat.CombatAction)
    (item : option Items.Item) (s : Combat.t) (g : Random.state) :
  Combat.result s <> Combat.ONGOING ->
  Combat.execute_turn player_action item s g
  = ([], Combat.with_turn_count s (Combat.turn_count s + 1), advance 2 g).
Proof.
  intro H. unfold Combat.execute_turn.
  destruct (turn_order_cases (Combat.with_turn_count s (Combat.turn_count s + 1)) g)
    as [E | E]; rewrite E; now apply run_actors_terminal.
Qed.

(** C10.  On a session whose result is already terminal, [execute_turn]
    runs no actor and returns no message; the turn count still grows by 1,
    and the rest of the session, the character and the enemy are as before.
    (The two rolls of the turn order have been drawn.) *)
Theorem execute_turn_terminal (player_action : Combat.CombatAction)
    (item : option Items.Item) (s : Combat.t) (g : Random.state) :
  Combat.result s <> Combat.ONGOING ->
  let out := Combat.execute_turn player_action item s g in
  let s' := snd (fst out) in
  fst (fst out) = []
  /\ Combat.turn_count s' = Combat.turn_count s + 1
  /\ Combat.character s' = Combat.character s
  /\ Combat.enemy s' = Combat.enemy s
  /\ Combat.result s' = Combat.result s
  /\ Combat.combat_log s' = Combat.combat_log s
  /\ Combat.is_defending s' = Combat.is_defending s
  /\ Combat.flee_attempts s' = Combat.flee_attempts s
  /\ snd out = advance 2 g.
Proof.
  intro H. cbv zeta. rewrite (execute_turn_terminal_eq _ _ _ _ H).
  cbn. repeat split.
Qed.

Lemma execute_turn_terminal_witness :
  Combat.result Scenario.lucky_victory <> Combat.ONGOING
  /\ fst (fst (Combat.execute_turn Combat.ATTACK None Scenario.lucky_victory
                 Scenario.last_blow_draws)) = []
  /\ Combat.turn_count
       (snd (fst (Combat.execute_turn Combat.ATTACK None Scenario.lucky_victory
                    Scenario.last_blow_draws))) = 1
  /\ Combat.enemy
       (snd (fst (Combat.execute_turn Combat.ATTACK None Scenario.lucky_victory
                    Scenario.last_blow_draws))) = Enemies.vampire.
Proof.
  assert (H : Combat.result Scenario.lucky_victory <> Combat.ONGOING) by discriminate.
  split; [exact H |].
  destruct (execute_turn_terminal Combat.ATTACK None Scenario.lucky_victory
              Scenario.last_blow_draws H) as (H1 & H2 & _ & H4 & _).
  cbv zeta in *. split; [exact H1 |]. split; [exact H2 | exact H4].
Defined.

Lemma execute_turn_counters (player_action : Combat.CombatAction)
    (item : option Items.Item) (s : Combat.t) (g : Random.state) :
  let s' := snd (fst (Combat.execute_turn player_action item s g)) in
  Combat.turn_count s' = Combat.turn_count s + 1
  /\ Combat.flee_attempts s <= Combat.flee_attempts s'.
Proof.
  cbv zeta. unfold Combat.execute_turn.
  destruct (Combat.get_turn_order _ g) as [order g1].
  pose proof (run_actors_counters order player_action item []
                (Combat.with_turn_count s (Combat.turn_count s + 1)) g1) as [H1 H2].
  cbn in H1, H2. split; assumption.
Qed.

Lemma run_turns_app (t1 t2 : list (Combat.CombatAction * option Items.Item)) :
  forall s g,
    run_turns (t1 ++ t2) s g
    = run_turns t2 (fst (run_turns t1 s g)) (snd (run_turns t1 s g)).
Proof.
  induction t1 as [| [a i] t1 IH]; intros s g; cbn [run_turns app]; [reflexivity |].
  destruct (Combat.execute_turn a i s g) as [[m s1] g1]. apply IH.
Qed.

Lemma run_turns_counters (turns : list (Combat.CombatAction * option Items.Item)) :
  forall s g,
    Combat.turn_count (fst (run_turns turns s g))
    = Combat.turn_count s + Z.of_nat (List.length turns)
    /\ Combat.flee_attempts s <= Combat.flee_attempts (fst (run_turns turns s g))
    /\ (Combat.result s <> Combat.ONGOING ->
        Combat.result (fst (run_turns turns s g)) = Combat.result s).
Proof.
  induction turns as [| [a i] rest IH]; intros s g; cbn [run_turns List.length].
  - cbn. repeat split; lia.
  - pose proof (execute_turn_counters a i s g) as [Ht Hf]. cbv zeta in Ht, Hf.
    pose proof (execute_turn_terminal_eq a i s g) as Hterm.
    destruct (Combat.execute_turn a i s g) as [[m s1] g1]. cbn [fst snd] in *.
    destruct (IH s1 g1) as (IH1 & IH2 & IH3).
    repeat split; try lia.
    intro Hr. specialize (Hterm Hr). inversion Hterm; subst.
    rewrite IH3; [reflexivity | exact Hr].
Qed.

(** C5.  Along every sequence of [execute_turn] calls on a session made by
    [Combat.__init__], with any actions, items and draws: the turn count is
    the number of turns played, hence never negative; the number of flee
    attempts never goes down; the result starts as ONGOING, and once it is
    VICTORY, DEFEAT or FLED it stays the same whatever is played next. *)
Theorem session_invariants (c : Character.t) (e : Enemy.t) (g : Random.state)
    (played next : list (Combat.CombatAction * option Items.Item)) :
  let s0 := Combat.init c e in
  let s1 := fst (run_turns played s0 g) in
  let s2 := fst (run_turns (played ++ next) s0 g) in
  Combat.result s0 = Combat.ONGOING
  /\ Combat.turn_count s1 = Z.of_nat (List.length played)
  /\ 0 <= Combat.turn_count s1 <= Combat.turn_count s2
  /\ 0 <= Combat.flee_attempts s1 <= Combat.flee_attempts s2
  /\ (Combat.result s1 = Combat.ONGOING
      \/ (Combat.result s1 <> Combat.ONGOING /\ Combat.result s2 = Combat.result s1)).
Proof.
  cbv zeta. rewrite run_turns_app.
  destruct (run_turns_counters played (Combat.init c e) g) as (H1 & H2 & _).
  destruct (run_turns_counters next (fst (run_turns played (Combat.init c e) g))
              (snd (run_turns played (Combat.init c e) g))) as (H3 & H4 & H5).
  cbn [Combat.init Combat.turn_count Combat.flee_attempts Combat.result] in *.
  repeat split; try lia.
  destruct (Combat.result (fst (run_turns played (Combat.init c e) g))) eqn:E;
    [left; reflexivity | right | right | right]; split; try discriminate;
    apply H5; discriminate.
Qed.

(* ================================================================= *)
(** ** Early exits of the turn *)

Lemma attempt_flee_eq (s : Combat.t) (g : Random.state) :
  let s1 := Combat.with_flee_attempts s (Combat.flee_attempts s + 1) in
  Combat.attempt_flee s g
  = (if fst (value_of (Combat.attempt_flee s g))
     then ((true, "You escaped!"),
           Combat.log "You successfully fled from combat!"
             (Combat.with_result s1 Combat.FLED), snd (Random.random g))
     else ((false, "Couldn't escape!"), Combat.log "Failed to flee!" s1,
           snd (Random.random g))).
Proof.
  cbv zeta. unfold value_of, Combat.attempt_flee, Random.random, Random.draw.
  cbn [fst snd]. destruct (_ <? _)%float; reflexivity.
Qed.











(* ================================================================= *)
(** ** Rewards *)

Lemma roll_loot_trials (entries : list (string * float)) :
  forall (loot : list string) (g : Random.state),
    Enemy.roll_loot entries loot g
    = ((loot ++ Spec.loot_trials entries g)%list, advance (List.length entries) g).
Proof.
  induction entries as [| [item_id drop_chance] rest IH]; intros loot g.
  - cbn. rewrite app_nil_r. destruct g; reflexivity.
  - cbn [Enemy.roll_loot Spec.loot_trials List.length].
    unfold Random.random at 1. unfold Random.draw.
    change (fst (Random.random g))
      with (SF2Prim (binary_normalize prec emax
                       (Z.of_N (Random.tape g (Random.cursor g)) mod 2 ^ 53) (-53) false)).
    destruct (_ <? drop_chance)%float; rewrite IH; cbn [app];
      rewrite <- ?app_assoc; cbn [app]; f_equal;
      unfold advance; cbn; f_equal; lia.
Qed.

Lemma get_rewards_victory (s : Combat.t) (g : Random.state) :
  Combat.result s = Combat.VICTORY ->
  Combat.get_rewards s g
  = ({| Combat.xp := Enemy.xp_reward (Combat.enemy s);
        Combat.gold :=
          Enemy.gold_reward (Combat.enemy s)
          + Py.int_of_float
              (Py.float_of_int (Enemy.gold_reward (Combat.enemy s))
               * (Py.float_of_int (Character.get_stat (Combat.character s) "luck")
                  * 0.01))%float;
        Combat.loot := Spec.loot_trials (Enemy.loot_table (Combat.enemy s)) g |},
     advance (List.length (Enemy.loot_table (Combat.enemy s))) g).
Proof.
  intro H. unfold Combat.get_rewards, Enemy.get_loot. rewrite H.
  rewrite roll_loot_trials. reflexivity.
Qed.

(** A victory may yield none, one or all of the configured drops. *)
Example loot_none_one_all :
  Spec.loot_trials (Enemy.loot_table Enemies.slime)
    (Random.of_list [Scenario.high; Scenario.high]) = []
  /\ Spec.loot_trials (Enemy.loot_table Enemies.slime)
       (Random.of_list [Scenario.high; Scenario.low]) = ["leather_scrap"]
  /\ Spec.loot_trials (Enemy.loot_table Enemies.slime)
       (Random.of_list [Scenario.low; Scenario.low])
     = ["health_potion_small"; "leather_scrap"].
Proof. vm_compute. repeat split. Qed.

(** C8, at the input where the code departs from it.  After a victory over
    a Vampire Lord (gold reward 100) with 29 luck, the xp is the xp reward
    and the loot is the list of the trials, but the gold is 128: in binary64
    [29 * 0.01] is [0.29] and [100 * 0.29] is [28.999999999999996], which
    [int()] truncates to 28.  The formula of the specification gives
    [100 + floor(100 * 0.01 * 29) = 129], in exact arithmetic as well as in
    binary64 read from left to right. *)
Theorem get_rewards_gold_rounding (g : Random.state) :
  Combat.result Scenario.lucky_victory = Combat.VICTORY
  /\ Character.get_stat (Combat.character Scenario.lucky_victory) "luck" = 29
  /\ Enemy.gold_reward (Combat.enemy Scenario.lucky_victory) = 100
  /\ Combat.xp (fst (Combat.get_rewards Scenario.lucky_victory g))
     = Enemy.xp_reward (Combat.enemy Scenario.lucky_victory)
  /\ Combat.loot (fst (Combat.get_rewards Scenario.lucky_victory g))
     = Spec.loot_trials (Enemy.loot_table (Combat.enemy Scenario.lucky_victory)) g
  /\ Combat.gold (fst (Combat.get_rewards Scenario.lucky_victory g)) = 128
  /\ Spec.reward_gold 100 29 = 129
  /\ Spec.reward_gold_binary64 100 29 = 129.
Proof.
  rewrite (get_rewards_victory Scenario.lucky_victory g eq_refl).
  cbn [fst Combat.xp Combat.loot Combat.gold].
  repeat split; vm_compute; reflexivity.
Qed.

(* ================================================================= *)
(** ** The hp invariant *)

Lemma get_max_hp_eq (c : Character.t) :
  Character.get_max_hp c
  = Character.max_hp (Character.base_stats c)
    + Character.bonus_max_hp (Character.equipment_bonuses c).
Proof. reflexivity. Qed.

Lemma payload_max_hp_nonneg (st : list (string * Z)) :
  payload_ok st = true -> 0 <= payload_max_hp st.
Proof.
  induction st as [| [k v] rest IH]; cbn [payload_ok forallb payload_max_hp fst snd].
  - lia.
  - intro H. apply andb_prop in H. destruct H as [H1 H2].
    specialize (IH H2). destruct (k =? "max_hp")%string; cbn in H1; lia.
Qed.

(** One entry of the payload, seen from the hp, the max hp and the slots. *)
Lemma add_bonus_view (c : Character.t) (entry : string * Z) :
  let c' := Character.add_bonus c entry in
  let v := if (fst entry =? "max_hp")%string then snd entry else 0 in
  Character.max_hp (Character.base_stats c') = Character.max_hp (Character.base_stats c)
  /\ Character.equipped c' = Character.equipped c
  /\ Character.bonus_max_hp (Character.equipment_bonuses c')
     = Character.bonus_max_hp (Character.equipment_bonuses c) + v
  /\ Character.hp (Character.base_stats c') = Character.hp (Character.base_stats c) + v.
Proof.
  destruct entry as [k v]. cbv zeta. unfold Character.add_bonus, Character.stat_key.
  cbn [fst snd].
  destruct (k =? "max_hp")%string; [cbn; repeat split; lia |].
  repeat match goal with
         | |- context [if String.eqb k ?x then _ else _] => destruct (String.eqb k x)
         end; cbn; repeat split; lia.
Qed.

Lemma remove_bonus_view (c : Character.t) (entry : string * Z) :
  let c' := Character.remove_bonus c entry in
  let is_max := (fst entry =? "max_hp")%string in
  let b := Character.bonus_max_hp (Character.equipment_bonuses c)
           - (if is_max then snd entry else 0) in
  Character.max_hp (Character.base_stats c') = Character.max_hp (Character.base_stats c)
  /\ Character.equipped c' = Character.equipped c
  /\ Character.bonus_max_hp (Character.equipment_bonuses c') = b
  /\ Character.hp (Character.base_stats c')
     = (if is_max
        then Z.min (Character.hp (Character.base_stats c))
                   (Character.max_hp (Character.base_stats c) + b)
        else Character.hp (Character.base_stats c)).
Proof.
  destruct entry as [k v]. cbv zeta. unfold Character.remove_bonus, Character.stat_key.
  cbn [fst snd].
  destruct (k =? "max_hp")%string; [cbn; repeat split; lia |].
  repeat match goal with
         | |- context [if String.eqb k ?x then _ else _] => destruct (String.eqb k x)
         end; cbn; repeat split; lia.
Qed.

Lemma fold_add_view (st : list (string * Z)) :
  forall c,
    let c' := fold_left Character.add_bonus st c in
    Character.max_hp (Character.base_stats c') = Character.max_hp (Character.base_stats c)
    /\ Character.equipped c' = Character.equipped c
    /\ Character.bonus_max_hp (Character.equipment_bonuses c')
       = Character.bonus_max_hp (Character.equipment_bonuses c) + payload_max_hp st
    /\ Character.hp (Character.base_stats c')
       = Character.hp (Character.base_stats c) + payload_max_hp st.
Proof.
  induction st as [| [k v] rest IH]; intro c; cbn [fold_left payload_max_hp].
  - cbn. repeat split; lia.
  - destruct (add_bonus_view c (k, v)) as (H1 & H2 & H3 & H4).
    destruct (IH (Character.add_bonus c (k, v))) as (I1 & I2 & I3 & I4).
    cbv zeta in *. cbn [fst snd] in *.
    rewrite I1, I2, I3, I4, H1, H2, H3, H4. repeat split; lia.
Qed.

Lemma fold_remove_view (st : list (string * Z)) :
  forall c,
    payload_ok st = true ->
    Character.hp (Character.base_stats c) <= Character.get_max_hp c ->
    let c' := fold_left Character.remove_bonus st c in
    let b := Character.bonus_max_hp (Character.equipment_bonuses c) - payload_max_hp st in
    Character.max_hp (Character.base_stats c') = Character.max_hp (Character.base_stats c)
    /\ Character.equipped c' = Character.equipped c
    /\ Character.bonus_max_hp (Character.equipment_bonuses c') = b
    /\ Character.hp (Character.base_stats c')
       = Z.min (Character.hp (Character.base_stats c))
               (Character.max_hp (Character.base_stats c) + b).
Proof.
  induction st as [| [k v] rest IH]; intros c Hok Hle;
    cbn [fold_left payload_max_hp payload_ok forallb fst snd] in *.
  - rewrite get_max_hp_eq in Hle. cbn. repeat split; lia.
  - apply andb_prop in Hok. destruct Hok as [Hv Hrest].
    pose proof (payload_max_hp_nonneg rest Hrest) as Hnn.
    destruct (remove_bonus_view c (k, v)) as (H1 & H2 & H3 & H4).
    cbv zeta in H1, H2, H3, H4. cbn [fst snd] in *.
    rewrite get_max_hp_eq in Hle.
    assert (Hle' : Character.hp (Character.base_stats (Character.remove_bonus c (k, v)))
                   <= Character.get_max_hp (Character.remove_bonus c (k, v))).
    { rewrite get_max_hp_eq, H1, H3, H4. destruct (k =? "max_hp")%string; lia. }
    destruct (IH (Character.remove_bonus c (k, v)) Hrest Hle') as (I1 & I2 & I3 & I4).
    cbv zeta in *. rewrite I1, I2, I3, I4, H1, H2, H3, H4.
    destruct (k =? "max_hp")%string; cbn in Hv; repeat split; lia.
Qed.

(** [unequip_item] on a slot that holds an item. *)
Lemma unequip_view (slot : string) (k : Character.SlotKey) (item : Items.Item)
    (c : Character.t) :
  Character.slot_key slot = Some k ->
  Character.equipped_get (Character.equipped c) k = Some item ->
  item_ok item = true ->
  Character.hp (Character.base_stats c) <= Character.get_max_hp c ->
  let c' := snd (Character.unequip_item slot c) in
  let b := Character.bonus_max_hp (Character.equipment_bonuses c) - item_max_hp item in
  Character.max_hp (Character.base_stats c') = Character.max_hp (Character.base_stats c)
  /\ Character.equipped c' = Character.equipped_set (Character.equipped c) k None
  /\ Character.bonus_max_hp (Character.equipment_bonuses c') = b
  /\ Character.hp (Character.base_stats c')
     = Z.min (Character.hp (Character.base_stats c))
             (Character.max_hp (Character.base_stats c) + b).
Proof.
  intros Hk Hq Hok Hle. cbv zeta. unfold Character.unequip_item. rewrite Hk, Hq.
  unfold item_ok, item_max_hp in *. cbn [snd].
  destruct (Items.stats item) as [st |].
  - destruct (fold_remove_view st c Hok Hle) as (H1 & H2 & H3 & H4). cbv zeta in *.
    cbn [Character.with_equipped Character.base_stats Character.equipment_bonuses
         Character.equipped].
    rewrite H2. repeat split; assumption.
  - rewrite get_max_hp_eq in Hle. cbn. repeat split; lia.
Qed.

(** [unequip_item] on an unknown or empty slot does nothing. *)
Lemma unequip_nothing (slot : string) (c : Character.t) :
  (Character.slot_key slot = None
   \/ exists k, Character.slot_key slot = Some k
                /\ Character.equipped_get (Character.equipped c) k = None) ->
  Character.unequip_item slot c = (None, c).
Proof.
  unfold Character.unequip_item. intros [H | (k & H1 & H2)].
  - now rewrite H.
  - now rewrite H1, H2.
Qed.

(** [equip_item] on a known slot: the previous item, if any, is unequipped,
    then the bonus of the new item is added to the max hp and to the hp. *)
Lemma equip_view (item : Items.Item) (slot : string) (k : Character.SlotKey)
    (c : Character.t) :
  Character.slot_key slot = Some k ->
  let c0 := snd (Character.unequip_item slot c) in
  let c' := snd (Character.equip_item item slot c) in
  Character.max_hp (Character.base_stats c') = Character.max_hp (Character.base_stats c0)
  /\ Character.equipped c' = Character.equipped_set (Character.equipped c0) k (Some item)
  /\ Character.bonus_max_hp (Character.equipment_bonuses c')
     = Character.bonus_max_hp (Character.equipment_bonuses c0) + item_max_hp item
  /\ Character.hp (Character.base_stats c')
     = Character.hp (Character.base_stats c0) + item_max_hp item.
Proof.
  intro Hk. cbv zeta. unfold Character.equip_item. rewrite Hk. cbn [snd].
  assert (E : match Character.equipped_get (Character.equipped c) k with
              | Some _ => snd (Character.unequip_item slot c)
              | None => c
              end = snd (Character.unequip_item slot c)).
  { destruct (Character.equipped_get (Character.equipped c) k) eqn:Eq; [reflexivity |].
    rewrite unequip_nothing; [reflexivity |]. right. now exists k. }
  rewrite E. set (c0 := snd (Character.unequip_item slot c)).
  unfold item_max_hp. destruct (Items.stats item) as [st |].
  - destruct (fold_add_view st
                (Character.with_equipped c0
                   (Character.equipped_set (Character.equipped c0) k (Some item))))
      as (H1 & H2 & H3 & H4).
    cbv zeta in *. rewrite H1, H2, H3, H4. cbn. repeat split.
  - cbn. repeat split; lia.
Qed.

Lemma equipped_set_max_hp (c c' : Character.t) (k : Character.SlotKey)
    (x : option Items.Item) :
  Character.equipped c' = Character.equipped_set (Character.equipped c) k x ->
  equipped_max_hp c'
  = equipped_max_hp c - slot_max_hp (Character.equipped_get (Character.equipped c) k)
    + slot_max_hp x.
Proof.
  intro H. unfold equipped_max_hp. rewrite H. destruct k; cbn; lia.
Qed.

Lemma equipped_set_ok (c c' : Character.t) (k : Character.SlotKey)
    (x : option Items.Item) :
  Character.equipped c' = Character.equipped_set (Character.equipped c) k x ->
  slot_ok x = true ->
  slot_ok (Character.weapon (Character.equipped c)) = true ->
  slot_ok (Character.armor (Character.equipped c)) = true ->
  slot_ok (Character.accessory (Character.equipped c)) = true ->
  slot_ok (Character.weapon (Character.equipped c')) = true
  /\ slot_ok (Character.armor (Character.equipped c')) = true
  /\ slot_ok (Character.accessory (Character.equipped c')) = true.
Proof.
  intros H Hx H1 H2 H3. rewrite H. destruct k; cbn; repeat split; assumption.
Qed.

Lemma slot_ok_get (c : Character.t) (k : Character.SlotKey) :
  slot_ok (Character.weapon (Character.equipped c)) = true ->
  slot_ok (Character.armor (Character.equipped c)) = true ->
  slot_ok (Character.accessory (Character.equipped c)) = true ->
  slot_ok (Character.equipped_get (Character.equipped c) k) = true.
Proof. destruct k; cbn; auto. Qed.

Lemma slot_max_hp_nonneg (x : option Items.Item) : slot_ok x = true -> 0 <= slot_max_hp x.
Proof.
  destruct x as [item |]; cbn; [| lia].
  unfold item_ok, item_max_hp. destruct (Items.stats item); [| lia].
  apply payload_max_hp_nonneg.
Qed.

Lemma well_formed_init (name : string) : well_formed (Character.init name).
Proof. unfold well_formed, hp_inv. cbn. repeat split; lia. Qed.

Lemma well_formed_hp_inv (c : Character.t) : well_formed c -> hp_inv c.
Proof. unfold well_formed. tauto. Qed.

Ltac wf_unfold :=
  unfold well_formed, hp_inv, equipped_max_hp in *;
  rewrite ?get_max_hp_eq in *.

Lemma wf_heal (amount : Z) (c : Character.t) :
  0 <= amount -> well_formed c -> well_formed (snd (Character.heal amount c)).
Proof.
  intros Ha H. unfold Character.heal. cbn [snd]. wf_unfold.
  cbn [Character.set_base Character.with_base Character.base_set Character.base_stats
       Character.equipment_bonuses Character.equipped Character.max_hp Character.hp].
  rewrite ?get_max_hp_eq. intuition lia.
Qed.

Lemma wf_take_damage (damage : Z) (c : Character.t) :
  well_formed c -> well_formed (snd (Character.take_damage damage c)).
Proof.
  intro H. rewrite character_take_damage_eq. cbn [snd]. wf_unfold.
  cbn [Character.set_base Character.with_base Character.with_is_alive
       Character.base_set Character.base_stats
       Character.equipment_bonuses Character.equipped Character.max_hp Character.hp].
  assert (1 <= damage_taken (Character.get_stat c "defense") damage)
    by (unfold damage_taken; lia).
  intuition lia.
Qed.

Lemma wf_level_up (c : Character.t) :
  well_formed c -> well_formed (snd (Character.level_up c)).
Proof.
  intro H. destruct (Z.lt_ge_cases (Character.xp c) (Character.xp_to_next_level c)) as [L | L].
  - now rewrite level_up_below.
  - rewrite level_up_reached by assumption. cbn [snd]. wf_unfold.
    cbn [Character.base_set Character.base_stats
         Character.equipment_bonuses Character.equipped Character.max_hp Character.hp].
    intuition lia.
Qed.

Lemma wf_add_xp (amount : Z) (c : Character.t) :
  well_formed c -> well_formed (snd (Character.add_xp amount c)).
Proof.
  intro H. unfold Character.add_xp.
  set (c1 := Character.with_xp c _).
  assert (H1 : well_formed c1) by exact H.
  destruct (_ <=? _); [now apply wf_level_up | exact H1].
Qed.

Lemma wf_allocate_stat (stat_name : string) (points : Z) (c : Character.t) :
  0 <= points -> well_formed c ->
  well_formed (snd (Character.allocate_stat stat_name points c)).
Proof.
  intros Hp H. unfold Character.allocate_stat.
  destruct (Character.stat_key stat_name) as [k |]; [| exact H].
  destruct k; try exact H;
    (destruct (Character.stat_points c <? points); [exact H |]);
    cbn [snd]; wf_unfold;
    cbn [Character.set_base Character.with_base Character.with_stat_points
         Character.base_set Character.base_get Character.base_stats
         Character.equipment_bonuses Character.equipped Character.max_hp Character.hp];
    intuition lia.
Qed.

Lemma equipped_get_set_same (q : Character.Equipped) (k : Character.SlotKey)
    (x : option Items.Item) :
  Character.equipped_get (Character.equipped_set q k x) k = x.
Proof. destruct k; reflexivity. Qed.

(** After [unequip_item] the character is well formed and the slot, when it
    is one of the three, is empty. *)
Lemma wf_unequip_item (slot : string) (c : Character.t) :
  well_formed c ->
  let c' := snd (Character.unequip_item slot c) in
  well_formed c'
  /\ Character.hp (Character.base_stats c')
     = Z.min (Character.hp (Character.base_stats c)) (Character.get_max_hp c')
  /\ (forall k, Character.slot_key slot = Some k ->
        Character.equipped_get (Character.equipped c') k = None).
Proof.
  intro H. cbv zeta.
  destruct (Character.slot_key slot) as [k |] eqn:Ek.
  2: { rewrite unequip_nothing by (now left). cbn [snd].
       split; [exact H |]. split; [| discriminate].
       unfold well_formed, hp_inv in H. lia. }
  destruct (Character.equipped_get (Character.equipped c) k) as [item |] eqn:Eq.
  2: { rewrite unequip_nothing by (right; now exists k). cbn [snd].
       split; [exact H |]. split.
       - unfold well_formed, hp_inv in H. lia.
       - intros k' Hk'. inversion Hk'. subst k'. exact Eq. }
  destruct H as (HM & HB & Hw & Har & Hac & Hinv).
  pose proof (slot_ok_get c k Hw Har Hac) as Hok. rewrite Eq in Hok. cbn in Hok.
  destruct (unequip_view slot k item c Ek Eq Hok (proj2 Hinv)) as (H1 & H2 & H3 & H4).
  cbv zeta in *.
  set (c' := snd (Character.unequip_item slot c)) in *.
  destruct (equipped_set_ok c c' k None H2 eq_refl Hw Har Hac) as (Hw' & Har' & Hac').
  pose proof (equipped_set_max_hp c c' k None H2) as Hsum.
  rewrite Eq in Hsum. cbn [slot_max_hp] in Hsum.
  assert (HB' : Character.bonus_max_hp (Character.equipment_bonuses c') = equipped_max_hp c')
    by lia.
  assert (Hnn : 0 <= equipped_max_hp c').
  { unfold equipped_max_hp.
    pose proof (slot_max_hp_nonneg _ Hw'). pose proof (slot_max_hp_nonneg _ Har').
    pose proof (slot_max_hp_nonneg _ Hac'). lia. }
  unfold hp_inv in Hinv. rewrite get_max_hp_eq in Hinv.
  split; [| split].
  - unfold well_formed, hp_inv. rewrite get_max_hp_eq. intuition lia.
  - rewrite get_max_hp_eq. lia.
  - intros k' Hk'. inversion Hk'. subst k'. rewrite H2. apply equipped_get_set_same.
Qed.

Lemma wf_equip_item (item : Items.Item) (slot : string) (c : Character.t) :
  item_ok item = true -> well_formed c ->
  well_formed (snd (Character.equip_item item slot c)).
Proof.
  intros Hok H.
  destruct (Character.slot_key slot) as [k |] eqn:Ek.
  2: { unfold Character.equip_item. rewrite Ek. exact H. }
  destruct (wf_unequip_item slot c H) as (H0 & _ & Hempty). cbv zeta in *.
  specialize (Hempty k Ek).
  destruct (equip_view item slot k c Ek) as (H1 & H2 & H3 & H4). cbv zeta in *.
  set (c0 := snd (Character.unequip_item slot c)) in *.
  set (c' := snd (Character.equip_item item slot c)) in *.
  destruct H0 as (HM & HB & Hw & Har & Hac & Hinv).
  destruct (equipped_set_ok c0 c' k (Some item) H2 Hok Hw Har Hac) as (Hw' & Har' & Hac').
  pose proof (equipped_set_max_hp c0 c' k (Some item) H2) as Hsum.
  rewrite Hempty in Hsum. cbn [slot_max_hp] in Hsum.
  pose proof (slot_max_hp_nonneg (Some item) Hok) as Hnn. cbn [slot_max_hp] in Hnn.
  unfold hp_inv in Hinv. rewrite get_max_hp_eq in Hinv.
  unfold well_formed, hp_inv. rewrite get_max_hp_eq. intuition lia.
Qed.

Lemma wf_apply_op (c : Character.t) (op : Op) :
  valid_op op = true -> well_formed c -> well_formed (apply_op c op).
Proof.
  destruct op; cbn [valid_op apply_op]; intros Hv H.
  - apply wf_heal; [lia | exact H].
  - now apply wf_take_damage.
  - now apply wf_level_up.
  - now apply wf_add_xp.
  - apply wf_allocate_stat; [lia | exact H].
  - now apply wf_equip_item.
  - now apply (wf_unequip_item slot c H).
Qed.

Lemma wf_reachable (ops : list Op) :
  forall c, forallb valid_op ops = true -> well_formed c ->
            well_formed (fold_left apply_op ops c).
Proof.
  induction ops as [| op rest IH]; intros c Hv H; cbn [fold_left forallb] in *.
  - exact H.
  - apply andb_prop in Hv. destruct Hv as [Hop Hrest].
    apply IH; [exact Hrest |]. now apply wf_apply_op.
Qed.

(** C6 (as amended).  [0 <= hp <= effectiveMaxHp] holds for a fresh
    character and in every state reached from it by [heal] with an amount
    that is not negative, [take_damage], [level_up] (also through [add_xp]),
    [allocate_stat] with a number of points that is not negative,
    [equip_item] of an item without a negative max-hp bonus, and
    [unequip_item]; each of these operations preserves it from there.
    Equipping on a known slot adds the max-hp bonus of the item to the
    effective max hp and to the hp left by unequipping the previous item of
    the slot (the hp as it was when the slot was empty), and unequipping
    sets the hp to the minimum of the hp and the new effective max hp. *)
Theorem hp_invariant (name : string) (ops : list Op) :
  forallb valid_op ops = true ->
  let c := fold_left apply_op ops (Character.init name) in
  hp_inv (Character.init name)
  /\ hp_inv c
  /\ (forall op, valid_op op = true -> hp_inv (apply_op c op))
  /\ Character.get_max_hp c
     = Character.max_hp (Character.base_stats c)
       + Character.bonus_max_hp (Character.equipment_bonuses c)
  /\ (forall item slot k,
        Character.slot_key slot = Some k ->
        let c0 := snd (Character.unequip_item slot c) in
        let c' := snd (Character.equip_item item slot c) in
        Character.hp (Character.base_stats c')
        = Character.hp (Character.base_stats c0) + item_max_hp item
        /\ Character.get_max_hp c' = Character.get_max_hp c0 + item_max_hp item
        /\ (Character.equipped_get (Character.equipped c) k = None -> c0 = c))
  /\ (forall slot,
        let c' := snd (Character.unequip_item slot c) in
        Character.hp (Character.base_stats c')
        = Z.min (Character.hp (Character.base_stats c)) (Character.get_max_hp c')).
Proof.
  intro Hv. cbv zeta.
  pose proof (wf_reachable ops (Character.init name) Hv (well_formed_init name)) as Hc.
  split; [apply well_formed_hp_inv, well_formed_init |].
  split; [now apply well_formed_hp_inv |].
  split; [intros op Hop; now apply well_formed_hp_inv, wf_apply_op |].
  split; [apply get_max_hp_eq |].
  split.
  - intros item slot k Hk.
    destruct (equip_view item slot k (fold_left apply_op ops (Character.init name)) Hk)
      as (H1 & H2 & H3 & H4). cbv zeta in *.
    split; [exact H4 |]. split.
    + rewrite !get_max_hp_eq. lia.
    + intro Hn. rewrite unequip_nothing; [reflexivity |]. right. now exists k.
  - intro slot. now apply (wf_unequip_item slot _ Hc).
Qed.

Lemma hp_invariant_witness :
  hp_inv (fold_left apply_op
            [AllocateStat "max_hp" 2; EquipItem Scenario.silver_amulet "accessory";
             TakeDamage 60; Heal 500; AddXp 200; UnequipItem "accessory"]
            (Character.init "Hero"))
  /\ Character.hp (Character.base_stats
                     (snd (Character.equip_item Scenario.silver_amulet "accessory"
                             (Character.init "Hero")))) = 115.
Proof.
  split.
  - apply (hp_invariant "Hero"
             [AllocateStat "max_hp" 2; EquipItem Scenario.silver_amulet "accessory";
              TakeDamage 60; Heal 500; AddXp 200; UnequipItem "accessory"]).
    vm_compute. reflexivity.
  - destruct (hp_invariant "Hero" [] eq_refl) as (_ & _ & _ & _ & He & _).
    destruct (He Scenario.silver_amulet "accessory" Character.KAccessory eq_refl)
      as (E & _). cbv zeta in E. cbn [fold_left] in E. rewrite E. vm_compute. reflexivity.
Defined.

(** C6 as stated fails on a negative argument: from a fresh character (hp
    100 of 100), [heal(-200)] leaves -100 hp, [allocate_stat('max_hp', -30)]
    leaves -50 hp, and equipping an accessory whose payload is
    [{'max_hp': -150}] leaves -50 hp. *)
Lemma hp_invariant_negative_arguments :
  hp_inv (Character.init "Hero")
  /\ Character.hp (Character.base_stats
                     (snd (Character.heal (-200) (Character.init "Hero")))) = -100
  /\ ~ hp_inv (snd (Character.heal (-200) (Character.init "Hero")))
  /\ Character.hp (Character.base_stats
                     (snd (Character.allocate_stat "max_hp" (-30) (Character.init "Hero"))))
     = -50
  /\ ~ hp_inv (snd (Character.allocate_stat "max_hp" (-30) (Character.init "Hero")))
  /\ Character.hp (Character.base_stats
                     (snd (Character.equip_item Scenario.cursed_amulet "accessory"
                             (Character.init "Hero")))) = -50
  /\ ~ hp_inv (snd (Character.equip_item Scenario.cursed_amulet "accessory"
                      (Character.init "Hero"))).
Proof.
  unfold hp_inv. vm_compute.
  repeat split; try discriminate; intros [H _]; apply H; reflexivity.
Qed.

(* ================================================================= *)
(** * Further properties *)

(** ** Equipment bookkeeping *)

Lemma character_ext (c1 c2 : Character.t) :
  strip c1 = strip c2 ->
  Character.hp (Character.base_stats c1) = Character.hp (Character.base_stats c2) ->
  Character.equipment_bonuses c1 = Character.equipment_bonuses c2 ->
  c1 = c2.
Proof.
  destruct c1 as [n1 l1 x1 t1 [m1 h1 s1 d1 a1 i1 k1] e1 q1 al1 g1 p1].
  destruct c2 as [n2 l2 x2 t2 [m2 h2 s2 d2 a2 i2 k2] e2 q2 al2 g2 p2].
  unfold strip. cbn. intros H1 H2 H3. inversion H1. subst. reflexivity.
Qed.

Lemma bonuses_ext (e1 e2 : Character.EquipmentBonuses) :
  (forall k, k <> Character.KHp -> bonus_value e1 k = bonus_value e2 k) -> e1 = e2.
Proof.
  destruct e1, e2. intro H.
  pose proof (H Character.KMaxHp ltac:(discriminate)).
  pose proof (H Character.KStrength ltac:(discriminate)).
  pose proof (H Character.KDefense ltac:(discriminate)).
  pose proof (H Character.KAgility ltac:(discriminate)).
  pose proof (H Character.KIntelligence ltac:(discriminate)).
  pose proof (H Character.KLuck ltac:(discriminate)).
  cbn in *. congruence.
Qed.

Lemma payload_total_max_hp (st : list (string * Z)) :
  payload_total st Character.KMaxHp = payload_max_hp st.
Proof.
  induction st as [| [s v] rest IH]; cbn [payload_total payload_max_hp]; [reflexivity |].
  rewrite IH. f_equal. unfold Character.stat_key.
  destruct (s =? "max_hp")%string; [reflexivity |].
  repeat match goal with
         | |- context [if String.eqb s ?x then _ else _] => destruct (String.eqb s x)
         end; reflexivity.
Qed.

Lemma add_bonus_frame (c : Character.t) (entry : string * Z) :
  strip (Character.add_bonus c entry) = strip c
  /\ forall k, k <> Character.KHp ->
       bonus_value (Character.equipment_bonuses (Character.add_bonus c entry)) k
       = bonus_value (Character.equipment_bonuses c) k + payload_total [entry] k.
Proof.
  destruct entry as [s v]. unfold Character.add_bonus. cbn [payload_total].
  destruct (Character.stat_key s) as [[] |]; (split; [reflexivity |]);
    intros k Hk; destruct k; try contradiction; cbn; lia.
Qed.

Lemma remove_bonus_frame (c : Character.t) (entry : string * Z) :
  strip (Character.remove_bonus c entry) = strip c
  /\ forall k, k <> Character.KHp ->
       bonus_value (Character.equipment_bonuses (Character.remove_bonus c entry)) k
       = bonus_value (Character.equipment_bonuses c) k - payload_total [entry] k.
Proof.
  destruct entry as [s v]. unfold Character.remove_bonus. cbn [payload_total].
  destruct (Character.stat_key s) as [[] |]; (split; [reflexivity |]);
    intros k Hk; destruct k; try contradiction; cbn; lia.
Qed.

Lemma fold_add_frame (st : list (string * Z)) :
  forall c,
    strip (fold_left Character.add_bonus st c) = strip c
    /\ forall k, k <> Character.KHp ->
         bonus_value (Character.equipment_bonuses (fold_left Character.add_bonus st c)) k
         = bonus_value (Character.equipment_bonuses c) k + payload_total st k.
Proof.
  induction st as [| entry rest IH]; intro c; cbn [fold_left].
  - split; [reflexivity |]. intros k _. cbn. lia.
  - destruct (IH (Character.add_bonus c entry)) as [I1 I2].
    destruct (add_bonus_frame c entry) as [H1 H2].
    split; [congruence |]. intros k Hk. rewrite I2, H2 by assumption.
    destruct entry as [s v]. cbn [payload_total]. lia.
Qed.

Lemma fold_remove_frame (st : list (string * Z)) :
  forall c,
    strip (fold_left Character.remove_bonus st c) = strip c
    /\ forall k, k <> Character.KHp ->
         bonus_value (Character.equipment_bonuses (fold_left Character.remove_bonus st c)) k
         = bonus_value (Character.equipment_bonuses c) k - payload_total st k.
Proof.
  induction st as [| entry rest IH]; intro c; cbn [fold_left].
  - split; [reflexivity |]. intros k _. cbn. lia.
  - destruct (IH (Character.remove_bonus c entry)) as [I1 I2].
    destruct (remove_bonus_frame c entry) as [H1 H2].
    split; [congruence |]. intros k Hk. rewrite I2, H2 by assumption.
    destruct entry as [s v]. cbn [payload_total]. lia.
Qed.

Lemma strip_with_equipped (c1 c2 : Character.t) (q : Character.Equipped) :
  strip c1 = strip c2 ->
  strip (Character.with_equipped c1 q) = strip (Character.with_equipped c2 q).
Proof.
  destruct c1 as [n1 l1 x1 t1 [m1 h1 s1 d1 a1 i1 k1] e1 q1 al1 g1 p1].
  destruct c2 as [n2 l2 x2 t2 [m2 h2 s2 d2 a2 i2 k2] e2 q2 al2 g2 p2].
  unfold strip. cbn. intro H. inversion H. reflexivity.
Qed.

Lemma unequip_frame (slot : string) (k : Character.SlotKey) (item : Items.Item)
    (c : Character.t) :
  Character.slot_key slot = Some k ->
  Character.equipped_get (Character.equipped c) k = Some item ->
  let out := Character.unequip_item slot c in
  fst out = Some item
  /\ strip (snd out)
     = strip (Character.with_equipped c
                (Character.equipped_set (Character.equipped c) k None))
  /\ forall k0, k0 <> Character.KHp ->
       bonus_value (Character.equipment_bonuses (snd out)) k0
       = bonus_value (Character.equipment_bonuses c) k0 - item_total item k0.
Proof.
  intros Hk Hq. cbv zeta. unfold Character.unequip_item. rewrite Hk, Hq. cbn [fst snd].
  split; [reflexivity |]. unfold item_total.
  destruct (Items.stats item) as [st |].
  - destruct (fold_remove_frame st c) as [H1 H2]. split.
    + assert (E : Character.equipped (fold_left Character.remove_bonus st c)
                  = Character.equipped c).
      { apply (f_equal Character.equipped) in H1. exact H1. }
      rewrite E. now apply strip_with_equipped.
    + exact H2.
  - split; [reflexivity |]. intros k0 _. cbn. lia.
Qed.

Lemma equip_frame (item : Items.Item) (slot : string) (k : Character.SlotKey)
    (c : Character.t) :
  Character.slot_key slot = Some k ->
  let c0 := snd (Character.unequip_item slot c) in
  let out := Character.equip_item item slot c in
  fst out = Character.equipped_get (Character.equipped c) k
  /\ strip (snd out)
     = strip (Character.with_equipped c0
                (Character.equipped_set (Character.equipped c0) k (Some item)))
  /\ forall k0, k0 <> Character.KHp ->
       bonus_value (Character.equipment_bonuses (snd out)) k0
       = bonus_value (Character.equipment_bonuses c0) k0 + item_total item k0.
Proof.
  intro Hk. cbv zeta. unfold Character.equip_item. rewrite Hk. cbn [fst snd].
  split; [reflexivity |].
  assert (E : match Character.equipped_get (Character.equipped c) k with
              | Some _ => snd (Character.unequip_item slot c)
              | None => c
              end = snd (Character.unequip_item slot c)).
  { destruct (Character.equipped_get (Character.equipped c) k) eqn:Eq; [reflexivity |].
    rewrite unequip_nothing; [reflexivity |]. right. now exists k. }
  rewrite E. set (c0 := snd (Character.unequip_item slot c)).
  unfold item_total. destruct (Items.stats item) as [st |].
  - destruct (fold_add_frame st
                (Character.with_equipped c0
                   (Character.equipped_set (Character.equipped c0) k (Some item))))
      as [H1 H2].
    split; [exact H1 | exact H2].
  - split; [reflexivity |]. intros k0 _. cbn. lia.
Qed.

Lemma equipped_set_total (c c' : Character.t) (k : Character.SlotKey)
    (x : option Items.Item) (k0 : Character.StatKey) :
  Character.equipped c' = Character.equipped_set (Character.equipped c) k x ->
  equipped_total c' k0
  = equipped_total c k0 - slot_total (Character.equipped_get (Character.equipped c) k) k0
    + slot_total x k0.
Proof.
  intro H. unfold equipped_total. rewrite H. destruct k; cbn; lia.
Qed.

Lemma strip_equipped (c1 c2 : Character.t) :
  strip c1 = strip c2 -> Character.equipped c1 = Character.equipped c2.
Proof. intro H. apply (f_equal Character.equipped) in H. exact H. Qed.

Lemma bonuses_match_unequip (slot : string) (c : Character.t) :
  bonuses_match c ->
  bonuses_match (snd (Character.unequip_item slot c))
  /\ forall k, Character.slot_key slot = Some k ->
       Character.equipped_get
         (Character.equipped (snd (Character.unequip_item slot c))) k = None.
Proof.
  intro H.
  destruct (Character.slot_key slot) as [k |] eqn:Ek.
  2: { rewrite unequip_nothing by (now left). split; [exact H | discriminate]. }
  destruct (Character.equipped_get (Character.equipped c) k) as [item |] eqn:Eq.
  2: { rewrite unequip_nothing by (right; now exists k). split; [exact H |].
       intros k' Hk'. inversion Hk'. subst. exact Eq. }
  destruct (unequip_frame slot k item c Ek Eq) as (_ & H1 & H2). cbv zeta in *.
  apply strip_equipped in H1. cbn [Character.with_equipped Character.equipped] in H1.
  split.
  - intros k0 Hk0. rewrite H2 by assumption. rewrite (H k0 Hk0).
    rewrite (equipped_set_total c _ k None k0 H1). rewrite Eq. cbn. lia.
  - intros k' Hk'. inversion Hk'. subst. rewrite H1. apply equipped_get_set_same.
Qed.

Lemma bonuses_match_equip (item : Items.Item) (slot : string) (c : Character.t) :
  bonuses_match c -> bonuses_match (snd (Character.equip_item item slot c)).
Proof.
  intro H.
  destruct (Character.slot_key slot) as [k |] eqn:Ek.
  2: { unfold Character.equip_item. rewrite Ek. exact H. }
  destruct (bonuses_match_unequip slot c H) as [H0 Hempty].
  specialize (Hempty k Ek).
  destruct (equip_frame item slot k c Ek) as (_ & H1 & H2). cbv zeta in *.
  apply strip_equipped in H1. cbn [Character.with_equipped Character.equipped] in H1.
  intros k0 Hk0. rewrite H2 by assumption. rewrite (H0 k0 Hk0).
  rewrite (equipped_set_total _ _ k (Some item) k0 H1). rewrite Hempty. cbn. lia.
Qed.

(** The operations that are not about equipment leave the bonuses and the
    slots alone. *)
Lemma stat_ops_keep_equipment (c : Character.t) (op : Op) :
  match op with
  | EquipItem _ _ | UnequipItem _ => True
  | _ => Character.equipment_bonuses (apply_op c op) = Character.equipment_bonuses c
         /\ Character.equipped (apply_op c op) = Character.equipped c
  end.
Proof.
  destruct op; cbn [apply_op]; try exact I.
  - split; reflexivity.
  - rewrite character_take_damage_eq. split; reflexivity.
  - unfold Character.level_up. destruct (_ <? _); split; reflexivity.
  - unfold Character.add_xp, Character.level_up. cbn.
    destruct (_ <=? _); [destruct (_ <? _) |]; split; reflexivity.
  - unfold Character.allocate_stat.
    destruct (Character.stat_key stat_name) as [[] |]; try (split; reflexivity);
      destruct (_ <? _); split; reflexivity.
Qed.

Lemma bonuses_match_apply_op (c : Character.t) (op : Op) :
  bonuses_match c -> bonuses_match (apply_op c op).
Proof.
  intro H. pose proof (stat_ops_keep_equipment c op) as F.
  destruct op; cbn [apply_op] in *.
  1-5: destruct F as [F1 F2]; unfold bonuses_match, equipped_total in *;
       rewrite F1, F2; exact H.
  - now apply bonuses_match_equip.
  - now apply bonuses_match_unequip.
Qed.

(** X1.  Along every sequence of operations on a fresh character, with any
    arguments, each equipment bonus is the sum of the entries for that stat
    in the payloads of the items that are equipped, so that an effective
    stat is the base stat plus what the equipped items give. *)
Theorem equipment_bonuses_are_sums (name : string) (ops : list Op)
    (k : Character.StatKey) :
  k <> Character.KHp ->
  let c := fold_left apply_op ops (Character.init name) in
  bonus_value (Character.equipment_bonuses c) k = equipped_total c k
  /\ Character.get_stat c (key_name k)
     = Character.base_get (Character.base_stats c) k + equipped_total c k.
Proof.
  intro Hk. cbv zeta.
  assert (H : bonuses_match (fold_left apply_op ops (Character.init name))).
  { assert (G : forall c, bonuses_match c -> bonuses_match (fold_left apply_op ops c)).
    { induction ops as [| op rest IH]; intros c Hc; cbn [fold_left]; [exact Hc |].
      apply IH. now apply bonuses_match_apply_op. }
    apply G. intros k0 _. destruct k0; reflexivity. }
  split; [now apply H |].
  rewrite <- (H k Hk). destruct k; try contradiction; reflexivity.
Qed.

Lemma equipment_bonuses_are_sums_witness :
  Character.get_stat adorned "luck" = 18
  /\ bonus_value (Character.equipment_bonuses adorned) Character.KMaxHp = 15.
Proof.
  split.
  - destruct (equipment_bonuses_are_sums "Hero"
                [EquipItem Scenario.silver_amulet "accessory"; TakeDamage 40]
                Character.KLuck ltac:(discriminate)) as [_ E].
    cbv zeta in E. exact E.
  - destruct (equipment_bonuses_are_sums "Hero"
                [EquipItem Scenario.silver_amulet "accessory"; TakeDamage 40]
                Character.KMaxHp ltac:(discriminate)) as [E _].
    cbv zeta in E. exact E.
Defined.

Lemma equipped_set_set_none (q : Character.Equipped) (k : Character.SlotKey)
    (x : option Items.Item) :
  Character.equipped_get q k = None ->
  Character.equipped_set (Character.equipped_set q k x) k None = q.
Proof. destruct q, k; cbn; intro H; subst; reflexivity. Qed.

Lemma strip_identity (c1 c2 : Character.t) (q : Character.Equipped) :
  strip c1 = strip (Character.with_equipped c2 q) -> identity_of c1 = identity_of c2.
Proof.
  destruct c1 as [n1 l1 x1 t1 [m1 h1 s1 d1 a1 i1 k1] e1 q1 al1 g1 p1].
  destruct c2 as [n2 l2 x2 t2 [m2 h2 s2 d2 a2 i2 k2] e2 q2 al2 g2 p2].
  unfold strip, identity_of. cbn. intro H. inversion H. reflexivity.
Qed.

Lemma unequip_identity (slot : string) (c : Character.t) :
  identity_of (snd (Character.unequip_item slot c)) = identity_of c.
Proof.
  destruct (Character.slot_key slot) as [k |] eqn:Ek.
  2: { now rewrite unequip_nothing by (now left). }
  destruct (Character.equipped_get (Character.equipped c) k) as [item |] eqn:Eq.
  2: { now rewrite unequip_nothing by (right; now exists k). }
  destruct (unequip_frame slot k item c Ek Eq) as (_ & H & _).
  exact (strip_identity _ _ _ H).
Qed.

Lemma equip_identity (item : Items.Item) (slot : string) (c : Character.t) :
  identity_of (snd (Character.equip_item item slot c)) = identity_of c.
Proof.
  destruct (Character.slot_key slot) as [k |] eqn:Ek.
  2: { unfold Character.equip_item. now rewrite Ek. }
  destruct (equip_frame item slot k c Ek) as (_ & H & _). cbv zeta in H.
  rewrite (strip_identity _ _ _ H). apply unequip_identity.
Qed.

(** X2.  Equipping an item on an empty slot and unequipping it again gives
    back the bonuses, the slots and every other field, except the hp: the
    hp has gained the max-hp bonus of the item, up to the effective max hp.
    [equip_item] returns nothing, the slot then holds the item, and
    [unequip_item] returns the item. *)
Theorem equip_unequip_round_trip (item : Items.Item) (slot : string)
    (k : Character.SlotKey) (c : Character.t) :
  Character.slot_key slot = Some k ->
  Character.equipped_get (Character.equipped c) k = None ->
  item_ok item = true ->
  Character.hp (Character.base_stats c) <= Character.get_max_hp c ->
  let e := Character.equip_item item slot c in
  let u := Character.unequip_item slot (snd e) in
  fst e = None
  /\ Character.equipped_get (Character.equipped (snd e)) k = Some item
  /\ fst u = Some item
  /\ snd u
     = Character.set_base c Character.KHp
         (Z.min (Character.hp (Character.base_stats c) + item_max_hp item)
                (Character.get_max_hp c)).
Proof.
  intros Hk Hq Hok Hle. cbv zeta.
  destruct (equip_frame item slot k c Hk) as (E1 & E2 & E3).
  destruct (equip_view item slot k c Hk) as (V1 & V2 & V3 & V4).
  cbv zeta in *.
  assert (E0 : snd (Character.unequip_item slot c) = c).
  { rewrite unequip_nothing; [reflexivity |]. right. now exists k. }
  rewrite E0 in *.
  set (c1 := snd (Character.equip_item item slot c)) in *.
  assert (Hg : Character.equipped_get (Character.equipped c1) k = Some item).
  { rewrite V2. apply equipped_get_set_same. }
  assert (Hle1 : Character.hp (Character.base_stats c1) <= Character.get_max_hp c1).
  { rewrite !get_max_hp_eq in *. lia. }
  destruct (unequip_frame slot k item c1 Hk Hg) as (U1 & U2 & U3).
  destruct (unequip_view slot k item c1 Hk Hg Hok Hle1) as (W1 & W2 & W3 & W4).
  cbv zeta in *.
  split; [rewrite E1; exact Hq |]. split; [exact Hg |]. split; [exact U1 |].
  apply character_ext.
  - rewrite U2. rewrite V2. rewrite (equipped_set_set_none _ _ _ Hq).
    rewrite (strip_with_equipped c1 _ (Character.equipped c) E2).
    destruct c as [n l x t [m h s d a i lk] e q al g p]. reflexivity.
  - rewrite W4, V4, V1, V3. cbn [Character.set_base Character.with_base
      Character.base_set Character.base_stats Character.hp].
    rewrite get_max_hp_eq. f_equal. lia.
  - apply bonuses_ext. intros k0 Hk0. rewrite U3, E3 by assumption.
    cbn [Character.set_base Character.with_base Character.equipment_bonuses]. lia.
Qed.

Lemma equip_unequip_round_trip_witness :
  Character.hp
    (Character.base_stats
       (snd (Character.unequip_item "accessory"
               (snd (Character.equip_item Scenario.silver_amulet "accessory" fallen)))))
  = 15
  /\ Character.hp (Character.base_stats fallen) = 0.
Proof.
  destruct (equip_unequip_round_trip Scenario.silver_amulet "accessory"
              Character.KAccessory fallen eq_refl eq_refl eq_refl)
    as (_ & _ & _ & E).
  - vm_compute. discriminate.
  - cbv zeta in E. rewrite E. vm_compute. split; reflexivity.
Defined.

(* ================================================================= *)
(** ** Healing, death and revival *)

(** X3.  With hp within the effective max hp, [heal] of a non-negative amount
    returns the smaller of the amount and the missing hp, adds exactly that
    to the hp and changes nothing else. *)
Theorem heal_returns_missing_hp (amount : Z) (c : Character.t) :
  0 <= amount ->
  Character.hp (Character.base_stats c) <= Character.get_max_hp c ->
  let missing := Character.get_max_hp c - Character.hp (Character.base_stats c) in
  let healed := fst (Character.heal amount c) in
  let c' := snd (Character.heal amount c) in
  healed = Z.min amount missing
  /\ 0 <= healed <= amount
  /\ c' = Character.set_base c Character.KHp
            (Character.hp (Character.base_stats c) + healed)
  /\ Character.get_max_hp c' = Character.get_max_hp c
  /\ (missing <= amount -> Character.hp (Character.base_stats c') = Character.get_max_hp c).
Proof.
  intros Ha Hle. cbv zeta. unfold Character.heal. cbn [fst snd].
  set (m := Character.get_max_hp c) in *.
  set (h := Character.hp (Character.base_stats c)) in *.
  assert (E : Character.hp
                (Character.base_stats (Character.set_base c Character.KHp (Z.min m (h + amount))))
              = Z.min m (h + amount)) by reflexivity.
  rewrite E.
  assert (E2 : h + (Z.min m (h + amount) - h) = Z.min m (h + amount)) by lia.
  rewrite E2. repeat split; try lia; try reflexivity.
Qed.

Lemma heal_returns_missing_hp_witness :
  fst (Character.heal 50 adorned) = 35
  /\ fst (Character.heal 20 adorned) = 20.
Proof.
  assert (H1 : 0 <= 50) by lia. assert (H2 : 0 <= 20) by lia.
  assert (Hle : Character.hp (Character.base_stats adorned) <= Character.get_max_hp adorned)
    by (vm_compute; discriminate).
  destruct (heal_returns_missing_hp 50 adorned H1 Hle) as (E1 & _).
  destruct (heal_returns_missing_hp 20 adorned H2 Hle) as (E2 & _).
  cbv zeta in *. rewrite E1, E2. vm_compute. split; reflexivity.
Defined.










(* ================================================================= *)
(** ** Experience *)


Lemma add_xp_cases (amount : Z) (c : Character.t) :
  let total := Character.xp c + xp_gained amount c in
  let out := Character.add_xp amount c in
  (total < Character.xp_to_next_level c
   /\ out = (false, Character.with_xp c total))
  \/ (Character.xp_to_next_level c <= total
      /\ fst out = true
      /\ Character.level (snd out) = Character.level c + 1
      /\ Character.xp (snd out) = total - Character.xp_to_next_level c
      /\ Character.xp_to_next_level (snd out) = Spec.xp_threshold (Character.level c + 1)).
Proof.
  cbv zeta. unfold Character.add_xp, xp_gained. cbv zeta.
  set (g := Py.int_of_float _).
  cbn [Character.with_xp Character.xp Character.xp_to_next_level].
  destruct (Z.leb_spec (Character.xp_to_next_level c) (Character.xp c + g)) as [Hle | Hlt].
  - right. split; [exact Hle |].
    rewrite (level_up_reached (Character.with_xp c (Character.xp c + g)));
      [| cbn; exact Hle].
    cbn. repeat split; reflexivity.
  - left. split; [exact Hlt | reflexivity].
Qed.

(** X5.  [add_xp] returns True exactly when the xp with the gain reaches the
    threshold, and then raises the level by one, never by more: the xp
    beyond the threshold is kept, also when it already reaches the next
    threshold. *)
Theorem add_xp_one_level (amount : Z) (c : Character.t) :
  let total := Character.xp c + xp_gained amount c in
  let out := Character.add_xp amount c in
  (fst out = true <-> Character.xp_to_next_level c <= total)
  /\ Character.level (snd out) = Character.level c + (if fst out then 1 else 0)
  /\ Character.xp (snd out)
     = total - (if fst out then Character.xp_to_next_level c else 0).
Proof.
  cbv zeta. destruct (add_xp_cases amount c) as [(H & E) | (H & E1 & E2 & E3 & _)];
    cbv zeta in *.
  - rewrite E. cbn [fst snd Character.with_xp Character.level Character.xp].
    split; [split; [discriminate | lia] |]. split; lia.
  - rewrite E1, E2, E3. split; [split; [intros _; exact H | reflexivity] |].
    split; reflexivity.
Qed.








(* ================================================================= *)
(** ** Dodge and critical chances *)






Lemma enemy_attack_eq (s : Combat.t) (g : Random.state) :
  Combat.enemy_attack s g
  = if dodged s g then
      ("You dodged the attack!",
       Combat.log (String.concat "" ["You dodge "; Enemy.name (Combat.enemy s);
                                     "'s attack!"]) s,
       advance 1 g)
    else
      let s1 :=
        if Combat.is_defending s
        then Combat.log (String.concat "" [Enemy.name (Combat.enemy s);
                                           " attacks! Your defense reduces damage."])
               (Combat.with_is_defending s false)
        else s in
      let hit := Character.take_damage (incoming s g) (Combat.character s) in
      (String.concat "" [Enemy.name (Combat.enemy s); " deals "; Py.str (fst hit);
                         " damage!"],
       Combat.log (String.concat "" [Enemy.name (Combat.enemy s); " attacks you for ";
                                     Py.str (fst hit); " damage!"])
         (Combat.with_character s1 (snd hit)),
       advance 2 g).
Proof.
  unfold Combat.enemy_attack, dodged, incoming, Enemy.get_attack_damage,
    Random.random, Random.randint, Random.draw, advance.
  cbn [fst snd Random.tape Random.cursor Nat.add].
  destruct (_ <? _)%float; [reflexivity |].
  set (d := Z.max 1 _).
  assert (Hd : 1 <= d) by apply Z.le_max_l.
  destruct (Combat.is_defending s) eqn:Ed.
  - rewrite int_of_Q_half. rewrite (Z.quot_div_nonneg d 2) by lia.
    cbn [Combat.log Combat.with_is_defending Combat.character Combat.enemy].
    destruct (Character.take_damage (d / 2) (Combat.character s)) as [taken c1].
    reflexivity.
  - destruct (Character.take_damage d (Combat.character s)) as [taken c1].
    reflexivity.
Qed.

Lemma randint_range (a b : Z) (g : Random.state) :
  a <= b -> a <= fst (Random.randint a b g) <= b.
Proof.
  intro H. unfold Random.randint, Random.draw. cbn [fst].
  pose proof (Z.mod_pos_bound (Z.of_N (Random.tape g (Random.cursor g))) (b - a + 1)
                ltac:(lia)).
  lia.
Qed.

(* ================================================================= *)
(** ** The attack of the enemy and the order of the turn *)

(** X7.  The attack damage of an enemy is at least 1 and lies within 2 of
    twice its strength (clamped at 1); the call makes one draw. *)
Theorem enemy_attack_damage_range (e : Enemy.t) (g : Random.state) :
  let d := fst (Enemy.get_attack_damage e g) in
  1 <= d
  /\ Z.max 1 (2 * Enemy.strength e - 2) <= d <= Z.max 1 (2 * Enemy.strength e + 2)
  /\ snd (Enemy.get_attack_damage e g) = advance 1 g.
Proof.
  cbv zeta. pose proof (randint_range (-2) 2 g ltac:(lia)) as R.
  unfold Enemy.get_attack_damage.
  unfold Random.randint, Random.draw in *. cbn [fst snd] in *.
  repeat split; try lia.
Qed.

(** X8.  When the agility of the player (equipment included) exceeds the
    agility of the enemy by 10 or more, the player always acts first; when
    the enemy leads by 11 or more, the enemy always acts first.  Two draws
    are made. *)
Theorem turn_order_by_agility (s : Combat.t) (g : Random.state) :
  let pa := Character.get_stat (Combat.character s) "agility" in
  let ea := Enemy.agility (Combat.enemy s) in
  ea + 10 <= pa \/ pa + 11 <= ea ->
  Combat.get_turn_order s g
  = (if ea <=? pa then ["player"; "enemy"] else ["enemy"; "player"], advance 2 g).
Proof.
  cbv zeta. intro H. rewrite get_turn_order_eq.
  pose proof (randint_range 0 10 g ltac:(lia)) as R1.
  pose proof (randint_range 0 10 (advance 1 g) ltac:(lia)) as R2.
  destruct (Z.leb_spec (Enemy.agility (Combat.enemy s))
              (Character.get_stat (Combat.character s) "agility")) as [L | L];
    destruct (Z.leb_spec
                (Enemy.agility (Combat.enemy s) + fst (Random.randint 0 10 (advance 1 g)))
                (Character.get_stat (Combat.character s) "agility"
                 + fst (Random.randint 0 10 g))); try reflexivity; lia.
Qed.

Lemma turn_order_by_agility_witness :
  fst (Combat.get_turn_order swift (Random.of_list [0; 10]%N)) = ["player"; "enemy"].
Proof.
  rewrite (turn_order_by_agility swift (Random.of_list [0; 10]%N)).
  - reflexivity.
  - left. vm_compute. discriminate.
Defined.




(* ================================================================= *)
(** ** Invariants of a session *)

(** A property of the session that the branch of the player, the branch of
    the enemy and the turn counter preserve holds along every sequence of
    turns. *)
Section TurnInvariant.

Variable P : Combat.t -> Prop.
Variable ok : option Items.Item -> Prop.

Hypothesis P_turn_count : forall s n, P s -> P (Combat.with_turn_count s n).

Hypothesis P_player :
  forall player_action item msgs s g,
    ok item -> P s -> Combat.result s = Combat.ONGOING ->
    P (session_of (player_last player_action item msgs s g)).

Hypothesis P_enemy :
  forall msgs s g,
    P s -> Combat.result s = Combat.ONGOING -> P (session_of (enemy_turn msgs s g)).

Lemma run_actors_invariant (turn_order : list string)
    (player_action : Combat.CombatAction) (item : option Items.Item) :
  ok item ->
  forall (msgs : list string) (s : Combat.t) (g : Random.state),
    P s -> P (session_of (Combat.run_actors turn_order player_action item msgs s g)).
Proof.
  intro Hok. induction turn_order as [| actor rest IH]; intros msgs s g HP;
    cbn [Combat.run_actors]; [exact HP |].
  destruct (Combat.is_ongoing (Combat.result s)) eqn:Eo; cbn [negb]; [| exact HP].
  assert (Hr : Combat.result s = Combat.ONGOING)
    by (destruct (Combat.result s); try discriminate; reflexivity).
  destruct (actor =? "player")%string.
  - pose proof (P_player player_action item msgs s g Hok HP Hr) as Hp.
    unfold player_last, session_of in Hp.
    destruct (Combat.player_turn player_action item msgs s g) as [[[ret m1] s1] g1].
    cbn [fst snd] in Hp. destruct ret; [exact Hp |].
    destruct (Enemy.is_alive (Combat.enemy s1)); cbn [negb]; [now apply IH | exact Hp].
  - pose proof (P_enemy msgs s g HP Hr) as He.
    unfold enemy_turn, session_of in He.
    destruct (Combat.enemy_attack s g) as [[m s1] g1]. cbn [fst snd] in He.
    destruct (Character.is_dead (Combat.character s1)); [exact He | now apply IH].
Qed.

Lemma execute_turn_invariant (player_action : Combat.CombatAction)
    (item : option Items.Item) (s : Combat.t) (g : Random.state) :
  ok item -> P s -> P (session_of (Combat.execute_turn player_action item s g)).
Proof.
  intros Hok HP. unfold Combat.execute_turn.
  destruct (Combat.get_turn_order _ g) as [order g1].
  apply run_actors_invariant; [exact Hok | now apply P_turn_count].
Qed.

Lemma run_turns_invariant (turns : list (Combat.CombatAction * option Items.Item)) :
  Forall (fun turn => ok (snd turn)) turns ->
  forall (s : Combat.t) (g : Random.state), P s -> P (fst (run_turns turns s g)).
Proof.
  induction 1 as [| [player_action item] rest Hok _ IH]; intros s g HP; [exact HP |].
  cbn [run_turns]. pose proof (execute_turn_invariant player_action item s g Hok HP) as H1.
  destruct (Combat.execute_turn player_action item s g) as [[m s1] g1].
  now apply IH.
Qed.

End TurnInvariant.

Lemma healthy_not_dead (c : Character.t) : healthy c -> Character.is_dead c = false.
Proof.
  intros (Ha & Hh & _). unfold Character.is_dead. rewrite Ha. cbn [negb orb].
  apply Z.leb_gt. lia.
Qed.

Lemma use_healthy (effect_type : string) (effect_amount : Z) (c : Character.t) :
  0 <= effect_amount -> healthy c ->
  healthy (snd (Consumable.use effect_type effect_amount c)).
Proof.
  intros Ha Hc. pose proof Hc as (H1 & H2 & H3). unfold Consumable.use.
  destruct (effect_type =? "heal")%string.
  - unfold Character.heal. cbn [snd]. unfold healthy.
    rewrite get_max_hp_eq in *.
    cbn [Character.set_base Character.with_base Character.base_set Character.base_stats
         Character.equipment_bonuses Character.is_alive Character.hp Character.max_hp].
    rewrite get_max_hp_eq.
    cbn [Character.set_base Character.with_base Character.base_set Character.base_stats
         Character.equipment_bonuses Character.is_alive Character.hp Character.max_hp].
    split; [exact H1 | lia].
  - destruct (effect_type =? "max_hp_boost")%string.
    + cbn [snd]. unfold healthy. rewrite get_max_hp_eq in *.
      cbn [Character.set_base Character.with_base Character.base_set Character.base_stats
           Character.equipment_bonuses Character.is_alive Character.hp Character.max_hp].
      split; [exact H1 | lia].
    + destruct (effect_type =? "revive")%string; [| exact Hc].
      rewrite (healthy_not_dead c Hc). exact Hc.
Qed.

Lemma coherent_player (player_action : Combat.CombatAction) (item : option Items.Item)
    (msgs : list string) (s : Combat.t) (g : Random.state) :
  usable item = true -> coherent s -> Combat.result s = Combat.ONGOING ->
  coherent (session_of (player_last player_action item msgs s g)).
Proof.
  intros Hok Hc Hr. unfold coherent in Hc. rewrite Hr in Hc. destruct Hc as [He Hh].
  unfold player_last, session_of, Combat.player_turn. destruct player_action.
  - (* ATTACK *)
    rewrite player_attack_eq. cbv zeta. rewrite enemy_take_damage_eq. cbv zeta.
    cbn [fst snd]. set (a := damage_taken _ _).
    assert (Ha : 1 <= a) by apply Z.le_max_l.
    set (l := if (_ <? _)%float then _ else _).
    cbn [Combat.log Combat.with_enemy Combat.enemy].
    destruct (Enemy.is_alive _) eqn:Ea; unfold Enemy.is_alive in Ea; cbn in Ea;
      unfold coherent;
      cbn [Combat.result Combat.with_result Combat.log Combat.with_enemy Combat.enemy
           Combat.character Enemy.hp Enemy.with_hp];
      rewrite ?Hr.
    + apply Z.ltb_lt in Ea. split; [exact Ea | exact Hh].
    + apply Z.ltb_ge in Ea. split; [lia | exact Hh].
  - (* DEFEND *)
    cbn [Combat.player_defend fst snd Combat.log Combat.with_is_defending Combat.enemy].
    unfold Enemy.is_alive. destruct (Z.ltb_spec 0 (Enemy.hp (Combat.enemy s))); [| lia].
    unfold coherent. cbn. rewrite Hr. now split.
  - (* USE_ITEM *)
    unfold Combat.player_use_item, usable in *.
    destruct item as [it |]; [| cbn; unfold coherent; rewrite Hr; now split].
    destruct (Items.payload it) as [et ea | | | | |];
      try (cbn; unfold coherent; rewrite Hr; now split).
    pose proof (use_healthy et ea (Combat.character s) ltac:(lia) Hh) as Hu.
    destruct (Consumable.use et ea (Combat.character s)) as [m c1]. cbn [snd] in Hu.
    cbn [fst snd negb Combat.log Combat.with_character Combat.enemy].
    unfold Enemy.is_alive. destruct (Z.ltb_spec 0 (Enemy.hp (Combat.enemy s))); [| lia].
    unfold coherent. cbn. rewrite Hr. now split.
  - (* FLEE *)
    rewrite attempt_flee_eq. cbv zeta.
    destruct (fst (value_of (Combat.attempt_flee s g)));
      cbn [fst snd Combat.log Combat.with_result Combat.with_flee_attempts Combat.enemy].
    + unfold coherent. cbn. now split.
    + unfold Enemy.is_alive. destruct (Z.ltb_spec 0 (Enemy.hp (Combat.enemy s))); [| lia].
      unfold coherent. cbn. rewrite Hr. now split.
Qed.

Lemma coherent_enemy (msgs : list string) (s : Combat.t) (g : Random.state) :
  coherent s -> Combat.result s = Combat.ONGOING ->
  coherent (session_of (enemy_turn msgs s g)).
Proof.
  intros Hc Hr. unfold coherent in Hc. rewrite Hr in Hc. destruct Hc as [He Hh].
  unfold enemy_turn, session_of. rewrite enemy_attack_eq.
  destruct (dodged s g).
  - cbn [fst snd Combat.log Combat.character]. rewrite (healthy_not_dead _ Hh).
    unfold coherent. cbn. rewrite Hr. now split.
  - cbv zeta. rewrite character_take_damage_eq. cbv zeta.
    set (a := damage_taken _ _).
    assert (Ha : 1 <= a) by apply Z.le_max_l.
    destruct Hh as (H1 & H2 & H3).
    cbn [fst snd]. set (h := Z.max 0 (Character.hp (Character.base_stats (Combat.character s)) - a)).
    assert (Eh : Character.is_dead
                   (Combat.character
                      (Combat.log
                         (String.concat ""
                            [Enemy.name (Combat.enemy s); " attacks you for "; Py.str a;
                             " damage!"])
                         (Combat.with_character
                            (if Combat.is_defending s
                             then Combat.log
                                    (String.concat ""
                                       [Enemy.name (Combat.enemy s);
                                        " attacks! Your defense reduces damage."])
                                    (Combat.with_is_defending s false)
                             else s)
                            (Character.with_is_alive
                               (Character.set_base (Combat.character s) Character.KHp h)
                               (if h =? 0 then false
                                else Character.is_alive (Combat.character s))))))
                 = (h =? 0)).
    { unfold Character.is_dead. cbn. rewrite H1.
      destruct (Z.eqb_spec h 0) as [E | E]; [reflexivity |].
      cbn. apply Z.leb_gt. unfold h in *. lia. }
    rewrite Eh. destruct (Z.eqb_spec h 0) as [E | E].
    + unfold coherent. destruct (Combat.is_defending s); cbn; repeat split; assumption.
    + unfold coherent, healthy. rewrite get_max_hp_eq in *.
      destruct (Combat.is_defending s); cbn; rewrite Hr, ?H1; cbn;
        (split; [assumption |]); (split; [reflexivity |]); unfold h in *; lia.
Qed.

Lemma coherent_turn_count (s : Combat.t) (n : Z) :
  coherent s -> coherent (Combat.with_turn_count s n).
Proof. unfold coherent. cbn. tauto. Qed.

(** X11.  From a living enemy and a living player with hp within the max hp,
    whatever the actions (the amount of a used consumable not being
    negative) and the draws, the result of the session agrees with the two
    sides: while it is ONGOING or FLED both are alive; VICTORY goes with an
    enemy at 0 hp and a living player; DEFEAT with a player at 0 hp, flagged
    dead, and a living enemy.  The two sides are never both down. *)
Theorem session_is_coherent (c : Character.t) (e : Enemy.t) (g : Random.state)
    (turns : list (Combat.CombatAction * option Items.Item)) :
  healthy c -> 0 < Enemy.hp e ->
  forallb (fun turn => usable (snd turn)) turns = true ->
  coherent (fst (run_turns turns (Combat.init c e) g)).
Proof.
  intros Hc He Hu.
  apply (run_turns_invariant coherent (fun item => usable item = true)).
  - exact coherent_turn_count.
  - exact coherent_player.
  - exact coherent_enemy.
  - apply Forall_forall. intros turn Hin.
    rewrite forallb_forall in Hu. now apply Hu.
  - unfold coherent. cbn. now split.
Qed.

Lemma session_is_coherent_witness :
  coherent (fst (run_turns four_turns Scenario.fresh Scenario.player_first_draws)).
Proof.
  apply (session_is_coherent Scenario.hero Enemies.slime).
  - unfold healthy. vm_compute. repeat split; discriminate.
  - vm_compute. reflexivity.
  - vm_compute. reflexivity.
Defined.

Lemma log_extends_refl (s : Combat.t) : log_extends s s.
Proof. exists []. now rewrite app_nil_r. Qed.

Lemma log_extends_trans (s1 s2 s3 : Combat.t) :
  log_extends s1 s2 -> log_extends s2 s3 -> log_extends s1 s3.
Proof.
  intros [l1 E1] [l2 E2]. exists (l1 ++ l2)%list. now rewrite E2, E1, app_assoc.
Qed.

Lemma log_extends_player (s0 : Combat.t) (player_action : Combat.CombatAction)
    (item : option Items.Item) (msgs : list string) (s : Combat.t) (g : Random.state) :
  log_extends s0 s ->
  log_extends s0 (session_of (player_last player_action item msgs s g)).
Proof.
  intro H. apply (log_extends_trans _ _ _ H).
  unfold player_last, session_of, Combat.player_turn. destruct player_action.
  - rewrite player_attack_eq. cbv zeta. cbn [fst snd].
    set (l := if (_ <? _)%float then _ else _).
    destruct (Enemy.is_alive _); now exists [l].
  - cbn [Combat.player_defend fst snd].
    destruct (Enemy.is_alive _); now exists ["You take a defensive stance."].
  - unfold Combat.player_use_item.
    destruct item as [it |]; [| apply log_extends_refl].
    destruct (Items.payload it) as [et ea | | | | |]; try apply log_extends_refl.
    destruct (Consumable.use et ea (Combat.character s)) as [m c1].
    cbn [fst snd negb].
    destruct (Enemy.is_alive _);
      now exists [String.concat "" ["You use "; Items.name it; ". "; m]].
  - rewrite attempt_flee_eq. cbv zeta.
    destruct (fst (value_of (Combat.attempt_flee s g))); cbn [fst snd].
    + now exists ["You successfully fled from combat!"].
    + destruct (Enemy.is_alive _); now exists ["Failed to flee!"].
Qed.

Lemma log_extends_enemy (s0 : Combat.t) (msgs : list string) (s : Combat.t)
    (g : Random.state) :
  log_extends s0 s -> log_extends s0 (session_of (enemy_turn msgs s g)).
Proof.
  intro H. apply (log_extends_trans _ _ _ H).
  unfold enemy_turn, session_of. rewrite enemy_attack_eq.
  destruct (dodged s g).
  - cbn [fst snd]. destruct (Character.is_dead _); eexists; cbn; reflexivity.
  - cbv zeta. cbn [fst snd].
    destruct (Character.is_dead _); destruct (Combat.is_defending s); eexists; cbn;
      rewrite <- ?app_assoc; reflexivity.
Qed.

(** X12.  The combat log only grows: along every sequence of turns, whatever
    the actions and the draws, the log of the session keeps the entries it
    had, in their order, and new ones are appended. *)
Theorem combat_log_is_append_only (s : Combat.t) (g : Random.state)
    (turns : list (Combat.CombatAction * option Items.Item)) :
  exists entries,
    Combat.combat_log (fst (run_turns turns s g))
    = (Combat.combat_log s ++ entries)%list.
Proof.
  apply (run_turns_invariant (log_extends s) (fun _ => True)).
  - intros s1 n H. exact H.
  - intros a item msgs s1 g1 _ H _. now apply log_extends_player.
  - intros msgs s1 g1 H _. now apply log_extends_enemy.
  - apply Forall_forall. intros. exact I.
  - apply log_extends_refl.
Qed.

Lemma enemy_fades_refl (s : Combat.t) : 0 <= Enemy.hp (Combat.enemy s) -> enemy_fades s s.
Proof. intro H. split; [destruct (Combat.enemy s); reflexivity | lia]. Qed.

Lemma enemy_fades_same (s0 s s' : Combat.t) :
  Combat.enemy s' = Combat.enemy s -> enemy_fades s0 s -> enemy_fades s0 s'.
Proof. unfold enemy_fades. intros E H. now rewrite E. Qed.

Lemma enemy_fades_player (s0 : Combat.t) (player_action : Combat.CombatAction)
    (item : option Items.Item) (msgs : list string) (s : Combat.t) (g : Random.state) :
  enemy_fades s0 s ->
  enemy_fades s0 (session_of (player_last player_action item msgs s g)).
Proof.
  intro H. unfold player_last, session_of, Combat.player_turn. destruct player_action.
  - rewrite player_attack_eq. cbv zeta. rewrite enemy_take_damage_eq. cbv zeta.
    cbn [fst snd]. set (a := damage_taken _ _).
    assert (Ha : 1 <= a) by apply Z.le_max_l.
    set (l := if (_ <? _)%float then _ else _).
    destruct H as [H1 H2].
    assert (F : enemy_fades s0
                  (Combat.log l
                     (Combat.with_enemy s
                        (Enemy.with_hp (Combat.enemy s)
                           (Z.max 0 (Enemy.hp (Combat.enemy s) - a)))))).
    { split; cbn; [rewrite H1; reflexivity | lia]. }
    destruct (Enemy.is_alive _); [exact F |].
    eapply enemy_fades_same; [| exact F]. reflexivity.
  - cbn [Combat.player_defend fst snd].
    destruct (Enemy.is_alive _); eapply enemy_fades_same; try exact H; reflexivity.
  - unfold Combat.player_use_item.
    destruct item as [it |]; [| exact H].
    destruct (Items.payload it) as [et ea | | | | |]; try exact H.
    destruct (Consumable.use et ea (Combat.character s)) as [m c1].
    cbn [fst snd negb].
    destruct (Enemy.is_alive _); eapply enemy_fades_same; try exact H; reflexivity.
  - rewrite attempt_flee_eq. cbv zeta.
    destruct (fst (value_of (Combat.attempt_flee s g))); cbn [fst snd].
    + eapply enemy_fades_same; [| exact H]; reflexivity.
    + destruct (Enemy.is_alive _); eapply enemy_fades_same; try exact H; reflexivity.
Qed.

Lemma enemy_fades_enemy (s0 : Combat.t) (msgs : list string) (s : Combat.t)
    (g : Random.state) :
  enemy_fades s0 s -> enemy_fades s0 (session_of (enemy_turn msgs s g)).
Proof.
  intro H. pose proof (enemy_attack_counters s g) as (_ & _ & E).
  unfold enemy_turn, session_of.
  destruct (Combat.enemy_attack s g) as [[m s1] g1]. cbn [fst snd] in *.
  destruct (Character.is_dead _); eapply enemy_fades_same; try exact H; exact E.
Qed.

(** X13.  Along every sequence of turns the enemy changes in its hp only,
    and the hp never rises and never falls below 0: no action of the combat
    heals the enemy or touches its other attributes. *)
Theorem enemy_only_loses_hp (s : Combat.t) (g : Random.state)
    (turns : list (Combat.CombatAction * option Items.Item)) :
  0 <= Enemy.hp (Combat.enemy s) ->
  let s' := fst (run_turns turns s g) in
  Combat.enemy s' = Enemy.with_hp (Combat.enemy s) (Enemy.hp (Combat.enemy s'))
  /\ 0 <= Enemy.hp (Combat.enemy s') <= Enemy.hp (Combat.enemy s).
Proof.
  intro H0. cbv zeta.
  apply (run_turns_invariant (enemy_fades s) (fun _ => True)).
  - intros s1 n H. exact H.
  - intros a item msgs s1 g1 _ H _. now apply enemy_fades_player.
  - intros msgs s1 g1 H _. now apply enemy_fades_enemy.
  - apply Forall_forall. intros. exact I.
  - now apply enemy_fades_refl.
Qed.

Lemma enemy_only_loses_hp_witness :
  Enemy.hp (Combat.enemy (fst (run_turns four_turns Scenario.fresh
                                 Scenario.player_first_draws)))
  <= 30.
Proof.
  destruct (enemy_only_loses_hp Scenario.fresh Scenario.player_first_draws four_turns)
    as (_ & _ & H).
  - vm_compute. discriminate.
  - exact H.
Defined.

(* ================================================================= *)
(** ** Rewards and loot *)

Lemma subsequence_weaken_tail (ys : list string) :
  (forall xs y, subsequence xs ys = true -> subsequence xs (y :: ys) = true)
  /\ (forall x xs, subsequence (x :: xs) ys = true -> subsequence xs ys = true).
Proof.
  induction ys as [| y0 ys' [IHw IHt]].
  - split.
    + intros [| x xs] y H; [reflexivity | discriminate].
    + intros x xs H. discriminate.
  - assert (T : forall x xs, subsequence (x :: xs) (y0 :: ys') = true ->
                             subsequence xs (y0 :: ys') = true).
    { intros x xs H. cbn [subsequence] in H.
      destruct (x =? y0)%string; apply IHw; [exact H | now apply (IHt x)]. }
    split; [| exact T].
    intros [| x xs] y H; [reflexivity |].
    cbn [subsequence]. destruct (x =? y)%string; [now apply (T x) | exact H].
Qed.

Lemma loot_trials_subsequence (entries : list (string * float)) :
  forall g, subsequence (Spec.loot_trials entries g) (map fst entries) = true.
Proof.
  induction entries as [| [item_id drop_chance] rest IH]; intro g; [reflexivity |].
  cbn [Spec.loot_trials map fst].
  destruct (_ <? drop_chance)%float; cbn [app].
  - cbn [subsequence]. rewrite String.eqb_refl. apply IH.
  - apply (proj1 (subsequence_weaken_tail (map fst rest))). apply IH.
Qed.

(** X14.  [get_rewards] pays only after a victory: on any other result it
    returns 0 xp, 0 gold and no loot and makes no draw.  After a victory the
    xp is the xp reward of the enemy, one draw is made per entry of the loot
    table, and the loot is a subsequence of the ids of the table, in the
    order of the table. *)
Theorem rewards_follow_the_result (s : Combat.t) (g : Random.state) :
  let out := Combat.get_rewards s g in
  match Combat.result s with
  | Combat.VICTORY =>
      Combat.xp (fst out) = Enemy.xp_reward (Combat.enemy s)
      /\ subsequence (Combat.loot (fst out)) (map fst (Enemy.loot_table (Combat.enemy s)))
         = true
      /\ snd out = advance (List.length (Enemy.loot_table (Combat.enemy s))) g
  | _ => out = ({| Combat.xp := 0; Combat.gold := 0; Combat.loot := [] |}, g)
  end.
Proof.
  cbv zeta. destruct (Combat.result s) eqn:E;
    try (unfold Combat.get_rewards; rewrite E; reflexivity).
  rewrite (get_rewards_victory s g E). cbn [fst snd Combat.xp Combat.loot].
  split; [reflexivity |]. split; [apply loot_trials_subsequence | reflexivity].
Qed.

(* ================================================================= *)
(** ** Dictionaries *)

Lemma dict_get_in {V : Type} (d : Dict.t V) (k : string) (v : V) :
  Dict.get d k = Some v -> In (k, v) d.
Proof.
  induction d as [| [k' v'] rest IH]; cbn [Dict.get]; [discriminate |].
  destruct (String.eqb_spec k' k) as [E | E]; intro H.
  - inversion H. subst. now left.
  - right. now apply IH.
Qed.

Lemma dict_get_set_same {V : Type} (d : Dict.t V) (k : string) (v : V) :
  Dict.get (Dict.set d k v) k = Some v.
Proof.
  induction d as [| [k' v'] rest IH]; cbn [Dict.set Dict.get].
  - now rewrite String.eqb_refl.
  - destruct (k' =? k)%string eqn:E; cbn [Dict.get]; rewrite E; [reflexivity | exact IH].
Qed.

Lemma dict_get_set_other {V : Type} (d : Dict.t V) (k k0 : string) (v : V) :
  k0 <> k -> Dict.get (Dict.set d k v) k0 = Dict.get d k0.
Proof.
  intro N. induction d as [| [k' v'] rest IH]; cbn [Dict.set Dict.get].
  - destruct (String.eqb_spec k k0); [congruence | reflexivity].
  - destruct (String.eqb_spec k' k) as [E | E]; cbn [Dict.get].
    + subst. destruct (String.eqb_spec k k0); [congruence | reflexivity].
    + now rewrite IH.
Qed.

Lemma dict_sum_set (d : Dict.t Z) (k : string) (v : Z) :
  Dict.sum_values (Dict.set d k v)
  = Dict.sum_values d - Dict.get_default d k 0 + v.
Proof.
  unfold Dict.sum_values, Dict.values, Dict.get_default.
  induction d as [| [k' v'] rest IH]; cbn [Dict.set Dict.get map fold_right snd].
  - lia.
  - destruct (k' =? k)%string; cbn [map fold_right snd]; [lia |].
    rewrite IH. destruct (Dict.get rest k); lia.
Qed.

Lemma dict_set_same {V : Type} (d : Dict.t V) (k : string) (v : V) :
  Dict.get d k = Some v -> Dict.set d k v = d.
Proof.
  induction d as [| [k' v'] rest IH]; cbn [Dict.get Dict.set]; [discriminate |].
  destruct (String.eqb_spec k' k) as [E | E]; intro H.
  - inversion H. reflexivity.
  - f_equal. now apply IH.
Qed.

Lemma dict_set_set {V : Type} (d : Dict.t V) (k : string) (v w : V) :
  Dict.set (Dict.set d k v) k w = Dict.set d k w.
Proof.
  induction d as [| [k' v'] rest IH]; cbn [Dict.set].
  - now rewrite String.eqb_refl.
  - destruct (k' =? k)%string eqn:E; cbn [Dict.set]; rewrite E; [reflexivity |].
    now rewrite IH.
Qed.

Lemma dict_del_set_new {V : Type} (d : Dict.t V) (k : string) (v : V) :
  Dict.get d k = None -> Dict.del (Dict.set d k v) k = d.
Proof.
  induction d as [| [k' v'] rest IH]; cbn [Dict.get Dict.set Dict.del].
  - now rewrite String.eqb_refl.
  - destruct (k' =? k)%string eqn:E; [discriminate |]. intro H.
    cbn [Dict.del]. rewrite E. f_equal. now apply IH.
Qed.

Lemma dict_get_del_other {V : Type} (d : Dict.t V) (k k0 : string) :
  k0 <> k -> Dict.get (Dict.del d k) k0 = Dict.get d k0.
Proof.
  intro N. induction d as [| [k' v'] rest IH]; cbn [Dict.del Dict.get]; [reflexivity |].
  destruct (String.eqb_spec k' k) as [E | E]; cbn [Dict.get].
  - subst. destruct (String.eqb_spec k k0); [congruence | reflexivity].
  - now rewrite IH.
Qed.

Lemma dict_get_not_key {V : Type} (d : Dict.t V) (k : string) :
  ~ In k (Dict.keys d) -> Dict.get d k = None.
Proof.
  induction d as [| [k' v'] rest IH]; cbn [Dict.keys map fst Dict.get In];
    [reflexivity |].
  intro N. destruct (String.eqb_spec k' k) as [E | E]; [tauto |].
  apply IH. unfold Dict.keys. tauto.
Qed.

Lemma dict_get_del_same {V : Type} (d : Dict.t V) (k : string) :
  NoDup (Dict.keys d) -> Dict.get (Dict.del d k) k = None.
Proof.
  induction d as [| [k' v'] rest IH]; cbn [Dict.keys map fst Dict.del Dict.get];
    [reflexivity |].
  intro N. inversion N as [| x l Hx Hl]. subst.
  destruct (String.eqb_spec k' k) as [E | E].
  - subst. now apply dict_get_not_key.
  - cbn [Dict.get]. destruct (String.eqb_spec k' k); [congruence |]. now apply IH.
Qed.

Lemma dict_sum_del (d : Dict.t Z) (k : string) :
  Dict.sum_values (Dict.del d k) = Dict.sum_values d - Dict.get_default d k 0.
Proof.
  unfold Dict.sum_values, Dict.values, Dict.get_default.
  induction d as [| [k' v'] rest IH]; cbn [Dict.del Dict.get map fold_right snd].
  - lia.
  - destruct (k' =? k)%string; cbn [map fold_right snd]; [lia |].
    rewrite IH. destruct (Dict.get rest k); lia.
Qed.

Lemma dict_keys_set {V : Type} (d : Dict.t V) (k : string) (v : V) :
  Dict.keys (Dict.set d k v)
  = if Dict.contains d k then Dict.keys d else (Dict.keys d ++ [k])%list.
Proof.
  unfold Dict.keys, Dict.contains.
  induction d as [| [k' v'] rest IH]; cbn [Dict.set Dict.get map fst app]; [reflexivity |].
  destruct (k' =? k)%string; cbn [map fst]; [reflexivity |].
  rewrite IH. destruct (Dict.get rest k); reflexivity.
Qed.

Lemma dict_contains_in {V : Type} (d : Dict.t V) (k : string) :
  Dict.contains d k = false -> ~ In k (Dict.keys d).
Proof.
  unfold Dict.contains, Dict.keys.
  induction d as [| [k' v'] rest IH]; cbn [Dict.get map fst In]; [tauto |].
  destruct (String.eqb_spec k' k) as [E | E]; [discriminate |].
  intros H [H1 | H1]; [congruence | now apply IH].
Qed.

Lemma dict_nodup_set {V : Type} (d : Dict.t V) (k : string) (v : V) :
  NoDup (Dict.keys d) -> NoDup (Dict.keys (Dict.set d k v)).
Proof.
  intro N. rewrite dict_keys_set. destruct (Dict.contains d k) eqn:E; [exact N |].
  apply dict_contains_in in E.
  apply NoDup_rev in N. rewrite <- (rev_involutive (Dict.keys d ++ [k])).
  apply NoDup_rev. rewrite rev_app_distr. cbn [rev app].
  constructor; [| exact N]. rewrite <- in_rev. exact E.
Qed.

Lemma dict_in_del {V : Type} (d : Dict.t V) (k k0 : string) :
  In k0 (Dict.keys (Dict.del d k)) -> In k0 (Dict.keys d).
Proof.
  unfold Dict.keys. induction d as [| [k' v'] rest IH]; cbn [Dict.del map fst In];
    [tauto |].
  destruct (k' =? k)%string; cbn [map fst In]; tauto.
Qed.

Lemma dict_nodup_del {V : Type} (d : Dict.t V) (k : string) :
  NoDup (Dict.keys d) -> NoDup (Dict.keys (Dict.del d k)).
Proof.
  induction d as [| [k' v'] rest IH]; cbn [Dict.del]; [tauto |].
  intro N. change (Dict.keys ((k', v') :: rest)) with (k' :: Dict.keys rest) in N.
  inversion N as [| x l Hx Hl]. subst.
  destruct (k' =? k)%string; [exact Hl |].
  change (NoDup (k' :: Dict.keys (Dict.del rest k))).
  constructor; [| now apply IH]. intro H. apply Hx. now apply dict_in_del in H.
Qed.

(* ================================================================= *)
(** ** The item database *)

Lemma create_item_eq (item_id : string) :
  ItemsDb.create_item item_id = option_map recreate (ItemsDb.get_item item_id).
Proof.
  unfold ItemsDb.create_item, recreate.
  destruct (ItemsDb.get_item item_id) as [t |]; [| reflexivity].
  cbn [option_map]. destruct (Items.payload t); reflexivity.
Qed.

Lemma items_db_ok : Forall entry_ok ItemsDb.ITEMS_DB.
Proof.
  unfold ItemsDb.ITEMS_DB.
  repeat (apply Forall_cons;
          [ cbn; split; [reflexivity |]; split; [lia |];
            first [ reflexivity
                  | split; [lia | intro k; destruct k; reflexivity] ] |]).
  apply Forall_nil.
Qed.

Lemma get_item_ok (item_id : string) (template : Items.Item) :
  ItemsDb.get_item item_id = Some template -> entry_ok (item_id, template).
Proof.
  intro H. apply dict_get_in in H.
  exact (proj1 (Forall_forall entry_ok ItemsDb.ITEMS_DB) items_db_ok _ H).
Qed.

(** X15.  [create_item] on a registered id returns an item with that id and
    the type of the template.  For every type but armor the copy is equal to
    the template.  For an armor the constructor runs on stats that already
    hold the defense bonus and adds it again: the copy gives the defense of
    the template plus the (positive) defense bonus, and the other stats as
    the template. *)
Theorem create_item_counts_armor_defense_twice (item_id : string)
    (template : Items.Item) :
  ItemsDb.get_item item_id = Some template ->
  exists item,
    ItemsDb.create_item item_id = Some item
    /\ Items.item_id item = item_id
    /\ Items.item_type item = Items.item_type template
    /\ match Items.payload template with
       | Items.ArmorPayload defense_bonus stats _ =>
           Items.stats item
           = Some (Dict.set stats "defense"
                     (Dict.get_default stats "defense" 0 + defense_bonus))
           /\ 0 < defense_bonus
           /\ item_total item Character.KDefense
              = item_total template Character.KDefense + defense_bonus
           /\ forall k, k <> Character.KDefense ->
                item_total item k = item_total template k
       | _ => item = template
       end.
Proof.
  intro H. pose proof (get_item_ok _ _ H) as (Hid & _ & Hp).
  exists (recreate template). rewrite create_item_eq, H. cbn [option_map].
  split; [reflexivity |].
  split; [unfold recreate; destruct (Items.payload template); exact Hid |].
  split; [unfold recreate, Items.item_type; destruct (Items.payload template);
          reflexivity |].
  destruct (Items.payload template) as [et ea | d st l | b st l | st l | |] eqn:Ep;
    try exact Hp.
  destruct Hp as [Hb Ht]. split.
  - unfold recreate. rewrite Ep. reflexivity.
  - split; [exact Hb |]. split.
    + rewrite (Ht Character.KDefense). reflexivity.
    + intros k Hk. rewrite (Ht k). destruct k; cbn; try lia. congruence.
Qed.

Lemma create_item_counts_armor_defense_twice_witness :
  match ItemsDb.get_item "leather_armor", ItemsDb.create_item "leather_armor" with
  | Some template, Some item =>
      item_total item Character.KDefense = item_total template Character.KDefense + 8
  | _, _ => False
  end.
Proof.
  destruct (ItemsDb.get_item "leather_armor") as [template |] eqn:E;
    [| vm_compute in E; discriminate].
  destruct (create_item_counts_armor_defense_twice "leather_armor" template E)
    as (item & Hc & _ & _ & Hp).
  rewrite Hc. vm_compute in E. inversion E. subst template.
  cbn [Items.payload] in Hp. destruct Hp as (_ & _ & Hd & _). exact Hd.
Defined.

(* ================================================================= *)
(** ** The enemy database *)

Lemma enemies_db_ok : forallb enemy_ok EnemiesDb.ENEMIES_DB = true.
Proof. vm_compute. reflexivity. Qed.

Lemma enemies_db_copies :
  Forall (fun entry => EnemiesDb.create_enemy (Enemy.enemy_id (snd entry)) = Some (snd entry))
    EnemiesDb.ENEMIES_DB.
Proof.
  unfold EnemiesDb.ENEMIES_DB. repeat (apply Forall_cons; [reflexivity |]). apply Forall_nil.
Qed.

Lemma enemy_entry_ok (entry : string * Enemy.t) :
  In entry EnemiesDb.ENEMIES_DB -> enemy_ok entry = true.
Proof. intro H. exact (proj1 (forallb_forall _ _) enemies_db_ok _ H). Qed.

Lemma enemy_value_entry (e : Enemy.t) :
  In e (Dict.values EnemiesDb.ENEMIES_DB) ->
  In (Enemy.enemy_id e, e) EnemiesDb.ENEMIES_DB.
Proof.
  unfold Dict.values. intro H. apply in_map_iff in H. destruct H as ([k e'] & E & H).
  cbn [snd] in E. subst e'. pose proof (enemy_entry_ok _ H) as Hok.
  unfold enemy_ok in Hok. repeat (apply andb_prop in Hok; destruct Hok as [Hok ?]).
  apply String.eqb_eq in Hok. now rewrite Hok.
Qed.

Lemma enemy_template_facts (e : Enemy.t) :
  In e (Dict.values EnemiesDb.ENEMIES_DB) ->
  EnemiesDb.create_enemy (Enemy.enemy_id e) = Some e
  /\ Enemy.hp e = Enemy.max_hp e /\ 0 < Enemy.hp e /\ 1 <= Enemy.level e <= 18.
Proof.
  intro H. apply enemy_value_entry in H. split.
  - exact (proj1 (Forall_forall _ _) enemies_db_copies _ H).
  - pose proof (enemy_entry_ok _ H) as Hok. unfold enemy_ok in Hok.
    repeat (apply andb_prop in Hok; destruct Hok as [Hok ?]).
    repeat split; lia.
Qed.

Lemma choice_in {A : Type} (seq : list A) (g : Random.state) :
  seq <> [] ->
  exists x,
    EnemiesDb.choice seq g = (Some x, advance 1 g) /\ In x seq.
Proof.
  intro N. unfold EnemiesDb.choice, Random.draw.
  set (i := Z.to_nat (Z.of_N (Random.tape g (Random.cursor g))
                      mod Z.of_nat (List.length seq))).
  assert (Hlen : (0 < List.length seq)%nat) by (destruct seq; [congruence | cbn; lia]).
  assert (Hi : (i < List.length seq)%nat).
  { unfold i.
    pose proof (Z.mod_pos_bound (Z.of_N (Random.tape g (Random.cursor g)))
                  (Z.of_nat (List.length seq)) ltac:(lia)).
    lia. }
  destruct (nth_error seq i) as [x |] eqn:E.
  - exists x. split; [reflexivity |]. now apply nth_error_In in E.
  - apply nth_error_None in E. lia.
Qed.

Lemma level_filter_nonempty (level : Z) :
  -1 <= level <= 19 ->
  EnemiesDb.get_enemies_by_level (Z.max 1 (level - 1)) (level + 2) <> [].
Proof.
  intro H.
  assert (E : level = Z.of_nat (Z.to_nat (level + 1)) - 1) by lia.
  assert (B : (Z.to_nat (level + 1) < 21)%nat) by lia.
  revert E B. generalize (Z.to_nat (level + 1)). intros n E B. subst level.
  do 21 (destruct n as [| n]; [vm_compute; discriminate |]). lia.
Qed.

Lemma level_filter_empty (level : Z) :
  20 <= level \/ level <= -2 ->
  EnemiesDb.get_enemies_by_level (Z.max 1 (level - 1)) (level + 2) = [].
Proof.
  intro H. unfold EnemiesDb.get_enemies_by_level.
  assert (F : forall l, (forall e, In e l -> 1 <= Enemy.level e <= 18) ->
                        filter (fun e => (Z.max 1 (level - 1) <=? Enemy.level e)
                                         && (Enemy.level e <=? level + 2)) l = []).
  { induction l as [| e l IH]; intro Hl; [reflexivity |]. cbn [filter].
    pose proof (Hl e (or_introl eq_refl)) as He.
    replace ((Z.max 1 (level - 1) <=? Enemy.level e) && (Enemy.level e <=? level + 2))
      with false.
    - apply IH. intros e' H'. apply Hl. now right.
    - symmetry. apply andb_false_iff.
      destruct H; [left; apply Z.leb_gt | right; apply Z.leb_gt]; lia. }
  apply F. intros e He. now apply enemy_template_facts.
Qed.

Lemma random_enemy_eq (level : Z) (g : Random.state) :
  EnemiesDb.get_random_enemy_for_level level g
  = let appropriate_enemies :=
      match EnemiesDb.get_enemies_by_level (Z.max 1 (level - 1)) (level + 2) with
      | [] => Dict.values EnemiesDb.ENEMIES_DB
      | l => l
      end in
    (match fst (EnemiesDb.choice appropriate_enemies g) with
     | Some template => EnemiesDb.create_enemy (Enemy.enemy_id template)
     | None => None
     end, snd (EnemiesDb.choice appropriate_enemies g)).
Proof.
  unfold EnemiesDb.get_random_enemy_for_level, EnemiesDb.get_enemies_by_level.
  cbv zeta. destruct (filter _ _); destruct (EnemiesDb.choice _ g); reflexivity.
Qed.

(** X16.  [get_random_enemy_for_level] always returns an enemy: a fresh copy
    of a template of the database, at full, positive hp, after one draw.
    For a character level from -1 to 19 its level lies between
    [max(1, level - 1)] and [level + 2]. *)
Theorem random_enemy_fits_the_level (level : Z) (g : Random.state) :
  exists e,
    EnemiesDb.get_random_enemy_for_level level g = (Some e, advance 1 g)
    /\ In e (Dict.values EnemiesDb.ENEMIES_DB)
    /\ Enemy.hp e = Enemy.max_hp e
    /\ 0 < Enemy.hp e
    /\ if (-1 <=? level) && (level <=? 19)
       then Z.max 1 (level - 1) <= Enemy.level e <= level + 2
       else True.
Proof.
  rewrite random_enemy_eq. cbv zeta.
  destruct (EnemiesDb.get_enemies_by_level (Z.max 1 (level - 1)) (level + 2))
    as [| e0 l] eqn:El.
  - destruct (choice_in (Dict.values EnemiesDb.ENEMIES_DB) g ltac:(discriminate))
      as (t & Ec & Hin).
    rewrite Ec. cbn [fst snd].
    destruct (enemy_template_facts t Hin) as (H1 & H2 & H3 & _).
    exists t. rewrite H1. repeat split; try assumption.
    destruct ((-1 <=? level) && (level <=? 19)) eqn:Eb; [| exact I].
    apply andb_prop in Eb. destruct Eb as [B1 B2].
    apply Z.leb_le in B1, B2.
    now destruct (level_filter_nonempty level ltac:(lia)).
  - destruct (choice_in (e0 :: l) g ltac:(discriminate)) as (t & Ec & Hin).
    rewrite Ec. cbn [fst snd]. rewrite <- El in Hin.
    unfold EnemiesDb.get_enemies_by_level in Hin. apply filter_In in Hin.
    destruct Hin as [Hin Hp].
    destruct (enemy_template_facts t Hin) as (H1 & H2 & H3 & _).
    exists t. rewrite H1. repeat split; try assumption.
    apply andb_prop in Hp. destruct Hp as [P1 P2]. apply Z.leb_le in P1, P2.
    destruct ((-1 <=? level) && (level <=? 19)); [lia | exact I].
Qed.

(** X17.  From character level 20 on (and below -1) no enemy is in the range
    and the choice falls back on the whole database: every enemy, the level
    1 Slime included, is returned for some draw. *)
Theorem random_enemy_falls_back (level : Z) (enemy_id : string) (e : Enemy.t) :
  20 <= level \/ level <= -2 ->
  EnemiesDb.create_enemy enemy_id = Some e ->
  exists g, fst (EnemiesDb.get_random_enemy_for_level level g) = Some e.
Proof.
  intros Hl Hc. unfold EnemiesDb.create_enemy in Hc.
  destruct (Dict.get EnemiesDb.ENEMIES_DB enemy_id) as [t |] eqn:Et; [| discriminate].
  pose proof Et as Eg. apply dict_get_in in Et.
  assert (Hin : In t (Dict.values EnemiesDb.ENEMIES_DB)).
  { unfold Dict.values. apply in_map_iff. now exists (enemy_id, t). }
  destruct (enemy_template_facts t Hin) as (H1 & _).
  assert (Ee : e = t).
  { unfold EnemiesDb.create_enemy in H1.
    pose proof (enemy_value_entry t Hin) as Hk.
    pose proof (enemy_entry_ok _ Et) as Hok. unfold enemy_ok in Hok.
    repeat (apply andb_prop in Hok; destruct Hok as [Hok ?]).
    apply String.eqb_eq in Hok. rewrite Hok, Eg in H1. congruence. }
  subst e. destruct (In_nth_error _ _ Hin) as [i Hi].
  assert (Hb : (i < List.length (Dict.values EnemiesDb.ENEMIES_DB))%nat).
  { apply nth_error_Some. congruence. }
  exists (Random.of_list [N.of_nat i]).
  rewrite random_enemy_eq. cbv zeta. rewrite (level_filter_empty level Hl).
  unfold EnemiesDb.choice, Random.draw, Random.of_list.
  cbn [fst snd Random.tape Random.cursor nth].
  rewrite Z.mod_small by lia. rewrite nat_N_Z, Nat2Z.id. rewrite Hi. exact H1.
Qed.

Lemma random_enemy_falls_back_witness :
  exists g, fst (EnemiesDb.get_random_enemy_for_level 20 g) = Some Enemies.slime.
Proof.
  apply (random_enemy_falls_back 20 "slime" Enemies.slime).
  - left. lia.
  - reflexivity.
Defined.

Lemma loot_trials_in (entries : list (string * float)) :
  forall g item_id,
    In item_id (Spec.loot_trials entries g) -> In item_id (map fst entries).
Proof.
  induction entries as [| [k chance] rest IH]; intros g item_id; cbn [Spec.loot_trials];
    [tauto |].
  intro H. apply in_app_or in H. cbn [map fst In]. destruct H as [H | H].
  - destruct (_ <? chance)%float; [| contradiction]. destruct H; [now left | contradiction].
  - right. now apply (IH _ _ H).
Qed.

(* ================================================================= *)
(** ** The inventory *)

Lemma add_item_eq (item_id : string) (quantity : Z) (inv : Inventory.t) :
  Inventory.add_item item_id quantity inv
  = if Dict.contains ItemsDb.ITEMS_DB item_id
       && (Inventory.get_total_items inv + quantity <=? Inventory.max_capacity inv)
    then (true,
          Inventory.with_items inv
            (Dict.set (Inventory.items inv) item_id
               (Inventory.get_item_count item_id inv + quantity)))
    else (false, inv).
Proof.
  unfold Inventory.add_item, ItemsDb.get_item, Dict.contains, Inventory.get_total_items,
    Inventory.get_item_count.
  destruct (Dict.get ItemsDb.ITEMS_DB item_id); [| reflexivity]. cbn [andb].
  destruct (Z.ltb_spec (Inventory.max_capacity inv)
              (Dict.sum_values (Inventory.items inv) + quantity));
    destruct (Z.leb_spec (Dict.sum_values (Inventory.items inv) + quantity)
                (Inventory.max_capacity inv)); try lia; reflexivity.
Qed.

(** X18.  [add_item] succeeds exactly when the id is registered and the
    total with the new quantity stays within the capacity.  It then raises
    the count of that item and the total by the quantity and leaves the other
    counts; when it fails the inventory is unchanged. *)
Theorem add_item_effect (item_id : string) (quantity : Z) (inv : Inventory.t) :
  let out := Inventory.add_item item_id quantity inv in
  fst out
  = Dict.contains ItemsDb.ITEMS_DB item_id
    && (Inventory.get_total_items inv + quantity <=? Inventory.max_capacity inv)
  /\ if fst out then
       Inventory.get_item_count item_id (snd out)
       = Inventory.get_item_count item_id inv + quantity
       /\ (forall other, other <> item_id ->
             Inventory.get_item_count other (snd out)
             = Inventory.get_item_count other inv)
       /\ Inventory.get_total_items (snd out) = Inventory.get_total_items inv + quantity
       /\ Inventory.max_capacity (snd out) = Inventory.max_capacity inv
     else snd out = inv.
Proof.
  cbv zeta. rewrite add_item_eq. destruct (_ && _); cbn [fst snd]; [| now split].
  split; [reflexivity |].
  unfold Inventory.get_item_count, Inventory.get_total_items, Dict.get_default.
  cbn [Inventory.with_items Inventory.items Inventory.max_capacity].
  rewrite dict_get_set_same, dict_sum_set. unfold Dict.get_default.
  repeat split; try lia.
  intros other N. now rewrite dict_get_set_other.
Qed.

Lemma remove_item_eq (item_id : string) (quantity : Z) (inv : Inventory.t) :
  Inventory.remove_item item_id quantity inv
  = if Dict.contains (Inventory.items inv) item_id
       && (quantity <=? Inventory.get_item_count item_id inv)
    then
      let count := Inventory.get_item_count item_id inv in
      let d1 := Dict.set (Inventory.items inv) item_id (count - quantity) in
      (true,
       Inventory.with_items inv (if count - quantity <=? 0 then Dict.del d1 item_id else d1))
    else (false, inv).
Proof.
  unfold Inventory.remove_item, Dict.contains, Inventory.get_item_count, Dict.get_default.
  destruct (Dict.get (Inventory.items inv) item_id) as [count |]; [| reflexivity].
  cbn [andb]. destruct (Z.ltb_spec count quantity); destruct (Z.leb_spec quantity count);
    try lia; reflexivity.
Qed.

(** X19.  [remove_item] succeeds exactly when the item is present with at
    least the quantity.  It then lowers the count of that item and the total
    by the quantity, leaves the other counts, and drops the entry when the
    count reaches 0; when it fails the inventory is unchanged. *)
Theorem remove_item_effect (item_id : string) (quantity : Z) (inv : Inventory.t) :
  NoDup (Dict.keys (Inventory.items inv)) ->
  let out := Inventory.remove_item item_id quantity inv in
  fst out
  = Dict.contains (Inventory.items inv) item_id
    && (quantity <=? Inventory.get_item_count item_id inv)
  /\ if fst out then
       Inventory.get_item_count item_id (snd out)
       = Inventory.get_item_count item_id inv - quantity
       /\ (forall other, other <> item_id ->
             Inventory.get_item_count other (snd out)
             = Inventory.get_item_count other inv)
       /\ Inventory.get_total_items (snd out) = Inventory.get_total_items inv - quantity
       /\ Dict.contains (Inventory.items (snd out)) item_id
          = negb (Inventory.get_item_count item_id inv =? quantity)
     else snd out = inv.
Proof.
  intro N. cbv zeta. rewrite remove_item_eq.
  destruct (Dict.contains (Inventory.items inv) item_id) eqn:Ec; cbn [andb];
    [| cbn; now split].
  destruct (Z.leb_spec quantity (Inventory.get_item_count item_id inv)) as [L | L];
    [| cbn; now split].
  cbv zeta. cbn [fst snd]. split; [reflexivity |].
  set (count := Inventory.get_item_count item_id inv) in *.
  unfold Inventory.get_item_count, Inventory.get_total_items, Dict.get_default,
    Dict.contains in *.
  cbn [Inventory.with_items Inventory.items].
  destruct (Z.leb_spec (count - quantity) 0) as [Z0 | Z0].
  - assert (E : count = quantity) by lia.
    rewrite dict_get_del_same by (now apply dict_nodup_set).
    rewrite dict_sum_del, dict_sum_set. unfold Dict.get_default.
    rewrite dict_get_set_same.
    destruct (Z.eqb_spec count quantity); [| lia].
    repeat split; try lia; try (fold count; lia).
    intros other No. rewrite dict_get_del_other, dict_get_set_other by assumption.
    reflexivity.
  - rewrite dict_get_set_same, dict_sum_set. unfold Dict.get_default.
    destruct (Z.eqb_spec count quantity); [lia |].
    repeat split; try lia; try (fold count; lia).
    intros other No. now rewrite dict_get_set_other.
Qed.

Lemma remove_item_effect_witness :
  Inventory.get_item_count "health_potion_small"
    (snd (Inventory.remove_item "health_potion_small" 2 starting_inventory)) = 1.
Proof.
  destruct (remove_item_effect "health_potion_small" 2 starting_inventory) as [E H].
  - vm_compute. repeat constructor; cbn; intuition discriminate.
  - cbv zeta in *. rewrite E in H. vm_compute in H. destruct H as [H _]. exact H.
Defined.

Lemma dict_forall_set {V : Type} (P : string * V -> Prop) (d : Dict.t V)
    (k : string) (v : V) :
  Forall P d -> P (k, v) -> Forall P (Dict.set d k v).
Proof.
  intros H Hk. induction H as [| [k' v'] rest Hx Hrest IH]; cbn [Dict.set].
  - now constructor.
  - destruct (String.eqb_spec k' k) as [E | E].
    + subst. now constructor.
    + now constructor.
Qed.

Lemma dict_forall_del_set {V : Type} (P : string * V -> Prop) (d : Dict.t V)
    (k : string) (v : V) :
  Forall P d -> Forall P (Dict.del (Dict.set d k v) k).
Proof.
  intro H. induction H as [| [k' v'] rest Hx Hrest IH]; cbn [Dict.set Dict.del].
  - rewrite String.eqb_refl. constructor.
  - destruct (k' =? k)%string eqn:E; cbn [Dict.del]; rewrite E; [exact Hrest |].
    now constructor.
Qed.

Lemma inventory_count_bounds (inv : Inventory.t) (item_id : string) :
  inventory_ok inv ->
  match Dict.get (Inventory.items inv) item_id with
  | Some count => 1 <= count /\ ItemsDb.get_item item_id <> None
  | None => True
  end.
Proof.
  intros (_ & F & _). destruct (Dict.get (Inventory.items inv) item_id) as [count |] eqn:E;
    [| exact I].
  apply dict_get_in in E. exact (proj1 (Forall_forall _ _) F _ E).
Qed.

Lemma inventory_ok_add (item_id : string) (quantity : Z) (inv : Inventory.t) :
  1 <= quantity -> inventory_ok inv ->
  inventory_ok (snd (Inventory.add_item item_id quantity inv)).
Proof.
  intros Hq Hok. pose proof (inventory_count_bounds inv item_id Hok) as Hc.
  destruct Hok as (N & F & T). rewrite add_item_eq.
  destruct (Dict.contains ItemsDb.ITEMS_DB item_id) eqn:Ec; cbn [andb];
    [| now repeat split].
  destruct (Z.leb_spec (Inventory.get_total_items inv + quantity)
              (Inventory.max_capacity inv)) as [L | L]; [| now repeat split].
  cbn [snd]. unfold inventory_ok, Inventory.get_total_items, Inventory.get_item_count in *.
  cbn [Inventory.with_items Inventory.items Inventory.max_capacity].
  split; [now apply dict_nodup_set |]. split.
  - apply dict_forall_set; [exact F |]. cbn [fst snd]. unfold Dict.get_default. split.
    + destruct (Dict.get (Inventory.items inv) item_id); lia.
    + unfold ItemsDb.get_item, Dict.contains in *.
      destruct (Dict.get ItemsDb.ITEMS_DB item_id); [discriminate | discriminate].
  - rewrite dict_sum_set. lia.
Qed.

Lemma inventory_ok_remove (item_id : string) (quantity : Z) (inv : Inventory.t) :
  1 <= quantity -> inventory_ok inv ->
  inventory_ok (snd (Inventory.remove_item item_id quantity inv)).
Proof.
  intros Hq Hok. pose proof (inventory_count_bounds inv item_id Hok) as Hc.
  destruct Hok as (N & F & T). rewrite remove_item_eq.
  destruct (Dict.contains (Inventory.items inv) item_id) eqn:Ec; cbn [andb];
    [| now repeat split].
  destruct (Z.leb_spec quantity (Inventory.get_item_count item_id inv)) as [L | L];
    [| now repeat split].
  cbv zeta. cbn [snd].
  unfold inventory_ok, Inventory.get_total_items, Inventory.get_item_count,
    Dict.get_default, Dict.contains in *.
  cbn [Inventory.with_items Inventory.items Inventory.max_capacity].
  destruct (Dict.get (Inventory.items inv) item_id) as [count |] eqn:Eg; [| discriminate].
  destruct Hc as [Hc1 Hc2].
  destruct (Z.leb_spec (count - quantity) 0) as [Z0 | Z0].
  - split; [apply dict_nodup_del; now apply dict_nodup_set |]. split.
    + now apply dict_forall_del_set.
    + rewrite dict_sum_del, dict_sum_set. unfold Dict.get_default.
      rewrite dict_get_set_same, Eg. lia.
  - split; [now apply dict_nodup_set |]. split.
    + apply dict_forall_set; [exact F |]. cbn [fst snd]. split; [lia | exact Hc2].
    + rewrite dict_sum_set. unfold Dict.get_default. rewrite Eg. lia.
Qed.

(** X20.  Along every sequence of [add_item] and [remove_item] with
    quantities of at least 1 on a new inventory, the total never exceeds the
    capacity, every entry holds a count of at least 1 of a registered item,
    and the capacity is the one given at the start. *)
Theorem inventory_stays_within_capacity (capacity : Z) (ops : list InventoryOp) :
  0 <= capacity ->
  forallb valid_inventory_op ops = true ->
  let inv := fold_left apply_inventory_op ops (Inventory.init capacity) in
  inventory_ok inv
  /\ Inventory.max_capacity inv = capacity
  /\ 0 <= Inventory.get_free_space inv.
Proof.
  intros Hc Hv. cbv zeta.
  assert (G : forall inv,
             inventory_ok inv ->
             inventory_ok (fold_left apply_inventory_op ops inv)
             /\ Inventory.max_capacity (fold_left apply_inventory_op ops inv)
                = Inventory.max_capacity inv).
  { induction ops as [| op ops IH]; intros inv Hok; [now split |].
    cbn [forallb] in Hv. apply andb_prop in Hv. destruct Hv as [Hv1 Hv2].
    cbn [fold_left]. destruct (IH Hv2 (apply_inventory_op inv op)) as [I1 I2].
    - destruct op as [item_id quantity | item_id quantity]; cbn [apply_inventory_op];
        cbn [valid_inventory_op] in Hv1; apply Z.leb_le in Hv1.
      + now apply inventory_ok_add.
      + now apply inventory_ok_remove.
    - split; [exact I1 |]. rewrite I2.
      destruct op as [item_id quantity | item_id quantity]; cbn [apply_inventory_op].
      + rewrite add_item_eq. destruct (_ && _); reflexivity.
      + rewrite remove_item_eq. destruct (_ && _); reflexivity. }
  destruct (G (Inventory.init capacity)) as [G1 G2].
  { unfold inventory_ok. cbn. repeat split; [constructor | constructor | lia]. }
  split; [exact G1 |]. split; [exact G2 |].
  destruct G1 as (_ & _ & T). unfold Inventory.get_free_space. lia.
Qed.

Lemma inventory_stays_within_capacity_witness :
  Inventory.get_total_items
    (fold_left apply_inventory_op
       [AddItem "iron_ore" 3; AddItem "rusty_sword" 2; RemoveItem "iron_ore" 3;
        AddItem "iron_ore" 4]
       (Inventory.init 5)) <= 5.
Proof.
  destruct (inventory_stays_within_capacity 5
              [AddItem "iron_ore" 3; AddItem "rusty_sword" 2; RemoveItem "iron_ore" 3;
               AddItem "iron_ore" 4]) as ((_ & _ & T) & E & _).
  - lia.
  - reflexivity.
  - cbv zeta in *. rewrite E in T. exact T.
Defined.

(** X21.  On an inventory in order, removing the quantity that [add_item] has
    just added gives back the inventory as it was, entry for entry and in
    the same order. *)
Theorem add_then_remove_item (item_id : string) (quantity : Z) (inv : Inventory.t) :
  inventory_ok inv -> 1 <= quantity ->
  fst (Inventory.add_item item_id quantity inv) = true ->
  Inventory.remove_item item_id quantity (snd (Inventory.add_item item_id quantity inv))
  = (true, inv).
Proof.
  intros Hok Hq. pose proof (inventory_count_bounds inv item_id Hok) as Hc.
  rewrite add_item_eq. destruct (_ && _); cbn [fst snd]; [intros _ | discriminate].
  rewrite remove_item_eq.
  unfold Dict.contains, Inventory.get_item_count, Dict.get_default.
  cbn [Inventory.with_items Inventory.items]. rewrite dict_get_set_same. cbn [andb].
  destruct (Dict.get (Inventory.items inv) item_id) as [count |] eqn:Eg.
  - destruct Hc as [Hc _].
    destruct (Z.leb_spec quantity (count + quantity)); [| lia]. cbv zeta.
    replace (count + quantity - quantity) with count by lia.
    destruct (Z.leb_spec count 0); [lia |].
    rewrite dict_set_set, (dict_set_same _ _ _ Eg). destruct inv; reflexivity.
  - destruct (Z.leb_spec quantity (0 + quantity)); [| lia]. cbv zeta.
    replace (0 + quantity - quantity) with 0 by lia. cbn [Z.leb Z.compare].
    rewrite dict_set_set, (dict_del_set_new _ _ _ Eg). destruct inv; reflexivity.
Qed.

Lemma add_then_remove_item_witness :
  Inventory.remove_item "iron_ore" 2 (snd (Inventory.add_item "iron_ore" 2 starting_inventory))
  = (true, starting_inventory).
Proof.
  apply add_then_remove_item.
  - unfold inventory_ok. vm_compute. split; [| split].
    + repeat constructor; cbn; intuition discriminate.
    + repeat constructor; discriminate.
    + discriminate.
  - lia.
  - vm_compute. reflexivity.
Defined.

(** X22.  Every id a created enemy can drop is a registered item: when the
    inventory is not full, as the caller checks, [add_item] accepts it. *)
Theorem loot_is_always_storable (enemy_id item_id : string) (e : Enemy.t)
    (g : Random.state) (inv : Inventory.t) :
  EnemiesDb.create_enemy enemy_id = Some e ->
  In item_id (fst (Enemy.get_loot e g)) ->
  Inventory.is_full inv = false ->
  fst (Inventory.add_item item_id 1 inv) = true.
Proof.
  intros Hc Hin Hfull. unfold EnemiesDb.create_enemy in Hc.
  destruct (Dict.get EnemiesDb.ENEMIES_DB enemy_id) as [t |] eqn:Et; [| discriminate].
  inversion Hc. subst e. clear Hc. apply dict_get_in in Et.
  pose proof (enemy_entry_ok _ Et) as Hok. unfold enemy_ok in Hok.
  apply andb_prop in Hok. destruct Hok as [_ Hloot].
  unfold Enemy.get_loot in Hin. rewrite roll_loot_trials in Hin. cbn [fst app] in Hin.
  cbn [Enemy.init Enemy.loot_table] in Hin. apply loot_trials_in in Hin.
  apply in_map_iff in Hin. destruct Hin as ([k chance] & Ek & Hin). cbn [fst] in Ek.
  subst k. rewrite forallb_forall in Hloot. specialize (Hloot _ Hin). cbn [fst] in Hloot.
  rewrite add_item_eq, Hloot. cbn [andb].
  unfold Inventory.is_full in Hfull. apply Z.leb_gt in Hfull.
  destruct (Z.leb_spec (Inventory.get_total_items inv + 1) (Inventory.max_capacity inv));
    [reflexivity | lia].
Qed.

Lemma loot_is_always_storable_witness :
  fst (Inventory.add_item "leather_scrap" 1 starting_inventory) = true.
Proof.
  apply (loot_is_always_storable "slime" "leather_scrap" Enemies.slime
           (Random.of_list [Scenario.high; Scenario.low])).
  - reflexivity.
  - vm_compute. now left.
  - vm_compute. reflexivity.
Defined.

(* ================================================================= *)
(** ** The shops *)

Lemma contains_get_item (item_id : string) :
  Dict.contains ItemsDb.ITEMS_DB item_id
  = match ItemsDb.get_item item_id with Some _ => true | None => false end.
Proof. reflexivity. Qed.

(** X23.  [buy_item] succeeds exactly when the shop has the item in stock,
    the item is registered, the gold covers the price and the inventory is
    not full.  It then takes exactly the price from the gold, adds one unit
    of the item to the inventory, and lowers a positive stock by one (a
    negative stock, which stands for unlimited, is kept).  When it fails,
    the character, the inventory and the shop are unchanged: gold is never
    taken without the item being delivered. *)
Theorem buy_item_effect (item_id : string) (c : Character.t) (inv : Inventory.t)
    (shop : Shop.t) :
  let out := Shop.buy_item item_id c inv shop in
  let price := Shop.get_buy_price item_id shop in
  sale_ok out
  = Shop.has_item item_id shop && Dict.contains ItemsDb.ITEMS_DB item_id
    && (price <=? Character.gold c) && negb (Inventory.is_full inv)
  /\ if sale_ok out then
       sale_character out = Character.with_gold c (Character.gold c - price)
       /\ Inventory.get_item_count item_id (sale_inventory out)
          = Inventory.get_item_count item_id inv + 1
       /\ Inventory.get_total_items (sale_inventory out)
          = Inventory.get_total_items inv + 1
       /\ stock_of item_id (sale_shop out)
          = (if 0 <? stock_of item_id shop then stock_of item_id shop - 1
             else stock_of item_id shop)
     else
       sale_character out = c /\ sale_inventory out = inv /\ sale_shop out = shop.
Proof.
  cbv zeta. unfold Shop.buy_item, sale_ok, sale_character, sale_inventory, sale_shop.
  rewrite contains_get_item.
  destruct (Shop.has_item item_id shop) eqn:Eh; cbn [negb andb fst snd];
    [| now repeat split].
  destruct (ItemsDb.get_item item_id) as [item |] eqn:Ei; cbn [andb fst snd];
    [| now repeat split].
  set (price := Shop.get_buy_price item_id shop).
  destruct (Z.ltb_spec (Character.gold c) price) as [L | L];
    destruct (Z.leb_spec price (Character.gold c)) as [L' | L']; try lia;
    cbn [andb fst snd]; [now repeat split |].
  destruct (Inventory.is_full inv) eqn:Ef; cbn [negb fst snd]; [now repeat split |].
  split; [reflexivity |].
  assert (Ha : Inventory.add_item item_id 1 inv
               = (true,
                  Inventory.with_items inv
                    (Dict.set (Inventory.items inv) item_id
                       (Inventory.get_item_count item_id inv + 1)))).
  { rewrite add_item_eq, contains_get_item, Ei. cbn [andb].
    unfold Inventory.is_full in Ef. apply Z.leb_gt in Ef.
    destruct (Z.leb_spec (Inventory.get_total_items inv + 1)
                (Inventory.max_capacity inv)); [reflexivity | lia]. }
  rewrite Ha. cbn [snd]. split.
  - unfold Character.remove_gold.
    destruct (Z.leb_spec price (Character.gold c)); [reflexivity | lia].
  - unfold Inventory.get_item_count, Inventory.get_total_items, stock_of, Dict.get_default.
    cbn [Inventory.with_items Inventory.items].
    rewrite dict_get_set_same, dict_sum_set. unfold Dict.get_default.
    split; [reflexivity |]. split; [lia |].
    destruct (0 <? _); [| reflexivity].
    cbn [Shop.with_inventory Shop.inventory]. now rewrite dict_get_set_same.
Qed.

(** X24.  [sell_item] succeeds exactly when the inventory holds the item, the
    item is registered and it is not a quest item.  It then removes one unit
    from the inventory, adds exactly the sell price to the gold, and raises
    the stock of the shop by one, a stock of 1 being created when the shop
    did not list the item and a negative (unlimited) stock being kept.
    When it fails nothing changes. *)
Theorem sell_item_effect (item_id : string) (c : Character.t) (inv : Inventory.t)
    (shop : Shop.t) :
  NoDup (Dict.keys (Inventory.items inv)) ->
  let out := Shop.sell_item item_id c inv shop in
  let price := Shop.get_sell_price item_id shop in
  sale_ok out
  = Inventory.has_item item_id 1 inv && Dict.contains ItemsDb.ITEMS_DB item_id
    && negb (is_quest item_id)
  /\ if sale_ok out then
       sale_character out = Character.with_gold c (Character.gold c + price)
       /\ Inventory.get_item_count item_id (sale_inventory out)
          = Inventory.get_item_count item_id inv - 1
       /\ Inventory.get_total_items (sale_inventory out)
          = Inventory.get_total_items inv - 1
       /\ stock_of item_id (sale_shop out)
          = (if Dict.contains (Shop.inventory shop) item_id
             then if 0 <=? stock_of item_id shop then stock_of item_id shop + 1
                  else stock_of item_id shop
             else 1)
     else
       sale_character out = c /\ sale_inventory out = inv /\ sale_shop out = shop.
Proof.
  intro N. cbv zeta.
  unfold Shop.sell_item, sale_ok, sale_character, sale_inventory, sale_shop, is_quest.
  rewrite contains_get_item.
  destruct (Inventory.has_item item_id 1 inv) eqn:Eh; cbn [negb andb fst snd];
    [| now repeat split].
  destruct (ItemsDb.get_item item_id) as [item |] eqn:Ei; cbn [andb fst snd];
    [| now repeat split].
  destruct (remove_item_effect item_id 1 inv N) as [R1 R2]. cbv zeta in R1, R2.
  assert (Hc : Dict.contains (Inventory.items inv) item_id = true).
  { unfold Inventory.has_item, Dict.get_default, Dict.contains in *.
    destruct (Dict.get (Inventory.items inv) item_id); [reflexivity |].
    cbn in Eh. discriminate. }
  unfold Inventory.has_item in Eh. fold (Inventory.get_item_count item_id inv) in Eh.
  rewrite Hc, Eh in R1. cbn [andb] in R1. rewrite R1 in R2.
  destruct R2 as (R2 & _ & R3 & _).
  assert (S : stock_of item_id
                match Dict.get (Shop.inventory shop) item_id with
                | Some stock =>
                    if 0 <=? stock
                    then Shop.with_inventory shop
                           (Dict.set (Shop.inventory shop) item_id (stock + 1))
                    else shop
                | None =>
                    Shop.with_inventory shop (Dict.set (Shop.inventory shop) item_id 1)
                end
              = (if Dict.contains (Shop.inventory shop) item_id
                 then if 0 <=? stock_of item_id shop then stock_of item_id shop + 1
                      else stock_of item_id shop
                 else 1)).
  { unfold stock_of, Dict.contains, Dict.get_default.
    destruct (Dict.get (Shop.inventory shop) item_id) as [stock |] eqn:Es.
    - destruct (0 <=? stock); [| now rewrite Es].
      cbn [Shop.with_inventory Shop.inventory]. now rewrite dict_get_set_same.
    - cbn [Shop.with_inventory Shop.inventory]. now rewrite dict_get_set_same. }
  unfold Items.item_type. destruct (Items.payload item);
    cbn [ItemsDb.item_type_eqb Items.item_type negb fst snd];
    (split; [reflexivity |]); repeat split; assumption.
Qed.

Lemma sell_item_effect_witness :
  Character.gold
    (sale_character
       (Shop.sell_item "rusty_sword" Scenario.hero starting_inventory
          Shop.create_weapon_shop)) = 56
  /\ stock_of "rusty_sword"
       (sale_shop
          (Shop.sell_item "rusty_sword" Scenario.hero starting_inventory
             Shop.create_weapon_shop)) = 1.
Proof.
  destruct (sell_item_effect "rusty_sword" Scenario.hero starting_inventory
              Shop.create_weapon_shop) as [E H].
  - vm_compute. repeat constructor; cbn; intuition discriminate.
  - cbv zeta in *.
    assert (Ok : sale_ok (Shop.sell_item "rusty_sword" Scenario.hero starting_inventory
                            Shop.create_weapon_shop) = true)
      by (vm_compute; reflexivity).
    rewrite Ok in H. destruct H as (H1 & _ & _ & H4). rewrite H1, H4.
    vm_compute. split; reflexivity.
Defined.

Lemma no_profit_db :
  forallb
    (fun pair =>
       forallb (no_profit (fst pair) (snd pair)) (Dict.keys ItemsDb.ITEMS_DB))
    (list_prod Shop.shops Shop.shops) = true.
Proof. vm_compute. reflexivity. Qed.

(** X25.  Between the four shops of the game there is no profitable trade:
    for every item id, what any of them pays for the item is not negative
    and is at most what any of them (itself included) asks for it. *)
Theorem shops_offer_no_profit (seller buyer : Shop.t) (item_id : string) :
  In seller Shop.shops -> In buyer Shop.shops ->
  0 <= Shop.get_sell_price item_id buyer <= Shop.get_buy_price item_id seller.
Proof.
  intros Hs Hb. destruct (ItemsDb.get_item item_id) as [item |] eqn:Ei.
  - pose proof no_profit_db as H. rewrite forallb_forall in H.
    specialize (H (seller, buyer) (proj2 (in_prod_iff _ _ _ _) (conj Hs Hb))).
    cbn [fst snd] in H. rewrite forallb_forall in H.
    assert (Hk : In item_id (Dict.keys ItemsDb.ITEMS_DB)).
    { apply dict_get_in in Ei. unfold Dict.keys. apply in_map_iff.
      now exists (item_id, item). }
    specialize (H _ Hk). unfold no_profit in H. apply andb_prop in H.
    destruct H as [H1 H2]. apply Z.leb_le in H1, H2. lia.
  - unfold Shop.get_sell_price, Shop.get_buy_price. rewrite Ei. lia.
Qed.

Lemma shops_offer_no_profit_witness :
  Shop.get_sell_price "silver_amulet" Shop.create_magic_shop
  <= Shop.get_buy_price "silver_amulet" Shop.create_general_shop.
Proof.
  apply (shops_offer_no_profit Shop.create_general_shop Shop.create_magic_shop).
  - now left.
  - right. right. right. now left.
Defined.

(* ================================================================= *)
(** ** Saving and loading the character *)

Lemma strip_base (c1 c2 : Character.t) (q : Character.Equipped) :
  strip c1 = strip (Character.with_equipped c2 q) ->
  forall k, k <> Character.KHp ->
    Character.base_get (Character.base_stats c1) k
    = Character.base_get (Character.base_stats c2) k.
Proof.
  destruct c1 as [n1 l1 x1 t1 [m1 h1 s1 d1 a1 i1 k1] e1 q1 al1 g1 p1].
  destruct c2 as [n2 l2 x2 t2 [m2 h2 s2 d2 a2 i2 k2] e2 q2 al2 g2 p2].
  unfold strip. cbn. intros H k Hk. inversion H. subst. destruct k; cbn; congruence.
Qed.

Lemma equipped_set_none_same (q : Character.Equipped) (k : Character.SlotKey) :
  Character.equipped_get q k = None -> Character.equipped_set q k None = q.
Proof. destruct q, k; cbn; intro H; subst; reflexivity. Qed.

(** One round of the loop that restores the equipped items, on a slot that
    is still empty. *)
Lemma restore_step (slot : string) (k : Character.SlotKey) (x : option Items.Item)
    (c : Character.t) :
  Character.slot_key slot = Some k ->
  Character.equipped_get (Character.equipped c) k = None ->
  let c1 :=
    match x with
    | Some item_data =>
        match ItemsDb.create_item (Items.item_id item_data) with
        | Some item => snd (Character.equip_item item slot c)
        | None => c
        end
    | None => c
    end in
  identity_of c1 = identity_of c
  /\ Character.equipped c1 = Character.equipped_set (Character.equipped c) k (reloaded x)
  /\ (forall k0, k0 <> Character.KHp ->
        bonus_value (Character.equipment_bonuses c1) k0
        = bonus_value (Character.equipment_bonuses c) k0 + slot_total (reloaded x) k0)
  /\ (forall k0, k0 <> Character.KHp ->
        Character.base_get (Character.base_stats c1) k0
        = Character.base_get (Character.base_stats c) k0)
  /\ Character.hp (Character.base_stats c1)
     = Character.hp (Character.base_stats c) + slot_max_hp (reloaded x).
Proof.
  intros Hk Hq. cbv zeta.
  assert (Same : identity_of c = identity_of c
                 /\ Character.equipped c
                    = Character.equipped_set (Character.equipped c) k None
                 /\ (forall k0, k0 <> Character.KHp ->
                       bonus_value (Character.equipment_bonuses c) k0
                       = bonus_value (Character.equipment_bonuses c) k0
                         + slot_total None k0)
                 /\ (forall k0, k0 <> Character.KHp ->
                       Character.base_get (Character.base_stats c) k0
                       = Character.base_get (Character.base_stats c) k0)
                 /\ Character.hp (Character.base_stats c)
                    = Character.hp (Character.base_stats c) + slot_max_hp None).
  { rewrite (equipped_set_none_same _ _ Hq). cbn [slot_total slot_max_hp].
    repeat split; intros; lia. }
  destruct x as [item_data |]; cbn [reloaded]; [| exact Same].
  destruct (ItemsDb.create_item (Items.item_id item_data)) as [item |]; [| exact Same].
  assert (E0 : snd (Character.unequip_item slot c) = c).
  { rewrite unequip_nothing; [reflexivity |]. right. now exists k. }
  destruct (equip_frame item slot k c Hk) as (_ & F2 & F3).
  destruct (equip_view item slot k c Hk) as (_ & V2 & _ & V4).
  cbv zeta in *. rewrite E0 in *. cbn [slot_total slot_max_hp].
  split; [rewrite (equip_identity item slot c); reflexivity |].
  split; [exact V2 |]. split; [exact F3 |]. split; [| exact V4].
  exact (strip_base _ _ _ F2).
Qed.

Lemma load_character_eq (c : Character.t) :
  let c' := SaveSystem.load_character (SaveSystem.to_dict c) in
  let w := reloaded (Character.weapon (Character.equipped c)) in
  let a := reloaded (Character.armor (Character.equipped c)) in
  let r := reloaded (Character.accessory (Character.equipped c)) in
  identity_of c' = identity_of c
  /\ Character.equipped c'
     = {| Character.weapon := w; Character.armor := a; Character.accessory := r |}
  /\ (forall k, k <> Character.KHp ->
        bonus_value (Character.equipment_bonuses c') k
        = bonus_value (Character.equipment_bonuses c) k
          + (slot_total w k + slot_total a k + slot_total r k))
  /\ (forall k, k <> Character.KHp ->
        Character.base_get (Character.base_stats c') k
        = Character.base_get (Character.base_stats c) k)
  /\ Character.hp (Character.base_stats c')
     = Character.hp (Character.base_stats c)
       + (slot_max_hp w + slot_max_hp a + slot_max_hp r).
Proof.
  cbv zeta. unfold SaveSystem.load_character, SaveSystem.restore_equipped.
  cbn [SaveSystem.to_dict SaveSystem.data_equipped fold_left fst snd].
  set (c0 := SaveSystem.from_dict _).
  destruct (restore_step "weapon" Character.KWeapon
              (Character.weapon (Character.equipped c)) c0 eq_refl eq_refl)
    as (A1 & A2 & A3 & A4 & A5).
  cbv zeta in *. set (c1 := match Character.weapon (Character.equipped c) with
                            | Some _ => _ | None => _ end) in *.
  destruct (restore_step "armor" Character.KArmor
              (Character.armor (Character.equipped c)) c1 eq_refl)
    as (B1 & B2 & B3 & B4 & B5); [rewrite A2; reflexivity |].
  cbv zeta in *. set (c2 := match Character.armor (Character.equipped c) with
                            | Some _ => _ | None => _ end) in *.
  destruct (restore_step "accessory" Character.KAccessory
              (Character.accessory (Character.equipped c)) c2 eq_refl)
    as (C1 & C2 & C3 & C4 & C5); [rewrite B2, A2; reflexivity |].
  cbv zeta in *. set (c3 := match Character.accessory (Character.equipped c) with
                            | Some _ => _ | None => _ end) in *.
  split; [rewrite C1, B1, A1; reflexivity |].
  split; [rewrite C2, B2, A2; reflexivity |].
  split; [intros k Hk; rewrite C3, B3, A3 by assumption; cbn; lia |].
  split; [intros k Hk; rewrite C4, B4, A4 by assumption; reflexivity |].
  rewrite C5, B5, A5. cbn. lia.
Qed.

(** X26.  Saving and loading keeps the name, the level, the xp, the gold, the
    stat points, the alive flag and the base stats, and puts in each slot a
    new copy of the item that was there.  But the equipment bonuses are
    restored from the save and then each copy is equipped on top: every
    bonus is the saved bonus plus what the copies give, and the hp grows by
    the max-hp bonus of the copies. *)
Theorem load_game_applies_equipment_again (c : Character.t) :
  let c' := SaveSystem.load_character (SaveSystem.to_dict c) in
  let w := reloaded (Character.weapon (Character.equipped c)) in
  let a := reloaded (Character.armor (Character.equipped c)) in
  let r := reloaded (Character.accessory (Character.equipped c)) in
  identity_of c' = identity_of c
  /\ Character.equipped c'
     = {| Character.weapon := w; Character.armor := a; Character.accessory := r |}
  /\ (forall k, k <> Character.KHp ->
        bonus_value (Character.equipment_bonuses c') k
        = bonus_value (Character.equipment_bonuses c) k
          + (slot_total w k + slot_total a k + slot_total r k))
  /\ (forall k, k <> Character.KHp ->
        Character.base_get (Character.base_stats c') k
        = Character.base_get (Character.base_stats c) k)
  /\ Character.hp (Character.base_stats c')
     = Character.hp (Character.base_stats c)
       + (slot_max_hp w + slot_max_hp a + slot_max_hp r).
Proof. exact (load_character_eq c). Qed.

(** X27.  For a character whose bonuses are the sums over its equipped items
    and whose items are copies made by [create_item], as in a new game, one
    save and load doubles every equipment bonus while the equipped items are
    the same; unequipping everything afterwards leaves the saved bonuses
    behind. *)
Theorem load_game_doubles_bonuses (c : Character.t) (k : Character.StatKey) :
  bonuses_match c -> fresh_items c -> k <> Character.KHp ->
  let c' := SaveSystem.load_character (SaveSystem.to_dict c) in
  let bare :=
    fold_left apply_op [UnequipItem "weapon"; UnequipItem "armor"; UnequipItem "accessory"]
      c' in
  Character.equipped c' = Character.equipped c
  /\ bonus_value (Character.equipment_bonuses c') k
     = 2 * bonus_value (Character.equipment_bonuses c) k
  /\ Character.equipped bare
     = {| Character.weapon := None; Character.armor := None; Character.accessory := None |}
  /\ bonus_value (Character.equipment_bonuses bare) k
     = bonus_value (Character.equipment_bonuses c) k.
Proof.
  intros Hm Hf Hk. cbv zeta.
  destruct (load_character_eq c) as (_ & L2 & L3 & _). cbv zeta in *.
  pose proof (Hf Character.KWeapon) as Fw. pose proof (Hf Character.KArmor) as Fa.
  pose proof (Hf Character.KAccessory) as Fr. cbn [Character.equipped_get] in Fw, Fa, Fr.
  rewrite Fw, Fa, Fr in *.
  set (c' := SaveSystem.load_character (SaveSystem.to_dict c)) in *.
  assert (Eq : Character.equipped c' = Character.equipped c).
  { rewrite L2. destruct (Character.equipped c); reflexivity. }
  split; [exact Eq |].
  assert (Hb : bonus_value (Character.equipment_bonuses c') k
               = 2 * bonus_value (Character.equipment_bonuses c) k).
  { rewrite (L3 k Hk), (Hm k Hk). unfold equipped_total. lia. }
  split; [exact Hb |].
  cbn [fold_left apply_op].
  set (u1 := snd (Character.unequip_item "weapon" c')).
  set (u2 := snd (Character.unequip_item "armor" u1)).
  set (u3 := snd (Character.unequip_item "accessory" u2)).
  assert (Step : forall slot sk d,
             Character.slot_key slot = Some sk ->
             let u := snd (Character.unequip_item slot d) in
             Character.equipped u = Character.equipped_set (Character.equipped d) sk None
             /\ bonus_value (Character.equipment_bonuses u) k
                = bonus_value (Character.equipment_bonuses d) k
                  - slot_total (Character.equipped_get (Character.equipped d) sk) k).
  { intros slot sk d Hs. cbv zeta.
    destruct (Character.equipped_get (Character.equipped d) sk) as [item |] eqn:Eg.
    - destruct (unequip_frame slot sk item d Hs Eg) as (_ & U2 & U3). cbv zeta in *.
      split; [| exact (U3 k Hk)].
      apply strip_equipped in U2. exact U2.
    - rewrite unequip_nothing by (right; now exists sk). cbn [snd slot_total].
      split; [now rewrite equipped_set_none_same | lia]. }
  destruct (Step "weapon" Character.KWeapon c' eq_refl) as [S1 T1].
  destruct (Step "armor" Character.KArmor u1 eq_refl) as [S2 T2].
  destruct (Step "accessory" Character.KAccessory u2 eq_refl) as [S3 T3].
  cbv zeta in *. fold u1 in S1, T1. fold u2 in S2, T2. fold u3 in S3, T3.
  split.
  - rewrite S3, S2, S1. reflexivity.
  - rewrite T3, T2, T1, S2, S1, Eq, Hb, (Hm k Hk). unfold equipped_total.
    destruct (Character.equipped c);
      cbn [Character.equipped_get Character.equipped_set Character.weapon
           Character.armor Character.accessory].
    lia.
Qed.

Lemma load_game_doubles_bonuses_witness :
  Character.get_stat (fst (SaveSystem.new_game "Hero")) "strength" = 12
  /\ bonus_value (Character.equipment_bonuses loaded_once) Character.KStrength = 4
  /\ Character.get_stat loaded_once "strength" = 14.
Proof.
  destruct (load_game_doubles_bonuses (fst (SaveSystem.new_game "Hero"))
              Character.KStrength) as (_ & H & _).
  - intros k Hk. destruct k; reflexivity.
  - intro k. destruct k; reflexivity.
  - discriminate.
  - cbv zeta in H. fold loaded_once in H. split; [reflexivity |]. split.
    + rewrite H. reflexivity.
    + unfold Character.get_stat. cbn [Character.stat_key String.eqb Ascii.eqb Bool.eqb].
      change (Character.base_get (Character.base_stats loaded_once) Character.KStrength
              + bonus_value (Character.equipment_bonuses loaded_once) Character.KStrength
              = 14).
      rewrite H. vm_compute. reflexivity.
Defined.

(* ================================================================= *)
(** ** The stat points *)

Lemma ledger_ext (c1 c2 : Character.t) :
  identity_of c1 = identity_of c2 ->
  (forall k, k <> Character.KHp ->
     Character.base_get (Character.base_stats c1) k
     = Character.base_get (Character.base_stats c2) k) ->
  ledger_ok c2 -> ledger_ok c1.
Proof.
  intros Hi Hb [L1 L2]. unfold identity_of in Hi. inversion Hi as [[Hn Hl Hx Ht Ha Hg Hp]].
  pose proof (Hb Character.KMaxHp ltac:(discriminate)) as B1.
  pose proof (Hb Character.KStrength ltac:(discriminate)) as B2.
  pose proof (Hb Character.KDefense ltac:(discriminate)) as B3.
  pose proof (Hb Character.KAgility ltac:(discriminate)) as B4.
  pose proof (Hb Character.KIntelligence ltac:(discriminate)) as B5.
  pose proof (Hb Character.KLuck ltac:(discriminate)) as B6.
  cbn [Character.base_get] in *.
  unfold ledger_ok, ledger in *. rewrite Hl, Hp, B1, B2, B3, B4, B5, B6. now split.
Qed.

Lemma unequip_keeps_base (slot : string) (c : Character.t) :
  forall k, k <> Character.KHp ->
    Character.base_get (Character.base_stats (snd (Character.unequip_item slot c))) k
    = Character.base_get (Character.base_stats c) k.
Proof.
  destruct (Character.slot_key slot) as [sk |] eqn:Ek.
  2: { now rewrite unequip_nothing by (now left). }
  destruct (Character.equipped_get (Character.equipped c) sk) as [item |] eqn:Eq.
  2: { now rewrite unequip_nothing by (right; now exists sk). }
  destruct (unequip_frame slot sk item c Ek Eq) as (_ & H & _).
  exact (strip_base _ _ _ H).
Qed.

Lemma equip_keeps_base (item : Items.Item) (slot : string) (c : Character.t) :
  forall k, k <> Character.KHp ->
    Character.base_get (Character.base_stats (snd (Character.equip_item item slot c))) k
    = Character.base_get (Character.base_stats c) k.
Proof.
  destruct (Character.slot_key slot) as [sk |] eqn:Ek.
  2: { unfold Character.equip_item. now rewrite Ek. }
  destruct (equip_frame item slot sk c Ek) as (_ & H & _). cbv zeta in H.
  intros k Hk. rewrite (strip_base _ _ _ H k Hk). now apply unequip_keeps_base.
Qed.

Lemma ledger_ok_level_up (c : Character.t) :
  ledger_ok c -> ledger_ok (snd (Character.level_up c)).
Proof.
  intros [L1 L2].
  destruct (Z.lt_ge_cases (Character.xp c) (Character.xp_to_next_level c)) as [H | H].
  - rewrite level_up_below by exact H. now split.
  - rewrite level_up_reached by exact H. unfold ledger_ok, ledger in *.
    cbn [snd Character.level Character.stat_points Character.base_stats
         Character.base_set Character.max_hp Character.strength Character.defense
         Character.agility Character.intelligence Character.luck].
    split; [lia |].
    replace (Z.to_nat (Character.level c + 1 - 1))
      with (S (Z.to_nat (Character.level c - 1))) by lia.
    cbn [points_granted].
    replace (Z.of_nat (Z.to_nat (Character.level c - 1)) + 2)
      with (Character.level c + 1) by lia.
    lia.
Qed.

Lemma ledger_ok_apply_op (c : Character.t) (op : Op) :
  ledger_ok c -> ledger_ok (apply_op c op).
Proof.
  intro H. destruct op; cbn [apply_op].
  - exact H.
  - unfold Character.take_damage. cbv zeta. cbn [snd].
    match goal with |- context [if ?b then _ else _] => destruct b end; exact H.
  - now apply ledger_ok_level_up.
  - unfold Character.add_xp. cbv zeta.
    match goal with |- context [if ?b then _ else _] => destruct b end.
    + apply ledger_ok_level_up. exact H.
    + exact H.
  - destruct H as [L1 L2]. unfold Character.allocate_stat.
    destruct (Character.stat_key stat_name) as [k |]; [| now split].
    destruct k; try (now split);
      destruct (Character.stat_points c <? points); try (now split);
      unfold ledger_ok, ledger in *;
      cbn -[Z.mul Z.add Z.sub Z.to_nat points_granted]; (split; [exact L1 | lia]).
  - eapply ledger_ext; [apply equip_identity | apply equip_keeps_base | exact H].
  - eapply ledger_ext; [apply unequip_identity | apply unequip_keeps_base | exact H].
Qed.

(** X28.  Stat points are neither created nor lost.  Along every sequence of
    operations on a fresh character, with any arguments, five times the
    unspent points plus five times the five base stats plus the base max hp
    minus ten times the level is 365 plus five times the points granted by
    the level-ups so far, [3 + level // 5] for each level reached: a point
    buys 1 in a stat or 5 max hp, and nothing else moves these numbers. *)
Theorem stat_points_are_conserved (name : string) (ops : list Op) :
  let c := fold_left apply_op ops (Character.init name) in
  ledger c = 365 + 5 * points_granted (Z.to_nat (Character.level c - 1)).
Proof.
  cbv zeta.
  assert (H : ledger_ok (fold_left apply_op ops (Character.init name))).
  { assert (H0 : ledger_ok (Character.init name)) by (split; [cbn; lia | reflexivity]).
    revert H0. generalize (Character.init name).
    induction ops as [| op ops IH]; intros c0 H0; [exact H0 |].
    cbn [fold_left]. apply IH. now apply ledger_ok_apply_op. }
  exact (proj2 H).
Qed.

(* ================================================================= *)
(** ** Consumables *)

Lemma registered_items_usable :
  forallb (fun entry => usable (Some (snd entry))) ItemsDb.ITEMS_DB = true.
Proof. vm_compute. reflexivity. Qed.

Lemma use_raises (effect_type : string) (effect_amount : Z) (c : Character.t) :
  0 <= effect_amount -> healthy c ->
  let c' := snd (Consumable.use effect_type effect_amount c) in
  Character.hp (Character.base_stats c) <= Character.hp (Character.base_stats c')
  /\ Character.get_max_hp c <= Character.get_max_hp c'.
Proof.
  intros Ha Hc. pose proof Hc as (H1 & H2 & H3). cbv zeta. unfold Consumable.use.
  rewrite get_max_hp_eq in H3.
  destruct (effect_type =? "heal")%string.
  - unfold Character.heal. cbn [snd]. rewrite !get_max_hp_eq.
    cbn [Character.set_base Character.with_base Character.base_set Character.base_stats
         Character.equipment_bonuses Character.hp Character.max_hp].
    lia.
  - destruct (effect_type =? "max_hp_boost")%string.
    + cbn [snd]. rewrite !get_max_hp_eq.
      cbn [Character.set_base Character.with_base Character.base_set Character.base_stats
           Character.equipment_bonuses Character.hp Character.max_hp].
      lia.
    + destruct (effect_type =? "revive")%string; [| cbn [snd]; lia].
      rewrite (healthy_not_dead c Hc). cbn [snd]. lia.
Qed.

(** X29.  No registered consumable hurts: used on a living character with hp
    within the max hp, it leaves the character alive with hp within the max
    hp, and neither the hp nor the max hp goes down.  (A revive item used on
    a living character changes nothing.) *)
Theorem consumables_never_hurt (item_id : string) (item : Items.Item)
    (effect_type : string) (effect_amount : Z) (c : Character.t) :
  ItemsDb.get_item item_id = Some item ->
  Items.payload item = Items.ConsumablePayload effect_type effect_amount ->
  healthy c ->
  let c' := snd (Consumable.use effect_type effect_amount c) in
  healthy c'
  /\ Character.hp (Character.base_stats c) <= Character.hp (Character.base_stats c')
  /\ Character.get_max_hp c <= Character.get_max_hp c'
  /\ (effect_type = "revive" -> c' = c).
Proof.
  intros Hg Hp Hc. cbv zeta.
  assert (Ha : 0 <= effect_amount).
  { apply dict_get_in in Hg. pose proof registered_items_usable as U.
    rewrite forallb_forall in U. specialize (U _ Hg). cbn [snd usable] in U.
    rewrite Hp in U. now apply Z.leb_le in U. }
  split; [now apply use_healthy |].
  destruct (use_raises effect_type effect_amount c Ha Hc) as [R1 R2]. cbv zeta in *.
  split; [exact R1 |]. split; [exact R2 |].
  intro E. subst effect_type. unfold Consumable.use. cbn [String.eqb Ascii.eqb Bool.eqb].
  now rewrite (healthy_not_dead c Hc).
Qed.

Lemma consumables_never_hurt_witness :
  Character.hp (Character.base_stats adorned)
  <= Character.hp (Character.base_stats (snd (Consumable.use "heal" 50 adorned))).
Proof.
  destruct (consumables_never_hurt "health_potion_small"
              (ItemsDb.Consumable "health_potion_small" "Small Health Potion"
                 "Restores 50 HP" 20 "heal" 50 Items.COMMON)
              "heal" 50 adorned) as (_ & H & _).
  - reflexivity.
  - reflexivity.
  - unfold healthy. vm_compute. repeat split; discriminate.
  - exact H.
Defined.
